(** * filemaker-mcp: error mapping, session management and analyzers

    A shallow embedding of
    - [src/api/error-mapper.ts] (module [ErrorMapper]),
    - [src/api/client.ts] at its interface (module [Client]),
    - [src/api/session.ts] (module [Session]),
    - [src/analyzers/global-searcher.ts] (module [GlobalSearcher]),
    - [src/analyzers/relationship-inferrer.ts] (module [RelationshipInferrer]),
    - [src/analyzers/metadata-aggregator.ts] (module [MetadataAggregator]),
    - [src/analyzers/portal-analyzer.ts] (module [PortalAnalyzer]),
    - [src/config.ts] (module [ConfigLoader]) and [src/tools/auth.ts]
      (module [AuthTools]),
    followed by sample remote systems (modules [Scenario] and [Samples]),
    by the reference definitions that the code is compared with (module
    [Reference]) and by the properties proved about the code (the modules
    whose names end in [Facts] and [Laws]).

    Conventions.
    - JavaScript numbers that hold status codes, error codes and limits are
      integers of [Z]; array lengths and record counts are [nat]; the
      sample limit of the portal analyzer, which the source uses as a bound
      of a counting loop, is a rational of [Q].
    - JavaScript strings are [string]s that hold the UTF-8 bytes of the
      text.  [startsWith], [endsWith], [substring] and the regular
      expressions are applied with ASCII arguments and at ASCII boundaries,
      where bytes and UTF-16 code units agree; [trim] and the [.] of the
      regular expressions know the white space and the line terminators
      beyond ASCII by their UTF-8 encodings; [toLowerCase] is that of the
      source on text whose cased letters are ASCII, and the properties
      that compare lower-cased names say so.
    - An optional property [x?: T] is an [option T].
    - [async] functions run sequentially: an [await] is a bind of the state
      monad [M] of module [Session].
    - Calls of the logger write to the diagnostic stream only and are left
      out. *)

From Stdlib Require Import ZArith List String Ascii Bool Arith Lia Permutation.
From Stdlib Require Import QArith Qminmax.
From Stdlib Require Import DecimalString.
Import ListNotations.
Open Scope string_scope.
Open Scope list_scope.
Open Scope Z_scope.

(* ====================================================================== *)
(** * types/tools.ts: the error response *)
(* ====================================================================== *)

Module Tools.

(** The [error] object of an [ErrorResponse]. *)
Record ErrorDetail : Type := mkErrorDetail {
  code : Z;
  message : string;
  details : option string;
  fmErrorCode : option Z;
  retryable : bool
}.

(** [ErrorResponse]: [success] is the constant [false], so the response is
    determined by its [error] object. *)
Record ErrorResponse : Type := mkErrorResponse {
  error : ErrorDetail
}.

Inductive ConfidenceLevel : Type := high | medium | low.

Inductive ExportFormat : Type := json | xml | html.

End Tools.

(* ====================================================================== *)
(** * api/error-mapper.ts *)
(* ====================================================================== *)

Module ErrorMapper.

Record ErrorInfo : Type := mkErrorInfo {
  code : Z;
  message : string;
  retryable : bool
}.

Module ErrorCodes.
Definition AUTH_INVALID_CREDENTIALS : Z := 1001.
Definition AUTH_SERVER_UNAVAILABLE : Z := 1002.
Definition AUTH_DATABASE_NOT_FOUND : Z := 1003.
Definition AUTH_INSUFFICIENT_PRIVILEGES : Z := 1004.
Definition AUTH_ACCOUNT_LOCKED : Z := 1005.
Definition SESSION_EXPIRED : Z := 2001.
Definition SESSION_INVALID : Z := 2002.
Definition SESSION_MAX_CONNECTIONS : Z := 2003.
Definition API_LAYOUT_NOT_FOUND : Z := 3001.
Definition API_RECORD_NOT_FOUND : Z := 3002.
Definition API_FIELD_NOT_FOUND : Z := 3003.
Definition API_INVALID_QUERY : Z := 3004.
Definition API_INSUFFICIENT_PRIVILEGES : Z := 3005.
Definition API_RATE_LIMITED : Z := 3006.
Definition ANALYSIS_METADATA_FAILED : Z := 4001.
Definition ANALYSIS_PORTAL_FAILED : Z := 4002.
Definition ANALYSIS_TIMEOUT : Z := 4003.
Definition INTERNAL_UNKNOWN : Z := 5001.
Definition INTERNAL_CONFIG_ERROR : Z := 5002.
Definition INTERNAL_MEMORY_ERROR : Z := 5003.
End ErrorCodes.

(** A [Record<number, ErrorInfo>] literal.  The entries are kept in the
    order in which [Object.values] enumerates them (integer keys in
    ascending order, which is also the order of the source text), because
    [isRetryableError] depends on it. *)
Definition ErrorMap : Type := list (Z * ErrorInfo).

Definition HTTP_ERROR_MAP : ErrorMap :=
  [ (400, mkErrorInfo ErrorCodes.API_INVALID_QUERY "Bad request" false);
    (401, mkErrorInfo ErrorCodes.SESSION_EXPIRED "Session expired" true);
    (403, mkErrorInfo ErrorCodes.AUTH_INSUFFICIENT_PRIVILEGES
                      "Insufficient privileges" false);
    (404, mkErrorInfo ErrorCodes.API_LAYOUT_NOT_FOUND "Resource not found" false);
    (409, mkErrorInfo ErrorCodes.API_INVALID_QUERY "Conflict" false);
    (413, mkErrorInfo ErrorCodes.API_INVALID_QUERY "Payload too large" false);
    (429, mkErrorInfo ErrorCodes.API_RATE_LIMITED
                      "Rate limited - too many requests" true);
    (500, mkErrorInfo ErrorCodes.INTERNAL_UNKNOWN "FileMaker server error" true);
    (502, mkErrorInfo ErrorCodes.AUTH_SERVER_UNAVAILABLE "Bad gateway" true);
    (503, mkErrorInfo ErrorCodes.AUTH_SERVER_UNAVAILABLE
                      "FileMaker server unavailable" true);
    (504, mkErrorInfo ErrorCodes.AUTH_SERVER_UNAVAILABLE "Gateway timeout" true) ].

Definition FM_ERROR_MAP : ErrorMap :=
  [ (100, mkErrorInfo ErrorCodes.API_RECORD_NOT_FOUND "File is missing" false);
    (101, mkErrorInfo ErrorCodes.API_RECORD_NOT_FOUND "Record is missing" false);
    (102, mkErrorInfo ErrorCodes.API_FIELD_NOT_FOUND "Field is missing" false);
    (105, mkErrorInfo ErrorCodes.API_LAYOUT_NOT_FOUND "Layout is missing" false);
    (212, mkErrorInfo ErrorCodes.AUTH_INVALID_CREDENTIALS
                      "Invalid username or password" false);
    (214, mkErrorInfo ErrorCodes.AUTH_ACCOUNT_LOCKED "Account is locked out" false);
    (400, mkErrorInfo ErrorCodes.API_INVALID_QUERY "Find criteria are empty" false);
    (401, mkErrorInfo ErrorCodes.API_RECORD_NOT_FOUND
                      "No records match the request" false);
    (802, mkErrorInfo ErrorCodes.AUTH_SERVER_UNAVAILABLE "Unable to open file" true);
    (952, mkErrorInfo ErrorCodes.AUTH_INSUFFICIENT_PRIVILEGES
                      "Insufficient access privileges" false) ].

(** [map[key]]: the entry stored under [key], if any. *)
Fixpoint lookup (key : Z) (map : ErrorMap) : option ErrorInfo :=
  match map with
  | [] => None
  | (k, info) :: rest => if k =? key then Some info else lookup key rest
  end.

(** [Object.values(map)]. *)
Definition values (map : ErrorMap) : list ErrorInfo := List.map snd map.

(** The descriptor of step 3 of [resolveError]. *)
Definition unknownError : ErrorInfo :=
  mkErrorInfo ErrorCodes.INTERNAL_UNKNOWN "Unknown error" false.

Definition resolveError (httpStatus : Z) (fmErrorCode : option Z) : ErrorInfo :=
  match fmErrorCode with
  | Some fm =>
      match lookup fm FM_ERROR_MAP with
      | Some info => info
      | None =>
          match lookup httpStatus HTTP_ERROR_MAP with
          | Some info => info
          | None => unknownError
          end
      end
  | None =>
      match lookup httpStatus HTTP_ERROR_MAP with
      | Some info => info
      | None => unknownError
      end
  end.

Definition createErrorResponse
    (httpStatus : Z) (fmErrorCode : option Z) (context : option string)
    : Tools.ErrorResponse :=
  let errorInfo := resolveError httpStatus fmErrorCode in
  Tools.mkErrorResponse
    (Tools.mkErrorDetail errorInfo.(code) errorInfo.(message) context
                         fmErrorCode errorInfo.(retryable)).

(** One [for (const info of Object.values(map))] loop of
    [isRetryableError]: the flag of the first entry whose internal code is
    [errorCode], or [None] when the loop runs to its end. *)
Fixpoint scanRetryable (errorCode : Z) (infos : list ErrorInfo) : option bool :=
  match infos with
  | [] => None
  | info :: rest =>
      if info.(code) =? errorCode then Some info.(retryable)
      else scanRetryable errorCode rest
  end.

Definition isRetryableError (errorCode : Z) : bool :=
  match scanRetryable errorCode (values HTTP_ERROR_MAP) with
  | Some r => r
  | None =>
      match scanRetryable errorCode (values FM_ERROR_MAP) with
      | Some r => r
      | None => false
      end
  end.

End ErrorMapper.

(* ====================================================================== *)
(** * types/filemaker.ts: payloads of the Data API *)
(* ====================================================================== *)

Module FileMaker.

Record FMMessage : Type := mkFMMessage {
  msg_code : string;
  msg_text : string
}.

Inductive FMFieldType : Type := normal | calculation | summary.

(** [FMResultType] and [FMDisplayType] are unions of string literals; the
    analyzers receive them from the remote system as plain strings (and
    [buildSearchValue] declares [fieldResultType: string]), so they are
    [string]s here: "text", "number", "date", "time", "timestamp",
    "container", or whatever else the server sends. *)
Record FMFieldMetaData : Type := mkFMFieldMetaData {
  name : string;
  type : FMFieldType;
  displayType : string;
  result : string;
  global : bool;
  autoEnter : bool;
  fourDigitYear : bool;
  maxRepeat : Z;
  maxCharacters : Z;
  notEmpty : bool;
  numeric : bool;
  repetitions : Z;
  timeOfDay : bool
}.

(** [Record<string, X>] objects are enumerated by [Object.entries]; they
    are lists of entries in enumeration order. *)
Record FMLayoutMetadataResponse : Type := mkFMLayoutMetadataResponse {
  fieldMetaData : list FMFieldMetaData;
  portalMetaData : option (list (string * list FMFieldMetaData));
  valueLists : option (list (string * list string))
}.

(** A value of [fieldData]: [None] is [null] or [undefined], [Some s] is a
    value [v] with [String(v) = s]. *)
Definition FieldValue : Type := option string.

(** [portalData] is not read by the code embedded here. *)
Record FMRecord : Type := mkFMRecord {
  recordId : string;
  modId : string;
  fieldData : list (string * FieldValue)
}.

(** [dataInfo] is not read by the code embedded here. *)
Record FMRecordResponse : Type := mkFMRecordResponse {
  data : list FMRecord
}.

(** [folderLayoutNames] is not read by the code embedded here. *)
Record FMLayoutInfo : Type := mkFMLayoutInfo {
  layout_name : string;
  layout_isFolder : option bool
}.

Record FMScriptInfo : Type := mkFMScriptInfo {
  script_name : string;
  script_isFolder : option bool
}.

Record FMLayoutsResponse : Type := mkFMLayoutsResponse {
  layouts : list FMLayoutInfo
}.

Record FMScriptsResponse : Type := mkFMScriptsResponse {
  scripts : list FMScriptInfo
}.

(** [!x.isFolder] for an optional boolean. *)
Definition notFolder (isFolder : option bool) : bool :=
  match isFolder with
  | Some true => false
  | _ => true
  end.

End FileMaker.

(* ====================================================================== *)
(** * config.ts and api/client.ts: the boundary to the remote system *)
(* ====================================================================== *)

Module Config.

Record FileMakerConfig : Type := mkFileMakerConfig {
  server : string;
  database : string;
  username : string;
  password : string;
  apiVersion : string;
  sslVerify : bool;
  sessionTimeout : Z
}.

End Config.

Module Client.

Record FileMakerHttpClient : Type := mkFileMakerHttpClient {
  baseUrl : string;
  apiVersion : string;
  database : string;
  sslVerify : bool
}.

(** [new FileMakerHttpClient(config)]. *)
Definition newClient (config : Config.FileMakerConfig) : FileMakerHttpClient :=
  mkFileMakerHttpClient config.(Config.server) config.(Config.apiVersion)
                        config.(Config.database) config.(Config.sslVerify).

Record ApiResponse (T : Type) : Type := mkApiResponse {
  status : Z;
  data : T;
  messages : list FileMaker.FMMessage
}.
Arguments mkApiResponse {T} _ _ _.
Arguments status {T} _.
Arguments data {T} _.
Arguments messages {T} _.

(** What a caller of [withSession] holds: an [ApiResponse<T>], an
    [ErrorResponse], or a value that is neither (no [success: false] and no
    [data] key).  [FileMakerHttpClient.request] builds only the first two;
    the callers guard against the third with ['data' in result]. *)
Inductive Response (T : Type) : Type :=
| Success (response : ApiResponse T)
| Failure (response : Tools.ErrorResponse)
| NoData.
Arguments Success {T} _.
Arguments Failure {T} _.
Arguments NoData {T}.

Definition isErrorResponse {T : Type} (response : Response T) : bool :=
  match response with
  | Failure _ => true
  | _ => false
  end.

(** [!isErrorResponse(response) && 'data' in response] *)
Definition hasData {T : Type} (response : Response T) : bool :=
  match response with
  | Success _ => true
  | _ => false
  end.

(** The body of [POST /layouts/{name}/_find]: one single-key object per
    searched field, and the record limit. *)
Record FindRequestBody : Type := mkFindRequestBody {
  query : list (string * string);
  limit : Z
}.

(** The requests the embedded code sends, with the token they carry:
    [GET /layouts], [GET /layouts/{layoutName}],
    [POST /layouts/{layoutName}/_find], [GET /scripts] and
    [DELETE /sessions/{token}]. *)
Inductive Request : Type :=
| GetLayouts (token : string)
| GetLayoutMetadata (layoutName token : string)
| PostFind (layoutName token : string) (body : FindRequestBody)
| GetScripts (token : string)
| DeleteSession (token : string).

(** The remote system and the clock, as a transition system on a state
    [W]: every request is answered from the current state and moves to a
    next one, so that answers may change from one call to the next.
    [fetch] failures and timeouts are caught inside
    [FileMakerHttpClient.request] and come back as [Failure]. *)
Record Remote (W : Type) : Type := mkRemote {
  getLayouts :
    FileMakerHttpClient -> string -> W -> Response FileMaker.FMLayoutsResponse * W;
  getLayoutMetadata :
    FileMakerHttpClient -> string -> string -> W ->
    Response FileMaker.FMLayoutMetadataResponse * W;
  postFind :
    FileMakerHttpClient -> string -> string -> FindRequestBody -> W ->
    Response FileMaker.FMRecordResponse * W;
  getScripts :
    FileMakerHttpClient -> string -> W -> Response FileMaker.FMScriptsResponse * W;
  deleteSession :
    FileMakerHttpClient -> string -> W -> Response unit * W;
  dateNow : W -> Z;
  isoNow : W -> string
}.
Arguments getLayouts {W} _ _ _ _.
Arguments getLayoutMetadata {W} _ _ _ _ _.
Arguments postFind {W} _ _ _ _ _ _.
Arguments getScripts {W} _ _ _ _.
Arguments deleteSession {W} _ _ _ _.
Arguments dateNow {W} _ _.
Arguments isoNow {W} _ _.

End Client.

(* ====================================================================== *)
(** * api/session.ts *)
(* ====================================================================== *)

Module Session.
Import Client.

Record SessionInfo : Type := mkSessionInfo {
  database : string;
  server : string;
  createdAt : Z
}.

Record SessionState : Type := mkSessionState {
  token : string;
  info : SessionInfo;
  config : Config.FileMakerConfig
}.

(** The two private fields of [class SessionManager]. *)
Record SessionManager : Type := mkSessionManager {
  httpClient : option FileMakerHttpClient;
  state : option SessionState
}.

(** [new SessionManager()]. *)
Definition emptyManager : SessionManager := mkSessionManager None None.

(** The process: the session manager singleton, the remote system, and
    the requests sent so far (oldest first). *)
Record Sys (W : Type) : Type := mkSys {
  manager : SessionManager;
  world : W;
  trace : list Request
}.
Arguments mkSys {W} _ _ _.
Arguments manager {W} _.
Arguments world {W} _.
Arguments trace {W} _.

(** Sequential [async] code over the process state. *)
Definition M (W A : Type) : Type := Sys W -> A * Sys W.

Definition ret {W A : Type} (a : A) : M W A := fun s => (a, s).

Definition bind {W A B : Type} (m : M W A) (k : A -> M W B) : M W B :=
  fun s => let (a, s') := m s in k a s'.

Definition getManager {W : Type} : M W SessionManager :=
  fun s => (manager s, s).

Definition setManager {W : Type} (m : SessionManager) : M W unit :=
  fun s => (tt, mkSys m (world s) (trace s)).

(** One request through the HTTP client: the remote system answers and
    advances, and the request is appended to the trace. *)
Definition send {W A : Type} (req : Request) (handler : W -> A * W) : M W A :=
  fun s =>
    let (a, w') := handler (world s) in
    (a, mkSys (manager s) w' (trace s ++ [req])).

(** [Date.now()]. *)
Definition now {W : Type} (remote : Remote W) : M W Z :=
  fun s => (dateNow remote (world s), s).

Module Notations.
Notation "x <- c1 ;; c2" := (bind c1 (fun x => c2))
  (at level 61, c1 at next level, right associativity).
Notation "c1 ;;; c2" := (bind c1 (fun _ => c2))
  (at level 61, right associativity).
End Notations.
Import Notations.

Section Methods.
Context {W : Type} (remote : Remote W).

Definition getToken (m : SessionManager) : option string :=
  option_map token m.(state).

Definition getSessionInfo (m : SessionManager) : option SessionInfo :=
  option_map info m.(state).

Definition getConfig (m : SessionManager) : option Config.FileMakerConfig :=
  option_map config m.(state).

(** [this.state !== null && this.state.token !== ''] *)
Definition hasActiveSession (m : SessionManager) : bool :=
  match m.(state) with
  | Some st => negb (String.eqb st.(token) "")
  | None => false
  end.

(** The negation of the guard
    [!this.hasActiveSession() || !this.httpClient || !this.state]
    shared by [logout], [validateSession] and [withSession]; when it
    holds it yields the client and the state the method goes on with. *)
Definition activeSession (m : SessionManager)
    : option (FileMakerHttpClient * SessionState) :=
  if hasActiveSession m then
    match m.(httpClient), m.(state) with
    | Some client, Some st => Some (client, st)
    | _, _ => None
    end
  else None.

(** [Math.floor((Date.now() - this.state.info.createdAt) / 1000)] *)
Definition getSessionAge : M W (option Z) :=
  m <- getManager ;;
  match m.(state) with
  | None => ret None
  | Some st =>
      t <- now remote ;;
      ret (Some ((t - st.(info).(createdAt)) / 1000))
  end.

Definition isSessionExpiringSoon (bufferSeconds : Z) : M W bool :=
  m <- getManager ;;
  match m.(state) with
  | None => ret false
  | Some st =>
      age <- getSessionAge ;;
      match age with
      | None => ret false
      | Some a => ret (st.(config).(Config.sessionTimeout) - bufferSeconds <=? a)
      end
  end.

(** [private clearSession()] *)
Definition clearSession : M W unit :=
  setManager (mkSessionManager None None).

Definition noActiveSessionLogout : Tools.ErrorResponse :=
  Tools.mkErrorResponse
    (Tools.mkErrorDetail ErrorMapper.ErrorCodes.SESSION_INVALID
       "No active session" None None false).

(** The result of [logout]: [{ success: true; message }] or an
    [ErrorResponse]. *)
Definition logout : M W (string + Tools.ErrorResponse) :=
  m <- getManager ;;
  match activeSession m with
  | None => ret (inr noActiveSessionLogout)
  | Some (client, st) =>
      let token := st.(token) in
      response <- send (DeleteSession token) (deleteSession remote client token) ;;
      clearSession ;;;
      match response with
      | Failure e =>
          if e.(Tools.error).(Tools.code) =? ErrorMapper.ErrorCodes.SESSION_EXPIRED
          then ret (inl "Session already expired")
          else ret (inr e)
      | _ => ret (inl "Logged out successfully")
      end
  end.

Record ValidateSessionResult : Type := mkValidateSessionResult {
  valid : bool;
  validate_message : string;
  sessionAge : option Z
}.

Definition validateSession : M W ValidateSessionResult :=
  m <- getManager ;;
  match activeSession m with
  | None => ret (mkValidateSessionResult false "No active session" None)
  | Some (client, st) =>
      response <- send (GetLayouts st.(token))
                       (getLayouts remote client st.(token)) ;;
      match response with
      | Failure e =>
          if e.(Tools.error).(Tools.code) =? ErrorMapper.ErrorCodes.SESSION_EXPIRED
          then
            clearSession ;;;
            ret (mkValidateSessionResult false "Session expired or invalid" None)
          else
            ret (mkValidateSessionResult false e.(Tools.error).(Tools.message) None)
      | _ =>
          age <- getSessionAge ;;
          ret (mkValidateSessionResult true "Session is valid" age)
      end
  end.

Definition noActiveSessionError : Tools.ErrorResponse :=
  Tools.mkErrorResponse
    (Tools.mkErrorDetail ErrorMapper.ErrorCodes.SESSION_INVALID
       "No active session. Please login first."
       (Some "withSession called without active session") None false).

(** [withSession<T>(requestFn): Promise<T | ErrorResponse>].  Every
    caller passes a [requestFn] that returns what the HTTP client
    returns, so [T | ErrorResponse] is a [Response]. *)
Definition withSession {T : Type}
    (requestFn : FileMakerHttpClient -> string -> M W (Response T))
    : M W (Response T) :=
  m <- getManager ;;
  match activeSession m with
  | None => ret (Failure noActiveSessionError)
  | Some (client, st) => requestFn client st.(token)
  end.

(* The authenticated calls of the analyzers follow, each of the form
   await sessionManager.withSession(async (client, token) =>
     client.get<...>(path, token)). *)

(** [client.get<FMLayoutsResponse>('/layouts', token)] *)
Definition fetchLayouts : M W (Response FileMaker.FMLayoutsResponse) :=
  withSession (fun client token =>
    send (GetLayouts token) (getLayouts remote client token)).

(** [client.get<FMLayoutMetadataResponse>(`/layouts/${layoutName}`, token)] *)
Definition fetchLayoutMetadata (layoutName : string)
    : M W (Response FileMaker.FMLayoutMetadataResponse) :=
  withSession (fun client token =>
    send (GetLayoutMetadata layoutName token)
         (getLayoutMetadata remote client layoutName token)).

(** [client.post<FMRecordResponse>(`/layouts/${layoutName}/_find`, token, body)] *)
Definition findRecords (layoutName : string) (body : FindRequestBody)
    : M W (Response FileMaker.FMRecordResponse) :=
  withSession (fun client token =>
    send (PostFind layoutName token body)
         (postFind remote client layoutName token body)).

(** [client.get<FMScriptsResponse>('/scripts', token)] *)
Definition fetchScripts : M W (Response FileMaker.FMScriptsResponse) :=
  withSession (fun client token =>
    send (GetScripts token) (getScripts remote client token)).

End Methods.

End Session.

(* ====================================================================== *)
(** * String operations of the JavaScript runtime used by the analyzers *)
(* ====================================================================== *)

Module JsString.

Definition lowerChar (c : ascii) : ascii :=
  let n := nat_of_ascii c in
  if ((65 <=? n) && (n <=? 90))%nat then ascii_of_nat (n + 32) else c.

(** [s.toLowerCase()] on text whose cased letters are ASCII: the letters
    A to Z are lowered and every other byte is kept. *)
Fixpoint toLowerCase (s : string) : string :=
  match s with
  | EmptyString => EmptyString
  | String c rest => String (lowerChar c) (toLowerCase rest)
  end.

(** [s.startsWith(p)] *)
Definition startsWith (s p : string) : bool := String.prefix p s.

(** [s.endsWith(suffix)] *)
Definition endsWith (s suffix : string) : bool :=
  let n := String.length suffix in
  let m := String.length s in
  if (n <=? m)%nat then String.eqb (String.substring (m - n) n s) suffix
  else false.

(** [s.substring(n)] *)
Definition substringFrom (s : string) (n : nat) : string :=
  String.substring n (String.length s - n) s.

(** [s.substring(0, n)] *)
Definition substringTo (s : string) (n : nat) : string :=
  String.substring 0 n s.

(** [s.includes(sub)] *)
Fixpoint includes (s sub : string) : bool :=
  String.prefix sub s ||
  match s with
  | EmptyString => false
  | String _ rest => includes rest sub
  end.

(** [trim()] removes the code points of WhiteSpace and LineTerminator:
    U+0009 to U+000D, U+0020, U+00A0, U+1680, U+2000 to U+200A, U+2028,
    U+2029, U+202F, U+205F, U+3000 and U+FEFF.  The three predicates
    recognise them by their UTF-8 encodings of one, two and three bytes. *)

(** Tab, line feed, vertical tab, form feed, carriage return and space. *)
Definition isWhiteSpace (c : ascii) : bool :=
  let n := nat_of_ascii c in
  (((9 <=? n) && (n <=? 13)) || (n =? 32))%nat.

(** U+00A0, encoded as C2 A0. *)
Definition isWhiteSpace2 (c1 c2 : ascii) : bool :=
  ((nat_of_ascii c1 =? 194) && (nat_of_ascii c2 =? 160))%nat.

(** U+1680 (E1 9A 80), U+2000 to U+200A (E2 80 80 to E2 80 8A), U+2028 and
    U+2029 (E2 80 A8, E2 80 A9), U+202F (E2 80 AF), U+205F (E2 81 9F),
    U+3000 (E3 80 80) and U+FEFF (EF BB BF). *)
Definition isWhiteSpace3 (c1 c2 c3 : ascii) : bool :=
  let b1 := nat_of_ascii c1 in
  let b2 := nat_of_ascii c2 in
  let b3 := nat_of_ascii c3 in
  (((b1 =? 225) && (b2 =? 154) && (b3 =? 128))
   || ((b1 =? 226) && (b2 =? 128)
       && (((128 <=? b3) && (b3 <=? 138)) || (b3 =? 168) || (b3 =? 169)
           || (b3 =? 175)))
   || ((b1 =? 226) && (b2 =? 129) && (b3 =? 159))
   || ((b1 =? 227) && (b2 =? 128) && (b3 =? 128))
   || ((b1 =? 239) && (b2 =? 187) && (b3 =? 191)))%nat.

(** [s.trim().length === 0]: the text consists of white space only. *)
Fixpoint trimIsEmpty (s : string) : bool :=
  match s with
  | EmptyString => true
  | String c1 rest1 =>
      if isWhiteSpace c1 then trimIsEmpty rest1
      else
        match rest1 with
        | EmptyString => false
        | String c2 rest2 =>
            if isWhiteSpace2 c1 c2 then trimIsEmpty rest2
            else
              match rest2 with
              | EmptyString => false
              | String c3 rest3 =>
                  if isWhiteSpace3 c1 c2 c3 then trimIsEmpty rest3 else false
              end
        end
  end.

(** No byte of the text is outside ASCII. *)
Definition isAsciiText (s : string) : bool :=
  forallb (fun c => (nat_of_ascii c <? 128)%nat) (list_ascii_of_string s).

(** [array.includes(x)] on an array of strings. *)
Definition arrayIncludes (xs : list string) (x : string) : bool :=
  existsb (String.eqb x) xs.

(** [array.slice(0, end)] for an integer [end]: a negative [end] counts
    from the end of the array. *)
Definition slice0 {A : Type} (xs : list A) (stop : Z) : list A :=
  let len := Z.of_nat (List.length xs) in
  let k := if stop <? 0 then Z.max (len + stop) 0 else Z.min stop len in
  firstn (Z.to_nat k) xs.

(** [obj[key]] on a [Record<string, X>]. *)
Fixpoint getProperty {A : Type} (obj : list (string * A)) (key : string) : option A :=
  match obj with
  | [] => None
  | (k, v) :: rest => if String.eqb k key then Some v else getProperty rest key
  end.

End JsString.

(* ====================================================================== *)
(** * analyzers/global-searcher.ts *)
(* ====================================================================== *)

Module GlobalSearcher.
Import Client Session Session.Notations.

Definition DEFAULT_MAX_FIELDS_PER_LAYOUT : Z := 50.
Definition DEFAULT_MAX_RECORDS_PER_LAYOUT : Z := 100.
Definition ABSOLUTE_MAX_RECORDS : Z := 1000.

Definition SEARCHABLE_RESULT_TYPES : list string :=
  ["text"; "number"; "date"; "time"; "timestamp"].

Definition GLOBAL_SEARCH_LIMITATIONS : list string :=
  [ "検索はレイアウト単位で順次実行されるため、大量のレイアウト指定は遅延の原因となる";
    "バイナリ/コンテナフィールドは検索対象外";
    "計算フィールドの検索はオプション（デフォルト無効）";
    "検索演算子（=, ==, !, など）はFileMaker検索文法に準拠" ].

Definition GLOBAL_SEARCH_DISCLAIMER : string :=
  "この検索結果は指定されたレイアウトのテキストフィールドに対する部分一致検索の結果です。" ++
  "すべてのデータが検索対象になるわけではありません。".

Inductive SearchMode : Type := contains | exact | startsWith.

Definition isSearchableField
    (field : FileMaker.FMFieldMetaData) (includeCalculations : bool) : bool :=
  if negb (JsString.arrayIncludes SEARCHABLE_RESULT_TYPES field.(FileMaker.result))
  then false
  else
    match field.(FileMaker.type) with
    | FileMaker.calculation => includeCalculations
    | FileMaker.summary => false
    | FileMaker.normal => true
    end.

Definition buildSearchValue
    (searchText : string) (searchMode : SearchMode) (fieldResultType : string)
    : string :=
  if negb (String.eqb fieldResultType "text") then searchText
  else
    match searchMode with
    | exact => "==" ++ searchText
    | startsWith => searchText ++ "*"
    | contains => "*" ++ searchText ++ "*"
    end.

Record SearchResultRecord : Type := mkSearchResultRecord {
  recordId : string;
  fieldData : list (string * FileMaker.FieldValue)
}.

Record LayoutSearchResult : Type := mkLayoutSearchResult {
  layout : string;
  recordCount : nat;
  records : list SearchResultRecord;
  searchedFields : list string;
  matchedFields : option (list string)
}.

(** The object [searchLayout] resolves to. *)
Record SearchLayoutResult : Type := mkSearchLayoutResult {
  result : option LayoutSearchResult;
  skipped : bool;
  skipReason : option string
}.

Record SearchOptions : Type := mkSearchOptions {
  maxFieldsPerLayout : Z;
  maxRecordsPerLayout : Z;
  includeCalculations : bool;
  searchMode : SearchMode
}.

(** The body of the [for (const field of searchableFields)] loop that
    collects [matchedFields] from the first record. *)
Definition fieldMatches
    (firstRecord : SearchResultRecord) (searchText : string)
    (field : FileMaker.FMFieldMetaData) : bool :=
  match JsString.getProperty firstRecord.(fieldData) field.(FileMaker.name) with
  | Some (Some value) =>
      JsString.includes (JsString.toLowerCase value) (JsString.toLowerCase searchText)
  | _ => false
  end.

(** [response.error.fmErrorCode === n] *)
Definition fmErrorCodeIs (response : Tools.ErrorResponse) (n : Z) : bool :=
  match response.(Tools.error).(Tools.fmErrorCode) with
  | Some c => c =? n
  | None => false
  end.

(** [metadata.fieldMetaData.filter(...).slice(0, maxFieldsPerLayout)] *)
Definition selectSearchableFields
    (options : SearchOptions) (metadata : FileMaker.FMLayoutMetadataResponse)
    : list FileMaker.FMFieldMetaData :=
  JsString.slice0
    (filter (fun f => isSearchableField f options.(includeCalculations))
            metadata.(FileMaker.fieldMetaData))
    options.(maxFieldsPerLayout).

(** [{ query, limit: options.maxRecordsPerLayout }] with one clause per
    searched field. *)
Definition buildRequestBody
    (searchText : string) (options : SearchOptions)
    (searchableFields : list FileMaker.FMFieldMetaData) : FindRequestBody :=
  mkFindRequestBody
    (map (fun field =>
            (field.(FileMaker.name),
             buildSearchValue searchText options.(searchMode)
                              field.(FileMaker.result)))
         searchableFields)
    options.(maxRecordsPerLayout).

Section WithRemote.
Context {W : Type} (remote : Remote W).

Definition searchLayout
    (layoutName searchText : string) (options : SearchOptions)
    : M W SearchLayoutResult :=
  (* 1. layout metadata and the fields to search *)
  metadataResult <- fetchLayoutMetadata remote layoutName ;;
  match metadataResult with
  | Failure e =>
      ret (mkSearchLayoutResult None true
             (Some ("メタデータ取得エラー: " ++ e.(Tools.error).(Tools.message))%string))
  | NoData =>
      ret (mkSearchLayoutResult None true (Some "予期しないレスポンス形式"))
  | Success metadataResponse =>
      let metadata := metadataResponse.(data) in
      let searchableFields := selectSearchableFields options metadata in
      match searchableFields with
      | [] =>
          ret (mkSearchLayoutResult None true
                 (Some "検索可能なフィールドが存在しない"))
      | _ :: _ =>
          (* 2. the OR query *)
          let searchRequestBody :=
            buildRequestBody searchText options searchableFields in
          searchResult <- findRecords remote layoutName searchRequestBody ;;
          match searchResult with
          | Failure e =>
              if fmErrorCodeIs e 401 then
                ret (mkSearchLayoutResult
                       (Some (mkLayoutSearchResult layoutName 0%nat []
                                (map FileMaker.name searchableFields) None))
                       false None)
              else
                ret (mkSearchLayoutResult None true
                       (Some ("検索エラー: " ++ e.(Tools.error).(Tools.message))%string))
          | NoData =>
              ret (mkSearchLayoutResult None true (Some "予期しないレスポンス形式"))
          | Success searchResponse =>
              (* 3. the normalized result *)
              let records :=
                map (fun record =>
                       mkSearchResultRecord record.(FileMaker.recordId)
                                            record.(FileMaker.fieldData))
                    searchResponse.(data).(FileMaker.data) in
              let matchedFields :=
                match records with
                | [] => []
                | firstRecord :: _ =>
                    map FileMaker.name
                        (filter (fieldMatches firstRecord searchText)
                                searchableFields)
                end in
              ret (mkSearchLayoutResult
                     (Some (mkLayoutSearchResult layoutName (List.length records)
                              records (map FileMaker.name searchableFields)
                              (match matchedFields with
                               | [] => None
                               | _ :: _ => Some matchedFields
                               end)))
                     false None)
          end
      end
  end.

Record GlobalSearchDataOptions : Type := mkGlobalSearchDataOptions {
  opt_maxFieldsPerLayout : option Z;
  opt_maxRecordsPerLayout : option Z;
  opt_includeCalculations : option bool;
  opt_searchMode : option SearchMode
}.

Record GlobalSearchDataInput : Type := mkGlobalSearchDataInput {
  in_searchText : string;
  in_layouts : list string;
  in_options : option GlobalSearchDataOptions
}.

Record GlobalSearchSummary : Type := mkGlobalSearchSummary {
  totalLayouts : nat;
  totalRecordsFound : nat;
  searchedLayouts : list string;
  skippedLayouts : list string
}.

Record GlobalSearchDataOutput : Type := mkGlobalSearchDataOutput {
  out_searchText : string;
  results : list LayoutSearchResult;
  summary : GlobalSearchSummary;
  limitations : list string;
  disclaimer : string
}.

(** [input.options?.x ?? dflt] *)
Definition optionOr {A B : Type}
    (options : option A) (get : A -> option B) (dflt : B) : B :=
  match options with
  | Some o => match get o with Some v => v | None => dflt end
  | None => dflt
  end.

Definition resolveOptions (input : GlobalSearchDataInput) : SearchOptions :=
  mkSearchOptions
    (optionOr input.(in_options) opt_maxFieldsPerLayout
              DEFAULT_MAX_FIELDS_PER_LAYOUT)
    (Z.min (optionOr input.(in_options) opt_maxRecordsPerLayout
                     DEFAULT_MAX_RECORDS_PER_LAYOUT)
           ABSOLUTE_MAX_RECORDS)
    (optionOr input.(in_options) opt_includeCalculations false)
    (optionOr input.(in_options) opt_searchMode contains).

(** The mutable locals of the main loop: [results], [skippedLayouts]
    and [totalRecordsFound]. *)
Record Accumulator : Type := mkAccumulator {
  acc_results : list LayoutSearchResult;
  acc_skippedLayouts : list string;
  acc_totalRecordsFound : nat
}.

(** One iteration's update of the locals. *)
Definition recordOutcome
    (layoutName : string) (outcome : SearchLayoutResult) (acc : Accumulator)
    : Accumulator :=
  if outcome.(skipped) then
    mkAccumulator acc.(acc_results)
                  (acc.(acc_skippedLayouts) ++ [layoutName])
                  acc.(acc_totalRecordsFound)
  else
    match outcome.(result) with
    | Some r =>
        mkAccumulator (acc.(acc_results) ++ [r])
                      acc.(acc_skippedLayouts)
                      (acc.(acc_totalRecordsFound) + r.(recordCount))%nat
    | None => acc
    end.

(** [for (const layoutName of input.layouts) { ... }] *)
Fixpoint searchLayouts
    (layouts : list string) (searchText : string) (options : SearchOptions)
    (acc : Accumulator) : M W Accumulator :=
  match layouts with
  | [] => ret acc
  | layoutName :: rest =>
      outcome <- searchLayout layoutName searchText options ;;
      searchLayouts rest searchText options (recordOutcome layoutName outcome acc)
  end.

Definition globalSearchData (input : GlobalSearchDataInput)
    : M W (GlobalSearchDataOutput + Tools.ErrorResponse) :=
  if JsString.trimIsEmpty input.(in_searchText) then
    ret (inr (ErrorMapper.createErrorResponse 400 None
                (Some "検索テキストが空です")))
  else
    match input.(in_layouts) with
    | [] =>
        ret (inr (ErrorMapper.createErrorResponse 400 None
                    (Some "検索対象レイアウトが指定されていません")))
    | _ :: _ =>
        let options := resolveOptions input in
        acc <- searchLayouts input.(in_layouts) input.(in_searchText) options
                             (mkAccumulator [] [] 0%nat) ;;
        ret (inl (mkGlobalSearchDataOutput
                    input.(in_searchText)
                    acc.(acc_results)
                    (mkGlobalSearchSummary
                       (List.length input.(in_layouts))
                       acc.(acc_totalRecordsFound)
                       (map layout acc.(acc_results))
                       acc.(acc_skippedLayouts))
                    GLOBAL_SEARCH_LIMITATIONS
                    GLOBAL_SEARCH_DISCLAIMER))
    end.

End WithRemote.

End GlobalSearcher.

(* ====================================================================== *)
(** * analyzers/relationship-inferrer.ts *)
(* ====================================================================== *)

Module RelationshipInferrer.
Import Client Session Session.Notations.

(** ** The regular expressions of [FOREIGN_KEY_PATTERNS]

    Each pattern is anchored at both ends and has one unbounded piece,
    [(.+)] or [(.+?)], so a match is decided by the fixed-width pieces at
    the ends of the name, and the capture group is what lies between them.
    [.] matches every character except a line terminator. *)

Definition isChar (a b : ascii) : bool := Ascii.eqb a b.

(** The line terminators of one byte: line feed and carriage return. *)
Definition isLineTerminator (c : ascii) : bool :=
  let n := nat_of_ascii c in ((n =? 10) || (n =? 13))%nat.

(** The line terminators U+2028 and U+2029, encoded as E2 80 A8 and
    E2 80 A9. *)
Definition isLineTerminator3 (c1 c2 c3 : ascii) : bool :=
  ((nat_of_ascii c1 =? 226) && (nat_of_ascii c2 =? 128)
   && ((nat_of_ascii c3 =? 168) || (nat_of_ascii c3 =? 169)))%nat.

(** [s] starts with a line terminator. *)
Definition startsWithLineTerminator (s : string) : bool :=
  match s with
  | String c1 (String c2 (String c3 _)) =>
      isLineTerminator c1 || isLineTerminator3 c1 c2 c3
  | String c1 _ => isLineTerminator c1
  | EmptyString => false
  end.

(** [.+] matches the whole of [s]: no line terminator starts anywhere in
    it. *)
Fixpoint allDots (s : string) : bool :=
  match s with
  | EmptyString => true
  | String c rest => negb (startsWithLineTerminator s) && allDots rest
  end.

Definition dotPlus (s : string) : bool :=
  negb (String.eqb s "") && allDots s.

Definition isIi (c : ascii) : bool := isChar c "I" || isChar c "i".
Definition isDd (c : ascii) : bool := isChar c "D" || isChar c "d".
Definition isFf (c : ascii) : bool := isChar c "F" || isChar c "f".
Definition isKk (c : ascii) : bool := isChar c "K" || isChar c "k".

(** [[A-Z]] *)
Definition isUpper (c : ascii) : bool :=
  let n := nat_of_ascii c in ((65 <=? n) && (n <=? 90))%nat.

(** [s] is exactly the characters accepted by the given classes. *)
Fixpoint matchesClasses (classes : list (ascii -> bool)) (s : string) : bool :=
  match classes, s with
  | [], EmptyString => true
  | cls :: classes', String c rest => cls c && matchesClasses classes' rest
  | _, _ => false
  end.

(** Split [s] into its first [length s - k] characters and its last [k]. *)
Definition splitLast (s : string) (k : nat) : string * string :=
  let n := String.length s in
  (String.substring 0 (n - k) s, String.substring (n - k) k s).

(** [fieldName.match(/^(.+)_[Ii][Dd]$/)], then [match[1]]. *)
Definition matchUnderscoreIdSuffix (fieldName : string) : option string :=
  let (table, tail) := splitLast fieldName 3 in
  if matchesClasses [isChar "_"; isIi; isDd] tail && dotPlus table
  then Some table else None.

(** [fieldName.match(/^(.+?)([A-Z]?[Ii][Dd])$/)], then [match[1]].  The
    lazy group takes the shortest prefix that lets the rest match: the
    optional capital is taken when there is one (and a character is left
    for the group), and left out otherwise. *)
Definition matchIdSuffix (fieldName : string) : option string :=
  let (table3, tail3) := splitLast fieldName 3 in
  if matchesClasses [isUpper; isIi; isDd] tail3 && dotPlus table3
  then Some table3
  else
    let (table2, tail2) := splitLast fieldName 2 in
    if matchesClasses [isIi; isDd] tail2 && dotPlus table2
    then Some table2 else None.

(** [fieldName.match(/^[Ff][Kk]_(.+)$/)], then [match[1]]. *)
Definition matchFkPrefix (fieldName : string) : option string :=
  let head := JsString.substringTo fieldName 3 in
  let table := JsString.substringFrom fieldName 3 in
  if matchesClasses [isFf; isKk; isChar "_"] head && dotPlus table
  then Some table else None.

(** [fieldName.match(/^[Ii][Dd]_(.+)$/)], then [match[1]]. *)
Definition matchIdPrefix (fieldName : string) : option string :=
  let head := JsString.substringTo fieldName 3 in
  let table := JsString.substringFrom fieldName 3 in
  if matchesClasses [isIi; isDd; isChar "_"] head && dotPlus table
  then Some table else None.

(** Each entry is [extractTable] after [pattern]. *)
Definition FOREIGN_KEY_PATTERNS : list (string -> option string) :=
  [ matchUnderscoreIdSuffix; matchIdSuffix; matchFkPrefix; matchIdPrefix ].

Definition INFERENCE_DISCLAIMER : string :=
  "この結果はフィールド名とポータル構造からの推測であり、" ++
  "実際のFileMakerリレーションシップ定義とは異なる可能性があります。" ++
  "正確な定義はFileMaker Proの管理画面で確認してください。".

Record InferredForeignKey : Type := mkInferredForeignKey {
  fieldName : string;
  inferredReferencedTable : string;
  fk_confidence : Tools.ConfidenceLevel;
  inferenceReason : string
}.

Inductive RelationshipType : Type :=
| one_to_one | one_to_many | many_to_many | unknown.

Record DetailedInferredRelationship : Type := mkDetailedInferredRelationship {
  name : string;
  sourceTable : string;
  targetTable : string;
  sourceField : option string;
  targetField : option string;
  type : RelationshipType;
  confidence : Tools.ConfidenceLevel;
  inferenceMethod : string
}.

(** The [for (const { pattern, extractTable } of FOREIGN_KEY_PATTERNS)]
    loop: the first pattern that matches with a non-empty table name. *)
Fixpoint firstTable (patterns : list (string -> option string)) (fieldName : string)
    : option string :=
  match patterns with
  | [] => None
  | pattern :: rest =>
      match pattern fieldName with
      | Some inferredTable =>
          if negb (String.eqb inferredTable "") then Some inferredTable
          else firstTable rest fieldName
      | None => firstTable rest fieldName
      end
  end.

Definition inferForeignKeyFromField (field : FileMaker.FMFieldMetaData)
    : option InferredForeignKey :=
  let fieldName := field.(FileMaker.name) in
  if negb (String.eqb field.(FileMaker.result) "number") &&
     negb (String.eqb field.(FileMaker.result) "text")
  then None
  else
    match firstTable FOREIGN_KEY_PATTERNS fieldName with
    | Some inferredTable =>
        let confidence :=
          if JsString.endsWith (JsString.toLowerCase fieldName) "_id" &&
             String.eqb field.(FileMaker.result) "number"
          then Tools.high else Tools.medium in
        Some (mkInferredForeignKey fieldName inferredTable confidence
                ("フィールド名「" ++ fieldName ++ "」が外部キーパターンに一致"))
    | None => None
    end.

(** [for (const prefix of prefixes) { if (startsWith) { ...; break; } }] *)
Fixpoint stripPrefix (prefixes : list string) (tableName : string) : string :=
  match prefixes with
  | [] => tableName
  | prefix :: rest =>
      if JsString.startsWith tableName prefix
      then JsString.substringFrom tableName (String.length prefix)
      else stripPrefix rest tableName
  end.

(** [for (const suffix of suffixes) { if (endsWith) { ...; break; } }] *)
Fixpoint stripSuffix (suffixes : list string) (tableName : string) : string :=
  match suffixes with
  | [] => tableName
  | suffix :: rest =>
      if JsString.endsWith tableName suffix
      then JsString.substringTo tableName
             (String.length tableName - String.length suffix)
      else stripSuffix rest tableName
  end.

Definition inferTableFromPortalName (portalName : string) : string :=
  let prefixes := ["portal_"; "Portal_"; "PORTAL_"; "rel_"; "Rel_"; "REL_"] in
  let suffixes := ["_portal"; "_Portal"; "_PORTAL"; "_rel"; "_Rel"; "_REL"] in
  let tableName := stripSuffix suffixes (stripPrefix prefixes portalName) in
  if String.eqb tableName "" then portalName else tableName.

(** The [for (const field of portalFields)] loop of
    [inferRelationshipFromPortal]: the name of the first field that looks
    like a foreign key. *)
Fixpoint firstForeignKeyField (portalFields : list FileMaker.FMFieldMetaData)
    : option string :=
  match portalFields with
  | [] => None
  | field :: rest =>
      match inferForeignKeyFromField field with
      | Some fkInference => Some fkInference.(fieldName)
      | None => firstForeignKeyField rest
      end
  end.

Definition inferRelationshipFromPortal
    (sourceLayout portalName : string)
    (portalFields : list FileMaker.FMFieldMetaData)
    : DetailedInferredRelationship :=
  let targetTable := inferTableFromPortalName portalName in
  let targetField := firstForeignKeyField portalFields in
  let confidence :=
    if String.eqb (JsString.toLowerCase targetTable) (JsString.toLowerCase portalName)
    then Tools.high else Tools.medium in
  mkDetailedInferredRelationship
    (sourceLayout ++ " -> " ++ targetTable)
    sourceLayout targetTable None targetField one_to_many confidence
    "ポータル名パターンマッチング".

Record InferRelationshipsInput : Type := mkInferRelationshipsInput {
  in_layout : string;
  in_depth : option Z
}.

Record ConfidenceBreakdown : Type := mkConfidenceBreakdown {
  count_high : nat;
  count_medium : nat;
  count_low : nat
}.

Record InferRelationshipsOutput : Type := mkInferRelationshipsOutput {
  out_layout : string;
  inferredRelationships : list DetailedInferredRelationship;
  inferredForeignKeys : list InferredForeignKey;
  totalInferred : nat;
  confidenceBreakdown : ConfidenceBreakdown;
  disclaimer : string
}.

(** 2.1: one relationship per entry of [portalMetaData]. *)
Definition relationshipsFromPortals
    (layout : string)
    (portalMetaData : option (list (string * list FileMaker.FMFieldMetaData)))
    : list DetailedInferredRelationship :=
  match portalMetaData with
  | Some portals =>
      map (fun entry => inferRelationshipFromPortal layout (fst entry) (snd entry))
          portals
  | None => []
  end.

(** [inferredRelationships.find((r) => r.targetTable.toLowerCase() ===
    fkInference.inferredReferencedTable.toLowerCase())] is defined. *)
Definition existingRelationship
    (inferredRelationships : list DetailedInferredRelationship)
    (fkInference : InferredForeignKey) : bool :=
  existsb (fun r =>
             String.eqb (JsString.toLowerCase r.(targetTable))
                        (JsString.toLowerCase fkInference.(inferredReferencedTable)))
          inferredRelationships.

Definition relationshipFromForeignKey
    (layout : string) (fkInference : InferredForeignKey)
    : DetailedInferredRelationship :=
  mkDetailedInferredRelationship
    (layout ++ " -> " ++ fkInference.(inferredReferencedTable))
    layout fkInference.(inferredReferencedTable)
    (Some fkInference.(fieldName)) None unknown fkInference.(fk_confidence)
    "フィールド名パターンマッチング（外部キー推測）".

(** 2.2: the [for (const field of metadata.fieldMetaData)] loop over the
    two arrays [inferredRelationships] and [inferredForeignKeys]. *)
Fixpoint scanFields
    (layout : string) (fields : list FileMaker.FMFieldMetaData)
    (inferredRelationships : list DetailedInferredRelationship)
    (inferredForeignKeys : list InferredForeignKey)
    : list DetailedInferredRelationship * list InferredForeignKey :=
  match fields with
  | [] => (inferredRelationships, inferredForeignKeys)
  | field :: rest =>
      match inferForeignKeyFromField field with
      | Some fkInference =>
          let inferredForeignKeys' := inferredForeignKeys ++ [fkInference] in
          if existingRelationship inferredRelationships fkInference
          then scanFields layout rest inferredRelationships inferredForeignKeys'
          else scanFields layout rest
                 (inferredRelationships ++
                  [relationshipFromForeignKey layout fkInference])
                 inferredForeignKeys'
      | None => scanFields layout rest inferredRelationships inferredForeignKeys
      end
  end.

(** Step 2 of [inferRelationships] on the metadata of the layout. *)
Definition inferFromMetadata
    (layout : string) (metadata : FileMaker.FMLayoutMetadataResponse)
    : list DetailedInferredRelationship * list InferredForeignKey :=
  scanFields layout metadata.(FileMaker.fieldMetaData)
             (relationshipsFromPortals layout metadata.(FileMaker.portalMetaData))
             [].

(** [confidenceBreakdown[c]++] *)
Definition countConfidence
    (c : Tools.ConfidenceLevel) (b : ConfidenceBreakdown) : ConfidenceBreakdown :=
  match c with
  | Tools.high => mkConfidenceBreakdown (S b.(count_high)) b.(count_medium) b.(count_low)
  | Tools.medium => mkConfidenceBreakdown b.(count_high) (S b.(count_medium)) b.(count_low)
  | Tools.low => mkConfidenceBreakdown b.(count_high) b.(count_medium) (S b.(count_low))
  end.

Definition buildBreakdown
    (rels : list DetailedInferredRelationship) (fks : list InferredForeignKey)
    : ConfidenceBreakdown :=
  fold_left (fun b fk => countConfidence fk.(fk_confidence) b) fks
    (fold_left (fun b rel => countConfidence rel.(confidence) b) rels
       (mkConfidenceBreakdown 0 0 0)).

Section WithRemote.
Context {W : Type} (remote : Remote W).

Definition inferRelationships (input : InferRelationshipsInput)
    : M W (InferRelationshipsOutput + Tools.ErrorResponse) :=
  metadataResult <- fetchLayoutMetadata remote input.(in_layout) ;;
  match metadataResult with
  | Failure e => ret (inr e)
  | NoData =>
      ret (inr (ErrorMapper.createErrorResponse 500 None
                  (Some "Unexpected response format")))
  | Success metadataResponse =>
      let (rels, fks) :=
        inferFromMetadata input.(in_layout) metadataResponse.(data) in
      ret (inl (mkInferRelationshipsOutput
                  input.(in_layout) rels fks
                  (List.length rels + List.length fks)
                  (buildBreakdown rels fks)
                  INFERENCE_DISCLAIMER))
  end.

End WithRemote.

End RelationshipInferrer.

(* ====================================================================== *)
(** * analyzers/metadata-aggregator.ts *)
(* ====================================================================== *)

Module MetadataAggregator.
Import Client Session Session.Notations.

Definition DATA_API_LIMITATIONS : list string :=
  [ "リレーションシップ定義は取得不可（Data API制約）";
    "計算式の内容は取得不可（Data API制約）";
    "スクリプトの内容は取得不可（名前のみ）";
    "テーブル定義は取得不可（レイアウト経由の推測のみ）";
    "セキュリティ権限情報は取得不可";
    "カスタムファンクションは取得不可" ].

Record FieldMetadata : Type := mkFieldMetadata {
  name : string;
  type : FileMaker.FMFieldType;
  displayType : string;
  result : string;
  global : bool;
  autoEnter : bool;
  maxRepeat : Z;
  maxCharacters : Z;
  notEmpty : bool;
  numeric : bool
}.

Record PortalMetadata : Type := mkPortalMetadata {
  portal_name : string;
  relatedTableName : string;
  portal_fields : list FieldMetadata
}.

Record LayoutMetadata : Type := mkLayoutMetadata {
  layout_name : string;
  fields : list FieldMetadata;
  portals : list PortalMetadata
}.

Record ScriptMetadata : Type := mkScriptMetadata {
  script_name : string;
  isAvailable : bool
}.

Record ValueListMetadata : Type := mkValueListMetadata {
  vl_name : string;
  values : list string
}.

Inductive InferenceMethod : Type := portal_name_method | field_pattern | foreign_key_naming.

Record InferredRelationship : Type := mkInferredRelationship {
  sourceLayout : string;
  portalName : string;
  inferredTargetTable : string;
  confidence : Tools.ConfidenceLevel;
  inferenceMethod : InferenceMethod
}.

Record DatabaseMetadata : Type := mkDatabaseMetadata {
  database_name : string;
  database_server : string;
  layouts : list LayoutMetadata;
  scripts : list ScriptMetadata;
  valueLists : option (list ValueListMetadata);
  inferredRelationships : option (list InferredRelationship)
}.

Record ExportDatabaseMetadataOutput : Type := mkExportDatabaseMetadataOutput {
  format : Tools.ExportFormat;
  data : DatabaseMetadata;
  generatedAt : string;
  limitations : list string
}.

Record ExportOptions : Type := mkExportOptions {
  includeLayouts : bool;
  includeScripts : bool;
  includeValueLists : bool;
  includePortalAnalysis : bool
}.

Record ExportInputOptions : Type := mkExportInputOptions {
  opt_includeLayouts : option bool;
  opt_includeScripts : option bool;
  opt_includeValueLists : option bool;
  opt_includePortalAnalysis : option bool
}.

Record ExportDatabaseMetadataInput : Type := mkExportDatabaseMetadataInput {
  in_format : Tools.ExportFormat;
  in_options : option ExportInputOptions
}.

(** [input.options?.x ?? true] *)
Definition optionOrTrue
    (options : option ExportInputOptions) (get : ExportInputOptions -> option bool)
    : bool :=
  match options with
  | Some o => match get o with Some v => v | None => true end
  | None => true
  end.

Definition resolveOptions (input : ExportDatabaseMetadataInput) : ExportOptions :=
  mkExportOptions
    (optionOrTrue input.(in_options) opt_includeLayouts)
    (optionOrTrue input.(in_options) opt_includeScripts)
    (optionOrTrue input.(in_options) opt_includeValueLists)
    (optionOrTrue input.(in_options) opt_includePortalAnalysis).

Definition convertFieldMetadata (fmField : FileMaker.FMFieldMetaData) : FieldMetadata :=
  mkFieldMetadata
    fmField.(FileMaker.name) fmField.(FileMaker.type)
    fmField.(FileMaker.displayType) fmField.(FileMaker.result)
    fmField.(FileMaker.global) fmField.(FileMaker.autoEnter)
    fmField.(FileMaker.maxRepeat) fmField.(FileMaker.maxCharacters)
    fmField.(FileMaker.notEmpty) fmField.(FileMaker.numeric).

Definition inferRelatedTableName (portalName : string) : string :=
  let tableName1 :=
    if JsString.startsWith (JsString.toLowerCase portalName) "portal_"
    then JsString.substringFrom portalName 7 else portalName in
  let tableName2 :=
    if JsString.endsWith (JsString.toLowerCase tableName1) "_portal"
    then JsString.substringTo tableName1 (String.length tableName1 - 7)
    else tableName1 in
  if String.eqb tableName2 "" then portalName else tableName2.

Definition inferRelationshipFromPortal (layoutName portalName : string)
    : InferredRelationship :=
  let inferredTable := inferRelatedTableName portalName in
  let confidence :=
    if String.eqb (JsString.toLowerCase inferredTable) (JsString.toLowerCase portalName)
    then Tools.high else Tools.medium in
  mkInferredRelationship layoutName portalName inferredTable confidence
                         portal_name_method.

(** The arrays and the [Map] that the layout loop fills: [layouts],
    [inferredRelationships] and [valueListMap] (entries in insertion
    order). *)
Record Collected : Type := mkCollected {
  col_layouts : list LayoutMetadata;
  col_inferredRelationships : list InferredRelationship;
  col_valueListMap : list (string * list string)
}.

Definition emptyCollected : Collected := mkCollected [] [] [].

(** [if (!valueListMap.has(vlName)) valueListMap.set(vlName, vlValues)]
    for each entry. *)
Fixpoint collectValueLists
    (entries : list (string * list string)) (valueListMap : list (string * list string))
    : list (string * list string) :=
  match entries with
  | [] => valueListMap
  | (vlName, vlValues) :: rest =>
      match JsString.getProperty valueListMap vlName with
      | Some _ => collectValueLists rest valueListMap
      | None => collectValueLists rest (valueListMap ++ [(vlName, vlValues)])
      end
  end.

(** The part of one iteration of the layout loop that follows a
    successful metadata fetch. *)
Definition addLayout
    (options : ExportOptions) (layoutName : string)
    (metadata : FileMaker.FMLayoutMetadataResponse) (acc : Collected) : Collected :=
  let fields := map convertFieldMetadata metadata.(FileMaker.fieldMetaData) in
  let portalEntries :=
    match metadata.(FileMaker.portalMetaData) with
    | Some entries => entries
    | None => []
    end in
  let portals :=
    map (fun entry =>
           mkPortalMetadata (fst entry) (inferRelatedTableName (fst entry))
                            (map convertFieldMetadata (snd entry)))
        portalEntries in
  let inferred :=
    if options.(includePortalAnalysis)
    then map (fun entry => inferRelationshipFromPortal layoutName (fst entry))
             portalEntries
    else [] in
  let valueListMap :=
    match options.(includeValueLists), metadata.(FileMaker.valueLists) with
    | true, Some entries => collectValueLists entries acc.(col_valueListMap)
    | _, _ => acc.(col_valueListMap)
    end in
  mkCollected (acc.(col_layouts) ++ [mkLayoutMetadata layoutName fields portals])
              (acc.(col_inferredRelationships) ++ inferred)
              valueListMap.

(** [x || 'unknown'] *)
Definition orUnknown (x : option string) : string :=
  match x with
  | Some s => if String.eqb s "" then "unknown" else s
  | None => "unknown"
  end.

Section WithRemote.
Context {W : Type} (remote : Remote W).

(** 2. [for (const layoutName of layoutNames) { ... }]: a failed or
    malformed metadata fetch hits [continue]. *)
Fixpoint collectLayouts
    (options : ExportOptions) (layoutNames : list string) (acc : Collected)
    : M W Collected :=
  match layoutNames with
  | [] => ret acc
  | layoutName :: rest =>
      metadataResult <- fetchLayoutMetadata remote layoutName ;;
      match metadataResult with
      | Failure _ => collectLayouts options rest acc
      | NoData => collectLayouts options rest acc
      | Success metadataResponse =>
          collectLayouts options rest
            (addLayout options layoutName metadataResponse.(Client.data) acc)
      end
  end.

(** 1. and 2.: the block guarded by [options.includeLayouts]; [inr] is
    an early [return] of the whole function. *)
Definition layoutsPhase (options : ExportOptions)
    : M W (Collected + Tools.ErrorResponse) :=
  if options.(includeLayouts) then
    layoutsResult <- fetchLayouts remote ;;
    match layoutsResult with
    | Failure e => ret (inr e)
    | NoData =>
        ret (inr (ErrorMapper.createErrorResponse 500 None
                    (Some "Unexpected response format for layouts")))
    | Success layoutsResponse =>
        let layoutNames :=
          map FileMaker.layout_name
              (filter (fun l => FileMaker.notFolder l.(FileMaker.layout_isFolder))
                      layoutsResponse.(Client.data).(FileMaker.layouts)) in
        acc <- collectLayouts options layoutNames emptyCollected ;;
        ret (inl acc)
    end
  else ret (inl emptyCollected).

(** 3.: the block guarded by [options.includeScripts]. *)
Definition scriptsPhase (options : ExportOptions)
    : M W (list ScriptMetadata + Tools.ErrorResponse) :=
  if options.(includeScripts) then
    scriptsResult <- fetchScripts remote ;;
    match scriptsResult with
    | Failure e => ret (inr e)
    | NoData => ret (inl [])
    | Success scriptsResponse =>
        ret (inl (map (fun script =>
                         mkScriptMetadata script.(FileMaker.script_name) true)
                      (filter (fun script =>
                                 FileMaker.notFolder script.(FileMaker.script_isFolder))
                              scriptsResponse.(Client.data).(FileMaker.scripts))))
    end
  else ret (inl []).

(** 4. and 5.: the result object built from what was collected. *)
Definition buildOutput
    (input : ExportDatabaseMetadataInput) (options : ExportOptions)
    (acc : Collected) (scripts : list ScriptMetadata)
    : M W ExportDatabaseMetadataOutput :=
  let valueLists :=
    if options.(includeValueLists)
    then map (fun entry => mkValueListMetadata (fst entry) (snd entry))
             acc.(col_valueListMap)
    else [] in
  m <- getManager ;;
  let sessionInfo := getSessionInfo m in
  let databaseName := orUnknown (option_map Session.database sessionInfo) in
  let serverName := orUnknown (option_map Session.server sessionInfo) in
  fun s =>
    (mkExportDatabaseMetadataOutput
       input.(in_format)
       (mkDatabaseMetadata databaseName serverName
          acc.(col_layouts) scripts
          (match options.(includeValueLists), valueLists with
           | true, _ :: _ => Some valueLists
           | _, _ => None
           end)
          (match options.(includePortalAnalysis), acc.(col_inferredRelationships) with
           | true, _ :: _ => Some acc.(col_inferredRelationships)
           | _, _ => None
           end))
       (isoNow remote (world s))
       DATA_API_LIMITATIONS, s).

Definition exportDatabaseMetadata (input : ExportDatabaseMetadataInput)
    : M W (ExportDatabaseMetadataOutput + Tools.ErrorResponse) :=
  let options := resolveOptions input in
  collected <- layoutsPhase options ;;
  match collected with
  | inr e => ret (inr e)
  | inl acc =>
      scriptsResult <- scriptsPhase options ;;
      match scriptsResult with
      | inr e => ret (inr e)
      | inl scripts =>
          output <- buildOutput input options acc scripts ;;
          ret (inl output)
      end
  end.

End WithRemote.

End MetadataAggregator.

(* ====================================================================== *)
(** * Concrete remote systems used to run the code *)
(* ====================================================================== *)

Module Scenario.
Import Client Session.

(** A remote system that answers every request from a fixed table and
    never changes. *)
Record Snapshot : Type := mkSnapshot {
  layoutsAnswer : Response FileMaker.FMLayoutsResponse;
  metadataAnswer : string -> Response FileMaker.FMLayoutMetadataResponse;
  findAnswer : string -> Response FileMaker.FMRecordResponse;
  scriptsAnswer : Response FileMaker.FMScriptsResponse;
  deleteAnswer : Response unit;
  clock : Z;
  clockIso : string
}.

Definition snapshotRemote : Remote Snapshot :=
  mkRemote Snapshot
    (fun _ _ w => (layoutsAnswer w, w))
    (fun _ layoutName _ w => (metadataAnswer w layoutName, w))
    (fun _ layoutName _ _ w => (findAnswer w layoutName, w))
    (fun _ _ w => (scriptsAnswer w, w))
    (fun _ _ w => (deleteAnswer w, w))
    clock
    clockIso.

Definition ok {T : Type} (payload : T) : Response T :=
  Success (mkApiResponse 200 payload []).

(** What [FileMakerHttpClient.request] returns for a response with the
    given HTTP status and FileMaker code. *)
Definition failed {T : Type} (httpStatus : Z) (fmErrorCode : option Z) (context : string)
    : Response T :=
  Failure (ErrorMapper.createErrorResponse httpStatus fmErrorCode (Some context)).

Definition config : Config.FileMakerConfig :=
  Config.mkFileMakerConfig "https://fm.example.com" "Sales" "analyst" "secret"
                           "vLatest" true 840.

(** A manager that holds a session: the client built from [config], and
    the state that [login] stores for the token "token-1" issued at time
    1000. *)
Definition activeManager : SessionManager :=
  mkSessionManager
    (Some (newClient config))
    (Some (mkSessionState "token-1"
             (mkSessionInfo "Sales" "https://fm.example.com" 1000) config)).

Definition start (w : Snapshot) (m : SessionManager) : Sys Snapshot :=
  mkSys m w [].

Definition field (name result : string) : FileMaker.FMFieldMetaData :=
  FileMaker.mkFMFieldMetaData name FileMaker.normal "editText" result
    false false false 1 0 false false 1 false.

Definition layoutInfo (name : string) : FileMaker.FMLayoutInfo :=
  FileMaker.mkFMLayoutInfo name None.

Definition record (recordId : string) (fieldData : list (string * FileMaker.FieldValue))
    : FileMaker.FMRecord :=
  FileMaker.mkFMRecord recordId "0" fieldData.

(** A layout whose only portal is "Orders" and whose own fields are
    "Name" (text) and "Order_ID" (number). *)
Definition customersMetadata : FileMaker.FMLayoutMetadataResponse :=
  FileMaker.mkFMLayoutMetadataResponse
    [ field "Name" "text"; field "Order_ID" "number" ]
    (Some [ ("Orders", [ field "Amount" "number" ]) ])
    None.

(** The same layout with the field "Orders_ID" in place of "Order_ID". *)
Definition customersMetadataPlural : FileMaker.FMLayoutMetadataResponse :=
  FileMaker.mkFMLayoutMetadataResponse
    [ field "Name" "text"; field "Orders_ID" "number" ]
    (Some [ ("Orders", [ field "Amount" "number" ]) ])
    None.

(** A database with the layouts "Customers", "Broken", "Invoices",
    "Payments" and "Products": the metadata of "Broken" cannot be fetched
    (HTTP 404, FileMaker code 105), a find on "Customers" returns two
    records, a find on "Invoices" one, and a find on "Payments" matches
    nothing (HTTP 500, FileMaker code 401). *)
Definition salesDb : Snapshot :=
  mkSnapshot
    (ok (FileMaker.mkFMLayoutsResponse
           [ layoutInfo "Customers"; layoutInfo "Broken"; layoutInfo "Invoices";
             FileMaker.mkFMLayoutInfo "Archive" (Some true);
             layoutInfo "Payments"; layoutInfo "Products" ]))
    (fun layoutName =>
       if String.eqb layoutName "Broken"
       then failed 404 (Some 105) "GET /layouts/Broken"
       else if String.eqb layoutName "Customers"
       then ok customersMetadata
       else ok (FileMaker.mkFMLayoutMetadataResponse
                  [ field "Title" "text"; field "Total" "number" ] None None))
    (fun layoutName =>
       if String.eqb layoutName "Customers"
       then ok (FileMaker.mkFMRecordResponse
                  [ record "1" [ ("Name", Some "ABC Corp") ];
                    record "2" [ ("Name", Some "abc Ltd") ] ])
       else if String.eqb layoutName "Invoices"
       then ok (FileMaker.mkFMRecordResponse [ record "7" [ ("Title", Some "xABCx") ] ])
       else if String.eqb layoutName "Payments"
       then failed 500 (Some 401) "POST /layouts/Payments/_find"
       else failed 500 None "POST _find")
    (ok (FileMaker.mkFMScriptsResponse
           [ FileMaker.mkFMScriptInfo "Export" None;
             FileMaker.mkFMScriptInfo "Utilities" (Some true) ]))
    (ok tt)
    61000
    "2026-01-01T00:00:00.000Z".

(** The same database after the session has expired on the server: every
    authenticated request is answered with HTTP 401. *)
Definition expiredDb : Snapshot :=
  mkSnapshot
    (failed 401 None "GET /layouts")
    (fun _ => failed 401 None "GET /layouts/x")
    (fun _ => failed 401 None "POST /layouts/x/_find")
    (failed 401 None "GET /scripts")
    (failed 401 None "DELETE /sessions/token-1")
    901000
    "2026-01-01T00:15:01.000Z".

(** A database whose layout list and script list cannot be read. *)
Definition unreachableDb : Snapshot :=
  mkSnapshot
    (failed 503 None "GET /layouts")
    (fun _ => failed 503 None "GET /layouts/x")
    (fun _ => failed 503 None "POST /layouts/x/_find")
    (failed 503 None "GET /scripts")
    (failed 503 None "DELETE /sessions/token-1")
    61000
    "2026-01-01T00:00:00.000Z".

(** [salesDb] with a script list that cannot be read. *)
Definition noScriptsDb : Snapshot :=
  mkSnapshot (layoutsAnswer salesDb) (metadataAnswer salesDb) (findAnswer salesDb)
             (failed 500 None "GET /scripts") (deleteAnswer salesDb)
             (clock salesDb) (clockIso salesDb).

End Scenario.

(* ====================================================================== *)
(** * api/client.ts: the request URL *)
(* ====================================================================== *)

Module ClientUrl.
Import Client.

Definition DATA_API_BASE : string := "/fmi/data".

(** [path.startsWith('/') ? path : `/${path}`] *)
Definition normalizePath (path : string) : string :=
  if String.prefix "/" path then path else "/" ++ path.

Definition buildUrl (client : FileMakerHttpClient) (path : string) : string :=
  client.(baseUrl) ++ DATA_API_BASE ++ "/" ++ client.(apiVersion)
    ++ "/databases/" ++ client.(database) ++ normalizePath path.

End ClientUrl.

(* ====================================================================== *)
(** * api/session.ts: login *)
(* ====================================================================== *)

Module SessionLogin.
Import Client Session Session.Notations.

(** [FMLoginResponse] of types/filemaker.ts. *)
Record FMLoginResponse : Type := mkFMLoginResponse {
  login_token : string
}.

(** [FileMakerHttpClient.loginRequest]: the [POST /sessions] with basic
    credentials, answered by the remote system with an [ApiResponse] or an
    [ErrorResponse].  The request carries no token and is not entered in
    the trace of authenticated requests. *)
Definition LoginRequest (W : Type) : Type :=
  FileMakerHttpClient -> string -> string -> W ->
  (ApiResponse FMLoginResponse + Tools.ErrorResponse) * W.

Section WithRemote.
Context {W : Type} (remote : Remote W) (loginRequest : LoginRequest W).

(** [await this.httpClient.loginRequest(config.username, config.password)] *)
Definition callLogin (client : FileMakerHttpClient) (username password : string)
    : M W (ApiResponse FMLoginResponse + Tools.ErrorResponse) :=
  fun s =>
    let (response, w') := loginRequest client username password (world s) in
    (response, mkSys (manager s) w' (trace s)).

(** [this.httpClient = client] *)
Definition setHttpClient (client : option FileMakerHttpClient) : M W unit :=
  m <- getManager ;;
  setManager (mkSessionManager client m.(state)).

(** [this.state = st] *)
Definition setState (st : SessionState) : M W unit :=
  m <- getManager ;;
  setManager (mkSessionManager m.(httpClient) (Some st)).

(** The result of [login]: [{ success: true; sessionInfo }] or an
    [ErrorResponse]. *)
Definition login (config : Config.FileMakerConfig)
    : M W (SessionInfo + Tools.ErrorResponse) :=
  m <- getManager ;;
  (if hasActiveSession m then (logout remote ;;; ret tt) else ret tt) ;;;
  let client := newClient config in
  setHttpClient (Some client) ;;;
  response <- callLogin client config.(Config.username) config.(Config.password) ;;
  match response with
  | inr e =>
      setHttpClient None ;;;
      ret (inr e)
  | inl r =>
      createdAt <- now remote ;;
      let sessionInfo :=
        mkSessionInfo config.(Config.database) config.(Config.server) createdAt in
      setState (mkSessionState r.(data).(login_token) sessionInfo config) ;;;
      ret (inl sessionInfo)
  end.

End WithRemote.

End SessionLogin.

(* ====================================================================== *)
(** * analyzers/portal-analyzer.ts *)
(* ====================================================================== *)

Module PortalAnalyzer.
Import Client Session Session.Notations.

Definition DEFAULT_SAMPLE_LIMIT : Z := 5.
Definition MAX_SAMPLE_LIMIT : Z := 100.

Definition convertFieldMetadata (fmField : FileMaker.FMFieldMetaData)
    : MetadataAggregator.FieldMetadata :=
  MetadataAggregator.mkFieldMetadata
    fmField.(FileMaker.name) fmField.(FileMaker.type)
    fmField.(FileMaker.displayType) fmField.(FileMaker.result)
    fmField.(FileMaker.global) fmField.(FileMaker.autoEnter)
    fmField.(FileMaker.maxRepeat) fmField.(FileMaker.maxCharacters)
    fmField.(FileMaker.notEmpty) fmField.(FileMaker.numeric).

(** The two loops with [break] are those of
    [RelationshipInferrer.inferTableFromPortalName]. *)
Definition inferRelatedTableName (portalName : string) : string :=
  let prefixes := ["portal_"; "Portal_"; "PORTAL_"; "rel_"; "Rel_"; "REL_"] in
  let suffixes := ["_portal"; "_Portal"; "_PORTAL"; "_rel"; "_Rel"; "_REL"] in
  let tableName :=
    RelationshipInferrer.stripSuffix suffixes
      (RelationshipInferrer.stripPrefix prefixes portalName) in
  if String.eqb tableName "" then portalName else tableName.

(** [relatedTables.add(name)] on a [Set] kept in insertion order. *)
Definition setAdd (set : list string) (x : string) : list string :=
  if JsString.arrayIncludes set x then set else set ++ [x].

Section Values.
(** The values of a portal record ([unknown] in the source). *)
Context {V : Type}.

(** A portal record: an object with the keys "recordId" and "modId" and
    one key per field. *)
Definition PortalRecord : Type := list (string * V).

(** The keys that end up as entries of [sampleRecord]:
    [key !== 'recordId' && key !== 'modId'] lets the key through to
    [sampleRecord[key] = value], and on the fresh object [{}] that
    assignment makes an entry for every key but ["__proto__"], which it
    hands to the setter of [Object.prototype]. *)
Definition isDataKey (key : string) : bool :=
  negb (String.eqb key "recordId") && negb (String.eqb key "modId")
  && negb (String.eqb key "__proto__").

(** The body of the outer loop of [extractSampleData]: the entries of the
    sample made from a record. *)
Definition sampleRecord (record : PortalRecord) : PortalRecord :=
  filter (fun entry => isDataKey (fst entry)) record.

(** [for (let i = 0; i < sampleCount; i++)] over [portalRecords[i]], from
    index [i] on; [rest] holds the records from that index. *)
Fixpoint sampleLoop (i : nat) (sampleCount : Q) (rest : list PortalRecord)
    : list PortalRecord :=
  match rest with
  | [] => []
  | record :: rest' =>
      if Qle_bool sampleCount (inject_Z (Z.of_nat i)) then []
      else sampleRecord record :: sampleLoop (S i) sampleCount rest'
  end.

(** [sampleCount = Math.min(limit, portalRecords.length)], then one sample
    for each [i < sampleCount].  The limit is any number: a fraction is
    not rounded before the comparison. *)
Definition extractSampleData (portalRecords : list PortalRecord) (limit : Q)
    : list PortalRecord :=
  let sampleCount :=
    Qmin limit (inject_Z (Z.of_nat (List.length portalRecords))) in
  sampleLoop 0 sampleCount portalRecords.

Record PortalAnalysis : Type := mkPortalAnalysis {
  name : string;
  relatedTableName : string;
  fields : list MetadataAggregator.FieldMetadata;
  recordCount : nat;
  sampleData : option (list PortalRecord)
}.

Record AnalyzePortalDataInput : Type := mkAnalyzePortalDataInput {
  in_layout : string;
  in_includeSampleData : option bool;
  in_sampleLimit : option Q
}.

Record AnalyzePortalDataOutput : Type := mkAnalyzePortalDataOutput {
  out_layout : string;
  portals : list PortalAnalysis;
  totalPortals : nat;
  relatedTables : list string
}.

(** [Record<string, Array<Record<string, unknown>>>] *)
Definition PortalDataMap : Type := list (string * list PortalRecord).

(** What [analyzePortalData] reads of a record returned by
    [GET /layouts/{layout}/records?_limit=1]: its [portalData]. *)
Record RecordPortals : Type := mkRecordPortals {
  portalData : option PortalDataMap
}.

(** One iteration of [for (const [portalName, portalFields] of
    Object.entries(metadata.portalMetaData))]. *)
Definition analyzePortal
    (includeSampleData : bool) (sampleLimit : Q) (portalDataMap : PortalDataMap)
    (portalName : string) (portalFields : list FileMaker.FMFieldMetaData)
    : PortalAnalysis :=
  let relatedTableName := inferRelatedTableName portalName in
  let fields := map convertFieldMetadata portalFields in
  match includeSampleData, JsString.getProperty portalDataMap portalName with
  | true, Some portalRecords =>
      mkPortalAnalysis portalName relatedTableName fields
        (List.length portalRecords)
        (Some (extractSampleData portalRecords sampleLimit))
  | _, _ => mkPortalAnalysis portalName relatedTableName fields 0%nat None
  end.

(** 2.: the portal loop, with [portals] and the set [relatedTables]. *)
Definition analyzePortals
    (includeSampleData : bool) (sampleLimit : Q) (portalDataMap : PortalDataMap)
    (portalMetaData : list (string * list FileMaker.FMFieldMetaData))
    : list PortalAnalysis * list string :=
  (map (fun entry =>
          analyzePortal includeSampleData sampleLimit portalDataMap
                        (fst entry) (snd entry))
       portalMetaData,
   fold_left (fun set entry => setAdd set (inferRelatedTableName (fst entry)))
             portalMetaData []).

(** The [portalDataMap] taken from the answer to the records request. *)
Definition portalDataOf (recordsResult : Response (list RecordPortals)) : PortalDataMap :=
  match recordsResult with
  | Success response =>
      match response.(data) with
      | firstRecord :: _ =>
          match firstRecord.(portalData) with
          | Some map => map
          | None => []
          end
      | [] => []
      end
  | _ => []
  end.

Section WithRemote.
(** [fetchFirstRecord layout] is the call
    [sessionManager.withSession((client, token) =>
       client.get(`/layouts/${layout}/records?_limit=1`, token))]. *)
Context {W : Type} (remote : Remote W)
        (fetchFirstRecord : string -> M W (Response (list RecordPortals))).

Definition analyzePortalData (input : AnalyzePortalDataInput)
    : M W (AnalyzePortalDataOutput + Tools.ErrorResponse) :=
  let includeSampleData :=
    match input.(in_includeSampleData) with Some b => b | None => false end in
  let sampleLimit :=
    Qmin (match input.(in_sampleLimit) with
          | Some n => n
          | None => inject_Z DEFAULT_SAMPLE_LIMIT
          end)
         (inject_Z MAX_SAMPLE_LIMIT) in
  metadataResult <- fetchLayoutMetadata remote input.(in_layout) ;;
  match metadataResult with
  | Failure e => ret (inr e)
  | NoData =>
      ret (inr (ErrorMapper.createErrorResponse 500 None
                  (Some "Unexpected response format")))
  | Success metadataResponse =>
      match metadataResponse.(data).(FileMaker.portalMetaData) with
      | None | Some [] =>
          ret (inl (mkAnalyzePortalDataOutput input.(in_layout) [] 0%nat []))
      | Some portalMetaData =>
          portalDataMap <-
            (if includeSampleData then
               recordsResult <- fetchFirstRecord input.(in_layout) ;;
               ret (portalDataOf recordsResult)
             else ret []) ;;
          let (portals, relatedTables) :=
            analyzePortals includeSampleData sampleLimit portalDataMap portalMetaData in
          ret (inl (mkAnalyzePortalDataOutput input.(in_layout) portals
                      (List.length portals) relatedTables))
      end
  end.

End WithRemote.

End Values.

End PortalAnalyzer.

(* ====================================================================== *)
(** * More of the JavaScript runtime: trimming and number conversion *)
(* ====================================================================== *)

Module JsText.

(** [s.trimStart()]: the white space at the front is dropped, one code
    point of one, two or three bytes at a time. *)
Fixpoint trimStart (s : string) : string :=
  match s with
  | EmptyString => EmptyString
  | String c1 rest1 =>
      if JsString.isWhiteSpace c1 then trimStart rest1
      else
        match rest1 with
        | EmptyString => s
        | String c2 rest2 =>
            if JsString.isWhiteSpace2 c1 c2 then trimStart rest2
            else
              match rest2 with
              | EmptyString => s
              | String c3 rest3 =>
                  if JsString.isWhiteSpace3 c1 c2 c3 then trimStart rest3 else s
              end
        end
  end.

(** [s.trimEnd()]: the text is cut where only white space follows. *)
Fixpoint trimEnd (s : string) : string :=
  match s with
  | EmptyString => EmptyString
  | String c rest =>
      if JsString.trimIsEmpty s then EmptyString else String c (trimEnd rest)
  end.

(** [s.trim()] *)
Definition trim (s : string) : string := trimEnd (trimStart s).

(** [s.slice(0, -1)] *)
Definition dropLast (s : string) : string :=
  String.substring 0 (String.length s - 1) s.

(** The decimal digit that [c] stands for. *)
Definition digitOf (c : ascii) : option Z :=
  let n := nat_of_ascii c in
  if ((48 <=? n) && (n <=? 57))%nat then Some (Z.of_nat (n - 48)) else None.

(** The value of the longest prefix of decimal digits of [s], read after
    the digits [acc] ([None] when no digit has been read). *)
Fixpoint readDigits (s : string) (acc : option Z) : option Z :=
  match s with
  | EmptyString => acc
  | String c rest =>
      match digitOf c with
      | Some d =>
          readDigits rest (Some (10 * match acc with Some a => a | None => 0 end + d))
      | None => acc
      end
  end.

(** [Number.parseInt(s, 10)], with [None] for [NaN]: leading white space
    is skipped, a sign is read, then the longest prefix of digits.  The
    value is the integer that the digits write, which is the number of the
    source as long as it is a safe integer (below 2^53 in size). *)
Definition parseInt10 (s : string) : option Z :=
  match trimStart s with
  | String "-" rest => option_map Z.opp (readDigits rest None)
  | String "+" rest => readDigits rest None
  | t => readDigits t None
  end.

(** [`${n}`] for an integer [n]. *)
Definition numberToString (n : Z) : string :=
  DecimalString.NilZero.string_of_int (Z.to_int n).

End JsText.

(* ====================================================================== *)
(** * config.ts *)
(* ====================================================================== *)

Module ConfigLoader.

(** [Partial<FileMakerConfig>] *)
Record PartialConfig : Type := mkPartialConfig {
  server : option string;
  database : option string;
  username : option string;
  password : option string;
  apiVersion : option string;
  sslVerify : option bool;
  sessionTimeout : option Z
}.

Record ConfigValidationResult : Type := mkConfigValidationResult {
  valid : bool;
  errors : list string;
  warnings : list string
}.

Definition DEFAULT_apiVersion : string := "vLatest".
Definition DEFAULT_sslVerify : bool := true.
Definition DEFAULT_sessionTimeout : Z := 840.

(** The variables of [process.env] that [ENV_VARS] names. *)
Record Env : Type := mkEnv {
  FM_SERVER : option string;
  FM_DATABASE : option string;
  FM_USERNAME : option string;
  FM_PASSWORD : option string;
  FM_API_VERSION : option string;
  FM_SSL_VERIFY : option string;
  FM_SESSION_TIMEOUT : option string
}.

(** A string that is neither [undefined] nor empty: [if (x)], [!x]. *)
Definition truthy (x : option string) : bool :=
  match x with
  | Some s => negb (String.eqb s "")
  | None => false
  end.

Definition parseBooleanEnv (value : option string) (defaultValue : bool) : bool :=
  match value with
  | None => defaultValue
  | Some v =>
      if String.eqb v "" then defaultValue
      else
        let normalized := JsText.trim (JsString.toLowerCase v) in
        String.eqb normalized "true" || String.eqb normalized "1"
        || String.eqb normalized "yes"
  end.

Definition parseIntEnv (value : option string) (defaultValue : Z) : Z :=
  match value with
  | None => defaultValue
  | Some v =>
      if String.eqb v "" then defaultValue
      else
        match JsText.parseInt10 v with
        | Some parsed => parsed
        | None => defaultValue
        end
  end.

(** [while (normalized.endsWith('/')) normalized = normalized.slice(0, -1)];
    every turn shortens the string, so [fuel] above its length is never
    used up. *)
Fixpoint stripTrailingSlashes (fuel : nat) (normalized : string) : string :=
  match fuel with
  | O => normalized
  | S fuel' =>
      if JsString.endsWith normalized "/"
      then stripTrailingSlashes fuel' (JsText.dropLast normalized)
      else normalized
  end.

Definition normalizeServerUrl (url : option string) : option string :=
  if negb (truthy url) then None
  else
    match url with
    | None => None
    | Some u =>
        let trimmed := JsText.trim u in
        let normalized :=
          if negb (JsString.startsWith trimmed "http://")
             && negb (JsString.startsWith trimmed "https://")
          then ("https://" ++ trimmed)%string else trimmed in
        Some (stripTrailingSlashes (S (String.length normalized)) normalized)
    end.

(** [if (x) config.field = x]: the field is set for a non-empty value. *)
Definition whenTruthy (x : option string) : option string :=
  if truthy x then x else None.

Definition loadConfigFromEnv (env : Env) : PartialConfig :=
  mkPartialConfig
    (whenTruthy (normalizeServerUrl env.(FM_SERVER)))
    (whenTruthy env.(FM_DATABASE))
    (whenTruthy env.(FM_USERNAME))
    (whenTruthy env.(FM_PASSWORD))
    (Some (if truthy env.(FM_API_VERSION)
           then match env.(FM_API_VERSION) with Some v => v | None => DEFAULT_apiVersion end
           else DEFAULT_apiVersion))
    (Some (parseBooleanEnv env.(FM_SSL_VERIFY) DEFAULT_sslVerify))
    (Some (parseIntEnv env.(FM_SESSION_TIMEOUT) DEFAULT_sessionTimeout)).

(** [if (!config.field) errors.push(`${name} is required`)] *)
Definition requiredError (field : option string) (name : string) : list string :=
  if truthy field then [] else [(name ++ " is required")%string].

Definition validateConfig (config : PartialConfig) : ConfigValidationResult :=
  let serverErrors :=
    if negb (truthy config.(server)) then ["FM_SERVER is required"]
    else
      match config.(server) with
      | Some s =>
          if JsString.startsWith s "http://"
          then ["FM_SERVER must use HTTPS (SEC-005)"] else []
      | None => []
      end in
  let errors :=
    serverErrors
      ++ requiredError config.(database) "FM_DATABASE"
      ++ requiredError config.(username) "FM_USERNAME"
      ++ requiredError config.(password) "FM_PASSWORD" in
  let sslWarnings :=
    match config.(sslVerify) with
    | Some false =>
        [ ("SEC-006: SSL certificate verification is disabled. " ++
           "This is insecure and should only be used in development.")%string ]
    | _ => []
    end in
  let timeoutWarnings :=
    match config.(sessionTimeout) with
    | Some t =>
        (if t <? 60
         then [ ("FM_SESSION_TIMEOUT is very short (" ++ JsText.numberToString t
                 ++ "s). Consider using at least 60 seconds.")%string ]
         else [])
        ++ (if 900 <? t
            then [ ("FM_SESSION_TIMEOUT (" ++ JsText.numberToString t
                    ++ "s) exceeds FileMaker's default timeout (900s). "
                    ++ "Session may expire unexpectedly.")%string ]
            else [])
    | None => []
    end in
  mkConfigValidationResult
    (match errors with [] => true | _ :: _ => false end)
    errors
    (sslWarnings ++ timeoutWarnings).

(** [{ ...envConfig, ...cleanedOverrides }] for one field: an override that
    is not [undefined] wins. *)
Definition mergeField {A : Type} (envValue override : option A) : option A :=
  match override with
  | Some v => Some v
  | None => envValue
  end.

(** [merged as FileMakerConfig].  The empty strings and the defaults stand
    for [undefined]; [getConfig] casts only a configuration that passed
    [validateConfig] on top of [loadConfigFromEnv], in which every field is
    set. *)
Definition castConfig (merged : PartialConfig) : Config.FileMakerConfig :=
  Config.mkFileMakerConfig
    (match merged.(server) with Some v => v | None => "" end)
    (match merged.(database) with Some v => v | None => "" end)
    (match merged.(username) with Some v => v | None => "" end)
    (match merged.(password) with Some v => v | None => "" end)
    (match merged.(apiVersion) with Some v => v | None => DEFAULT_apiVersion end)
    (match merged.(sslVerify) with Some v => v | None => DEFAULT_sslVerify end)
    (match merged.(sessionTimeout) with Some v => v | None => DEFAULT_sessionTimeout end).

(** The configuration that [getConfig] validates. *)
Definition mergeConfig (env : Env) (overrides : option PartialConfig) : PartialConfig :=
  let envConfig := loadConfigFromEnv env in
  match overrides with
  | None => envConfig
  | Some o =>
      mkPartialConfig
        (if truthy o.(server) then normalizeServerUrl o.(server)
         else mergeField envConfig.(server) o.(server))
        (mergeField envConfig.(database) o.(database))
        (mergeField envConfig.(username) o.(username))
        (mergeField envConfig.(password) o.(password))
        (mergeField envConfig.(apiVersion) o.(apiVersion))
        (mergeField envConfig.(sslVerify) o.(sslVerify))
        (mergeField envConfig.(sessionTimeout) o.(sessionTimeout))
  end.

Definition getConfig (env : Env) (overrides : option PartialConfig)
    : Config.FileMakerConfig + ConfigValidationResult :=
  let merged := mergeConfig env overrides in
  let validation := validateConfig merged in
  if validation.(valid) then inl (castConfig merged) else inr validation.

(** [!('valid' in result)] *)
Definition isValidConfig (result : Config.FileMakerConfig + ConfigValidationResult)
    : bool :=
  match result with
  | inl _ => true
  | inr _ => false
  end.

End ConfigLoader.

(* ====================================================================== *)
(** * tools/auth.ts *)
(* ====================================================================== *)

Module AuthTools.
Import Client Session Session.Notations.

Record LoginInput : Type := mkLoginInput {
  server : option string;
  database : option string;
  username : option string;
  password : option string
}.

(** [LoginOutput], with the [sessionInfo] that [login] returned. *)
Record LoginOutput : Type := mkLoginOutput {
  login_message : string;
  sessionInfo : SessionInfo
}.

Definition invalidConfiguration (validation : ConfigLoader.ConfigValidationResult)
    : Tools.ErrorResponse :=
  Tools.mkErrorResponse
    (Tools.mkErrorDetail ErrorMapper.ErrorCodes.INTERNAL_CONFIG_ERROR
       "Invalid configuration"
       (Some (String.concat ", " validation.(ConfigLoader.errors)))
       None false).

Section WithRemote.
Context {W : Type} (remote : Remote W)
        (loginRequest : SessionLogin.LoginRequest W)
        (env : ConfigLoader.Env).

Definition handleLogin (args : LoginInput) : M W (LoginOutput + Tools.ErrorResponse) :=
  let config :=
    ConfigLoader.getConfig env
      (Some (ConfigLoader.mkPartialConfig
               args.(server) args.(database) args.(username) args.(password)
               None None None)) in
  match config with
  | inr validation => ret (inr (invalidConfiguration validation))
  | inl config =>
      result <- SessionLogin.login remote loginRequest config ;;
      match result with
      | inr e => ret (inr e)
      | inl sessionInfo => ret (inl (mkLoginOutput "Login successful" sessionInfo))
      end
  end.

(** The result of [handleLogout] is that of [logout]. *)
Definition handleLogout : M W (string + Tools.ErrorResponse) := logout remote.

Definition handleValidateSession : M W ValidateSessionResult :=
  validateSession remote.

End WithRemote.

End AuthTools.

(* ====================================================================== *)
(** * More sample inputs *)
(* ====================================================================== *)

Module Samples.
Import Client Session.

(** A server that issues the token "token-2" for the password "secret",
    the empty token for the password "blank", and answers every other
    password with HTTP 401 and FileMaker code 212. *)
Definition loginRequest : SessionLogin.LoginRequest Scenario.Snapshot :=
  fun _ _ password w =>
    (if String.eqb password "secret"
     then inl (mkApiResponse 200 (SessionLogin.mkFMLoginResponse "token-2") [])
     else if String.eqb password "blank"
     then inl (mkApiResponse 200 (SessionLogin.mkFMLoginResponse "") [])
     else inr (ErrorMapper.createErrorResponse 401 (Some 212) (Some "Login failed")),
     w).

(** [Scenario.config] with another password. *)
Definition configWithPassword (password : string) : Config.FileMakerConfig :=
  Config.mkFileMakerConfig "https://fm.example.com" "Sales" "analyst" password
                           "vLatest" true 840.

(** An environment that configures everything but the password. *)
Definition env : ConfigLoader.Env :=
  ConfigLoader.mkEnv (Some "fm.example.com/") (Some "Sales") (Some "analyst") None
                     None (Some " Yes ") (Some "600s").

(** An environment whose server is given with plain HTTP. *)
Definition httpEnv : ConfigLoader.Env :=
  ConfigLoader.mkEnv (Some "http://fm.example.com") (Some "Sales") (Some "analyst")
                     (Some "secret") None None None.

(** [Scenario.salesDb] read when the clock shows [clock]. *)
Definition salesDbAt (clock : Z) : Scenario.Snapshot :=
  Scenario.mkSnapshot
    (Scenario.layoutsAnswer Scenario.salesDb) (Scenario.metadataAnswer Scenario.salesDb)
    (Scenario.findAnswer Scenario.salesDb) (Scenario.scriptsAnswer Scenario.salesDb)
    (Scenario.deleteAnswer Scenario.salesDb) clock (Scenario.clockIso Scenario.salesDb).

(** A database with the layouts "Tickets" and "Tasks", which both define a
    value list "Status", and a folder "Old". *)
Definition listsDb : Scenario.Snapshot :=
  Scenario.mkSnapshot
    (Scenario.ok (FileMaker.mkFMLayoutsResponse
                    [ Scenario.layoutInfo "Tickets";
                      FileMaker.mkFMLayoutInfo "Old" (Some true);
                      Scenario.layoutInfo "Tasks" ]))
    (fun layoutName =>
       if String.eqb layoutName "Tickets"
       then Scenario.ok (FileMaker.mkFMLayoutMetadataResponse
                           [ Scenario.field "Title" "text" ]
                           (Some [ ("portal_Comments", []); ("Watchers", []) ])
                           (Some [ ("Status", ["Open"; "Closed"]); ("Color", ["Red"]) ]))
       else Scenario.ok (FileMaker.mkFMLayoutMetadataResponse
                           [ Scenario.field "Name" "text" ]
                           (Some [ ("Steps_portal", []) ])
                           (Some [ ("Status", ["New"]); ("Size", ["S"; "M"]) ])))
    (fun _ => Scenario.failed 500 (Some 401) "POST _find")
    (Scenario.ok (FileMaker.mkFMScriptsResponse []))
    (Scenario.ok tt)
    61000
    "2026-01-01T00:00:00.000Z".

(** Three portal rows with their bookkeeping keys. *)
Definition orderRows : list (@PortalAnalyzer.PortalRecord string) :=
  [ [ ("recordId", "11"); ("Orders::Amount", "10"); ("modId", "0") ];
    [ ("recordId", "12"); ("Orders::Amount", "25"); ("modId", "3") ];
    [ ("recordId", "13"); ("Orders::Amount", "40"); ("modId", "1") ] ].

(** U+3000, the ideographic space, in UTF-8: E3 80 80. *)
Definition ideographicSpace : string :=
  String (ascii_of_nat 227) (String (ascii_of_nat 128)
    (String (ascii_of_nat 128) EmptyString)).

(** A portal row that has a field named "__proto__". *)
Definition protoRows : list (@PortalAnalyzer.PortalRecord string) :=
  [ [ ("recordId", "21"); ("__proto__", "x"); ("Orders::Amount", "7");
      ("modId", "0") ] ].

(** The request for the first record of a layout, answered with one record
    whose portal "Orders" holds [orderRows]. *)
Definition fetchFirstRecord (layout : string)
    : Session.M Scenario.Snapshot
        (Client.Response (list (@PortalAnalyzer.RecordPortals string))) :=
  Session.withSession
    (fun _ _ =>
       Session.ret
         (Scenario.ok [ PortalAnalyzer.mkRecordPortals (Some [ ("Orders", orderRows) ]) ])).

(** The same request answered with HTTP 500. *)
Definition failingFirstRecord (layout : string)
    : Session.M Scenario.Snapshot
        (Client.Response (list (@PortalAnalyzer.RecordPortals string))) :=
  Session.withSession
    (fun _ _ => Session.ret (Scenario.failed 500 None "GET /layouts/records")).

End Samples.

(* ====================================================================== *)
(** * Reference definitions

    These definitions are not taken from the source.  They say in the
    words of the properties what the code is compared with: what it means
    for two names to be the same up to the case of their letters, and
    where the outcome of each layout of a search is to be filed. *)
(* ====================================================================== *)

Module Reference.
Import Client Session Session.Notations GlobalSearcher.

(** The same character, or the two cases of one of the letters A to Z. *)
Definition sameCharIgnoringCase (a b : ascii) : bool :=
  let m := nat_of_ascii a in
  let n := nat_of_ascii b in
  ((m =? n)
   || ((65 <=? m) && (m <=? 90) && (m + 32 =? n))
   || ((65 <=? n) && (n <=? 90) && (n + 32 =? m)))%nat.

(** Two names of the same length that agree character by character up to
    the case of the letters A to Z. *)
Fixpoint sameNameIgnoringCase (a b : string) : bool :=
  match a, b with
  | EmptyString, EmptyString => true
  | String x a', String y b' => sameCharIgnoringCase x y && sameNameIgnoringCase a' b'
  | _, _ => false
  end.

Section Outcomes.
Context {W : Type} (remote : Remote W).

(** The outcome of [searchLayout] for each layout in turn, each search
    starting where the one before it ended. *)
Fixpoint searchOutcomes
    (layouts : list string) (searchText : string) (options : SearchOptions)
    : M W (list SearchLayoutResult) :=
  match layouts with
  | [] => ret []
  | layoutName :: rest =>
      outcome <- searchLayout remote layoutName searchText options ;;
      outcomes <- searchOutcomes rest searchText options ;;
      ret (outcome :: outcomes)
  end.

End Outcomes.

(** The results of the outcomes that are not skips, in their order. *)
Definition searchedResults (outcomes : list SearchLayoutResult)
    : list LayoutSearchResult :=
  flat_map (fun outcome =>
              if outcome.(skipped) then []
              else match outcome.(result) with
                   | Some r => [r]
                   | None => []
                   end)
           outcomes.

(** The layouts whose outcome is a skip, in the order of the request. *)
Definition skippedNames (layouts : list string) (outcomes : list SearchLayoutResult)
    : list string :=
  map fst (filter (fun entry => (snd entry).(skipped)) (combine layouts outcomes)).

(** The layouts whose outcome is not a skip, in the order of the request. *)
Definition searchedNames (layouts : list string) (outcomes : list SearchLayoutResult)
    : list string :=
  map fst (filter (fun entry => negb (snd entry).(skipped))
                  (combine layouts outcomes)).

End Reference.

(* ====================================================================== *)
(** * Properties of the error mapper *)
(* ====================================================================== *)

Module ErrorMapperFacts.
Import ErrorMapper.

Lemma scanRetryable_absent (errorCode : Z) (infos : list ErrorInfo) :
  (forall info, In info infos -> info.(code) <> errorCode) ->
  scanRetryable errorCode infos = None.
Proof.
  induction infos as [|info rest IH]; intros Habsent; simpl.
  - reflexivity.
  - destruct (Z.eqb_spec info.(code) errorCode) as [Heq|_].
    + exfalso. apply (Habsent info); [now left | exact Heq].
    + apply IH. intros i Hi. apply Habsent. now right.
Qed.

(** C1. A FileMaker code that has an entry in [FM_ERROR_MAP] is resolved
    to that entry whatever the HTTP status is; in particular
    [resolveError(401, 401)] is the "No records match the request"
    descriptor (internal code 3002 = API_RECORD_NOT_FOUND, not retryable)
    and not the "Session expired" descriptor (2001 = SESSION_EXPIRED) that
    HTTP 401 alone resolves to. *)
Theorem resolveError_domain_code_first :
  (forall (httpStatus fm : Z) (info : ErrorInfo),
      lookup fm FM_ERROR_MAP = Some info ->
      resolveError httpStatus (Some fm) = info)
  /\ resolveError 401 (Some 401) =
       mkErrorInfo ErrorCodes.API_RECORD_NOT_FOUND "No records match the request" false
  /\ (resolveError 401 (Some 401)).(code) = 3002
  /\ (resolveError 401 (Some 401)).(retryable) = false
  /\ (resolveError 401 (Some 401)).(code) <> ErrorCodes.SESSION_EXPIRED
  /\ (resolveError 401 None).(code) = ErrorCodes.SESSION_EXPIRED.
Proof.
  split.
  - intros httpStatus fm info Hfm. unfold resolveError. now rewrite Hfm.
  - repeat split; try reflexivity. vm_compute. discriminate.
Qed.

Lemma resolveError_domain_code_first_witness :
  resolveError 401 (Some 401) =
    mkErrorInfo ErrorCodes.API_RECORD_NOT_FOUND "No records match the request" false.
Proof.
  apply (proj1 resolveError_domain_code_first 401 401). reflexivity.
Defined.

(** C9. The fallback chain of [resolveError]: without a FileMaker code
    (or with one that has no entry) the HTTP status decides, and without
    an entry for the status the unknown descriptor is returned.
    [resolveError(999)] is the unknown descriptor (not retryable),
    [resolveError(429)] is the rate-limited descriptor (retryable),
    [resolveError(400, 401)] is the "no records" descriptor, and
    [isRetryableError] is [false] for an internal code that no entry of
    either table carries. *)
Theorem resolveError_fallback_chain :
  (forall (httpStatus : Z) (fmErrorCode : option Z),
      (forall fm, fmErrorCode = Some fm -> lookup fm FM_ERROR_MAP = None) ->
      resolveError httpStatus fmErrorCode =
        match lookup httpStatus HTTP_ERROR_MAP with
        | Some info => info
        | None => unknownError
        end)
  /\ resolveError 999 None = mkErrorInfo ErrorCodes.INTERNAL_UNKNOWN "Unknown error" false
  /\ resolveError 429 None =
       mkErrorInfo ErrorCodes.API_RATE_LIMITED "Rate limited - too many requests" true
  /\ resolveError 400 (Some 401) =
       mkErrorInfo ErrorCodes.API_RECORD_NOT_FOUND "No records match the request" false
  /\ (forall errorCode : Z,
        (forall info, In info (values HTTP_ERROR_MAP) -> info.(code) <> errorCode) ->
        (forall info, In info (values FM_ERROR_MAP) -> info.(code) <> errorCode) ->
        isRetryableError errorCode = false).
Proof.
  split; [|repeat split; try reflexivity].
  - intros httpStatus [fm|] Hfm; unfold resolveError.
    + now rewrite (Hfm fm eq_refl).
    + reflexivity.
  - intros errorCode Hhttp Hfm. unfold isRetryableError.
    rewrite (scanRetryable_absent _ _ Hhttp), (scanRetryable_absent _ _ Hfm).
    reflexivity.
Qed.

Lemma resolveError_fallback_chain_witness :
  resolveError 404 (Some 9999) =
    mkErrorInfo ErrorCodes.API_LAYOUT_NOT_FOUND "Resource not found" false
  /\ isRetryableError 9999 = false.
Proof.
  destruct resolveError_fallback_chain as (Hchain & _ & _ & _ & Habsent).
  split.
  - apply (Hchain 404 (Some 9999)). intros fm Hfm. injection Hfm as <-. reflexivity.
  - apply Habsent; intros info Hin; simpl in Hin;
      repeat (destruct Hin as [<-|Hin]; [vm_compute; discriminate|]);
      contradiction.
Defined.

(** C10. [isRetryableError(5001)] is [true]: the scan of
    [HTTP_ERROR_MAP], which comes first, stops at the entry of status 500,
    whose internal code is 5001 (INTERNAL_UNKNOWN) and whose flag is
    [true]; the unknown descriptor that [resolveError] falls back to
    carries the same code 5001 with the flag [false]. *)
Theorem isRetryableError_internal_unknown :
  isRetryableError ErrorCodes.INTERNAL_UNKNOWN = true
  /\ ErrorCodes.INTERNAL_UNKNOWN = 5001
  /\ lookup 500 HTTP_ERROR_MAP =
       Some (mkErrorInfo ErrorCodes.INTERNAL_UNKNOWN "FileMaker server error" true)
  /\ scanRetryable 5001 (values HTTP_ERROR_MAP) = Some true
  /\ scanRetryable 5001 (values FM_ERROR_MAP) = None
  /\ (resolveError 999 None).(code) = 5001
  /\ (resolveError 999 None).(retryable) = false.
Proof.
  repeat split; reflexivity.
Qed.

End ErrorMapperFacts.

(* ====================================================================== *)
(** * Properties of the search value builder *)
(* ====================================================================== *)

Module SearchValueFacts.
Import GlobalSearcher.

(** C4. Only text fields are decorated: for the result type "text" the
    mode [contains] wraps the text in [*], [startsWith] appends [*] and
    [exact] prefixes [==]; for every other result type, and in particular
    for number, date, time and timestamp, the value is the search text
    itself in every mode. *)
Theorem buildSearchValue_decorates_text_only (searchText : string) :
  buildSearchValue searchText contains "text" = ("*" ++ searchText ++ "*")%string
  /\ buildSearchValue searchText startsWith "text" = (searchText ++ "*")%string
  /\ buildSearchValue searchText exact "text" = ("==" ++ searchText)%string
  /\ (forall (searchMode : SearchMode) (fieldResultType : string),
        fieldResultType <> "text" ->
        buildSearchValue searchText searchMode fieldResultType = searchText)
  /\ (forall searchMode : SearchMode,
        buildSearchValue searchText searchMode "number" = searchText
        /\ buildSearchValue searchText searchMode "date" = searchText
        /\ buildSearchValue searchText searchMode "time" = searchText
        /\ buildSearchValue searchText searchMode "timestamp" = searchText).
Proof.
  repeat split; try reflexivity.
  intros searchMode fieldResultType Hnot. unfold buildSearchValue.
  destruct (String.eqb_spec fieldResultType "text") as [Heq|_].
  - contradiction.
  - reflexivity.
Qed.

Lemma buildSearchValue_decorates_text_only_witness :
  buildSearchValue "ABC" contains "text" = "*ABC*"
  /\ buildSearchValue "ABC" contains "container" = "ABC".
Proof.
  destruct (buildSearchValue_decorates_text_only "ABC") as (Htext & _ & _ & Hother & _).
  split.
  - exact Htext.
  - apply Hother. discriminate.
Defined.

End SearchValueFacts.

(* ====================================================================== *)
(** * Properties of the relationship inferrer *)
(* ====================================================================== *)

Module RelationshipInferrerFacts.
Import RelationshipInferrer.

Lemma inferForeignKeyFromField_ext (f g : FileMaker.FMFieldMetaData) :
  f.(FileMaker.name) = g.(FileMaker.name) ->
  f.(FileMaker.result) = g.(FileMaker.result) ->
  inferForeignKeyFromField f = inferForeignKeyFromField g.
Proof.
  intros Hname Hresult. unfold inferForeignKeyFromField.
  now rewrite Hname, Hresult.
Qed.

Lemma inferForeignKeyFromField_other_type (f : FileMaker.FMFieldMetaData) :
  f.(FileMaker.result) <> "text" ->
  f.(FileMaker.result) <> "number" ->
  inferForeignKeyFromField f = None.
Proof.
  intros Htext Hnumber. unfold inferForeignKeyFromField.
  destruct (String.eqb_spec f.(FileMaker.result) "number") as [E|_];
    [contradiction|].
  destruct (String.eqb_spec f.(FileMaker.result) "text") as [E|_];
    [contradiction|].
  reflexivity.
Qed.

Lemma inferForeignKeyFromField_no_pattern (f : FileMaker.FMFieldMetaData) :
  firstTable FOREIGN_KEY_PATTERNS f.(FileMaker.name) = None ->
  inferForeignKeyFromField f = None.
Proof.
  intros Hnone. unfold inferForeignKeyFromField. rewrite Hnone.
  now destruct (_ && _).
Qed.

(** C8. The result of [inferForeignKeyFromField] is a function of the
    field's name and result type alone.  "Customer_ID" gives the table
    "Customer", with confidence high for a number field and medium for a
    text field; a name that no pattern matches, such as "FirstName",
    gives [null] for every type; a field that is neither text nor number
    gives [null] whatever its name. *)
Theorem inferForeignKeyFromField_deterministic :
  (forall f g : FileMaker.FMFieldMetaData,
      f.(FileMaker.name) = g.(FileMaker.name) ->
      f.(FileMaker.result) = g.(FileMaker.result) ->
      inferForeignKeyFromField f = inferForeignKeyFromField g)
  /\ (forall f : FileMaker.FMFieldMetaData,
        f.(FileMaker.name) = "Customer_ID" ->
        f.(FileMaker.result) = "number" ->
        inferForeignKeyFromField f =
          Some (mkInferredForeignKey "Customer_ID" "Customer" Tools.high
                  "フィールド名「Customer_ID」が外部キーパターンに一致"))
  /\ (forall f : FileMaker.FMFieldMetaData,
        f.(FileMaker.name) = "Customer_ID" ->
        f.(FileMaker.result) = "text" ->
        inferForeignKeyFromField f =
          Some (mkInferredForeignKey "Customer_ID" "Customer" Tools.medium
                  "フィールド名「Customer_ID」が外部キーパターンに一致"))
  /\ (forall f : FileMaker.FMFieldMetaData,
        firstTable FOREIGN_KEY_PATTERNS f.(FileMaker.name) = None ->
        inferForeignKeyFromField f = None)
  /\ map (fun pattern => pattern "FirstName") FOREIGN_KEY_PATTERNS =
       [None; None; None; None]
  /\ (forall f : FileMaker.FMFieldMetaData,
        f.(FileMaker.name) = "FirstName" -> inferForeignKeyFromField f = None)
  /\ (forall f : FileMaker.FMFieldMetaData,
        f.(FileMaker.result) <> "text" ->
        f.(FileMaker.result) <> "number" ->
        inferForeignKeyFromField f = None).
Proof.
  split; [exact inferForeignKeyFromField_ext|].
  split.
  { intros f Hname Hresult. unfold inferForeignKeyFromField.
    rewrite Hname, Hresult. reflexivity. }
  split.
  { intros f Hname Hresult. unfold inferForeignKeyFromField.
    rewrite Hname, Hresult. reflexivity. }
  split; [exact inferForeignKeyFromField_no_pattern|].
  split; [reflexivity|].
  split; [|exact inferForeignKeyFromField_other_type].
  intros f Hname. apply inferForeignKeyFromField_no_pattern.
  rewrite Hname. reflexivity.
Qed.

Lemma inferForeignKeyFromField_deterministic_witness :
  inferForeignKeyFromField (Scenario.field "Customer_ID" "number") =
    Some (mkInferredForeignKey "Customer_ID" "Customer" Tools.high
            "フィールド名「Customer_ID」が外部キーパターンに一致")
  /\ inferForeignKeyFromField (Scenario.field "Customer_ID" "text") =
       Some (mkInferredForeignKey "Customer_ID" "Customer" Tools.medium
               "フィールド名「Customer_ID」が外部キーパターンに一致")
  /\ inferForeignKeyFromField (Scenario.field "FirstName" "text") = None
  /\ inferForeignKeyFromField (Scenario.field "Customer_ID" "date") = None.
Proof.
  destruct inferForeignKeyFromField_deterministic
    as (_ & Hnumber & Htext & _ & _ & Hfirst & Hother).
  split; [apply Hnumber; reflexivity|].
  split; [apply Htext; reflexivity|].
  split; [apply Hfirst; reflexivity|].
  apply Hother; discriminate.
Defined.

Lemma existingRelationship_app
    (rels1 rels2 : list DetailedInferredRelationship) (fk : InferredForeignKey) :
  existingRelationship (rels1 ++ rels2) fk =
    existingRelationship rels1 fk || existingRelationship rels2 fk.
Proof. unfold existingRelationship. apply existsb_app. Qed.

Lemma existingRelationship_own (layout : string) (fk : InferredForeignKey) :
  existingRelationship [relationshipFromForeignKey layout fk] fk = true.
Proof.
  unfold existingRelationship. simpl. now rewrite String.eqb_refl.
Qed.

(** The loop over the fields only appends to the relationships it starts
    from; what it appends comes from a foreign key whose table no earlier
    relationship targets; and every foreign key it finds ends up with a
    relationship that targets its table. *)
Lemma scanFields_spec (layout : string) (fields : list FileMaker.FMFieldMetaData) :
  forall rels0 fks0 rels fks,
    scanFields layout fields rels0 fks0 = (rels, fks) ->
    exists added,
      rels = rels0 ++ added
      /\ (forall fk, In fk fks0 -> In fk fks)
      /\ (forall pre r post,
            added = pre ++ r :: post ->
            exists fk, In fk fks
                       /\ r = relationshipFromForeignKey layout fk
                       /\ existingRelationship (rels0 ++ pre) fk = false)
      /\ (forall f fk,
            In f fields -> inferForeignKeyFromField f = Some fk ->
            In fk fks /\ existingRelationship rels fk = true).
Proof.
  induction fields as [|field rest IH]; intros rels0 fks0 rels fks H; simpl in H.
  - injection H as <- <-. exists []. rewrite app_nil_r.
    split; [reflexivity|]. split; [auto|]. split.
    + intros [|p pre] r post E; discriminate.
    + intros f fk [].
  - destruct (inferForeignKeyFromField field) as [fk0|] eqn:Hfk.
    + destruct (existingRelationship rels0 fk0) eqn:Hex;
        apply IH in H as (added & -> & Hfks & Hadded & Hcov).
      * exists added. split; [reflexivity|].
        split; [intros fk Hin; apply Hfks, in_or_app; now left|].
        split; [exact Hadded|].
        intros f fk [<-|Hin] Hf; [|now apply (Hcov f)].
        rewrite Hfk in Hf. injection Hf as <-. split.
        -- apply Hfks, in_or_app. right. now left.
        -- now rewrite existingRelationship_app, Hex.
      * exists (relationshipFromForeignKey layout fk0 :: added).
        split; [now rewrite <- app_assoc|].
        split; [intros fk Hin; apply Hfks, in_or_app; now left|].
        split.
        -- intros [|p pre] r post E; simpl in E.
           ++ injection E as <- <-. exists fk0. rewrite app_nil_r.
              split; [apply Hfks, in_or_app; right; now left|]. now split.
           ++ injection E as <- E.
              destruct (Hadded pre r post E) as (fk & Hin & Hr & Hx).
              exists fk. rewrite <- app_assoc in Hx. now repeat split.
        -- intros f fk [<-|Hin] Hf; [|now apply (Hcov f)].
           rewrite Hfk in Hf. injection Hf as <-. split.
           ++ apply Hfks, in_or_app. right. now left.
           ++ rewrite !existingRelationship_app, existingRelationship_own.
              now rewrite orb_true_r.
    + apply IH in H as (added & -> & Hfks & Hadded & Hcov).
      exists added. split; [reflexivity|]. split; [exact Hfks|].
      split; [exact Hadded|].
      intros f fk [<-|Hin] Hf; [|now apply (Hcov f)].
      rewrite Hfk in Hf. discriminate.
Qed.

(** What [inferRelationships] returns when the metadata of the layout
    could be fetched. *)
Lemma inferRelationships_success
    {W : Type} (remote : Client.Remote W) (input : InferRelationshipsInput)
    (s s' : Session.Sys W)
    (response : Client.ApiResponse FileMaker.FMLayoutMetadataResponse) :
  Session.fetchLayoutMetadata remote input.(in_layout) s
    = (Client.Success response, s') ->
  exists out,
    inferRelationships remote input s = (inl out, s')
    /\ (out.(inferredRelationships), out.(inferredForeignKeys)) =
         inferFromMetadata input.(in_layout) response.(Client.data)
    /\ out.(disclaimer) = INFERENCE_DISCLAIMER.
Proof.
  intros Hfetch. unfold inferRelationships, Session.bind. rewrite Hfetch.
  destruct (inferFromMetadata _ _) as [rels fks] eqn:Hinfer.
  eexists. split; [reflexivity|]. simpl. now split.
Qed.

Lemma inferForeignKeyFromField_Order_ID (f : FileMaker.FMFieldMetaData) :
  f.(FileMaker.name) = "Order_ID" ->
  f.(FileMaker.result) = "text" \/ f.(FileMaker.result) = "number" ->
  exists fk,
    inferForeignKeyFromField f = Some fk /\ fk.(inferredReferencedTable) = "Order".
Proof.
  intros Hname [Hresult|Hresult]; unfold inferForeignKeyFromField;
    rewrite Hname, Hresult; eexists; split; reflexivity.
Qed.

Lemma lowerChar_nat (c : ascii) :
  nat_of_ascii (JsString.lowerChar c) =
    if ((65 <=? nat_of_ascii c) && (nat_of_ascii c <=? 90))%nat
    then (nat_of_ascii c + 32)%nat else nat_of_ascii c.
Proof.
  unfold JsString.lowerChar.
  destruct ((65 <=? nat_of_ascii c) && (nat_of_ascii c <=? 90))%nat eqn:H;
    [|reflexivity].
  apply nat_ascii_embedding.
  apply andb_true_iff in H as (_ & H). apply Nat.leb_le in H. lia.
Qed.

(** On single characters, equality after [toLowerCase] is equality up to
    the case of the letters A to Z. *)
Lemma lowerChar_same (a b : ascii) :
  Ascii.eqb (JsString.lowerChar a) (JsString.lowerChar b) =
    Reference.sameCharIgnoringCase a b.
Proof.
  apply Bool.eq_true_iff_eq. rewrite Ascii.eqb_eq.
  unfold Reference.sameCharIgnoringCase.
  rewrite !orb_true_iff, !andb_true_iff, !Nat.eqb_eq, !Nat.leb_le.
  assert (Hnat : JsString.lowerChar a = JsString.lowerChar b <->
                 nat_of_ascii (JsString.lowerChar a)
                 = nat_of_ascii (JsString.lowerChar b)).
  { split; [now intros ->|]. intros H.
    rewrite <- (ascii_nat_embedding (JsString.lowerChar a)),
            <- (ascii_nat_embedding (JsString.lowerChar b)).
    now rewrite H. }
  rewrite Hnat, !lowerChar_nat.
  destruct ((65 <=? nat_of_ascii a) && (nat_of_ascii a <=? 90))%nat eqn:Ha;
    destruct ((65 <=? nat_of_ascii b) && (nat_of_ascii b <=? 90))%nat eqn:Hb;
    try (apply andb_true_iff in Ha; rewrite !Nat.leb_le in Ha);
    try (apply andb_false_iff in Ha; rewrite !Nat.leb_gt in Ha);
    try (apply andb_true_iff in Hb; rewrite !Nat.leb_le in Hb);
    try (apply andb_false_iff in Hb; rewrite !Nat.leb_gt in Hb);
    lia.
Qed.

(** The comparison of [inferRelationships], equality of the names after
    [toLowerCase], is equality up to the case of the letters A to Z. *)
Lemma toLowerCase_same (a : string) :
  forall b : string,
    String.eqb (JsString.toLowerCase a) (JsString.toLowerCase b) =
      Reference.sameNameIgnoringCase a b.
Proof.
  induction a as [|x a IH]; intros [|y b]; simpl; try reflexivity.
  now rewrite lowerChar_same, IH.
Qed.

Lemma existingRelationship_same
    (rels : list DetailedInferredRelationship) (fk : InferredForeignKey) :
  existingRelationship rels fk =
    existsb (fun r => Reference.sameNameIgnoringCase
                        r.(targetTable) fk.(inferredReferencedTable))
            rels.
Proof.
  unfold existingRelationship.
  induction rels as [|r rels IH]; simpl; [reflexivity|].
  now rewrite toLowerCase_same, IH.
Qed.

Lemma scanFields_app (layout : string) (fields1 fields2 : list FileMaker.FMFieldMetaData) :
  forall rels0 fks0,
    scanFields layout (fields1 ++ fields2) rels0 fks0 =
      scanFields layout fields2
                 (fst (scanFields layout fields1 rels0 fks0))
                 (snd (scanFields layout fields1 rels0 fks0)).
Proof.
  induction fields1 as [|field rest IH]; intros rels0 fks0; simpl; [reflexivity|].
  destruct (inferForeignKeyFromField field) as [fk|]; [|apply IH].
  destruct (existingRelationship rels0 fk); apply IH.
Qed.

(** What the loop does with one field that looks like a foreign key. *)
Lemma scanFields_step
    (layout : string) (before : list FileMaker.FMFieldMetaData)
    (f : FileMaker.FMFieldMetaData) (fk : InferredForeignKey)
    (rels0 : list DetailedInferredRelationship) (fks0 : list InferredForeignKey) :
  inferForeignKeyFromField f = Some fk ->
  fst (scanFields layout (before ++ [f]) rels0 fks0) =
    if existsb (fun r => Reference.sameNameIgnoringCase
                           r.(targetTable) fk.(inferredReferencedTable))
               (fst (scanFields layout before rels0 fks0))
    then fst (scanFields layout before rels0 fks0)
    else fst (scanFields layout before rels0 fks0)
         ++ [relationshipFromForeignKey layout fk].
Proof.
  intros Hfk. rewrite scanFields_app. simpl. rewrite Hfk.
  rewrite <- existingRelationship_same.
  now destruct (existingRelationship _ fk).
Qed.

Lemma inferForeignKeyFromField_table
    (f : FileMaker.FMFieldMetaData) (fk : InferredForeignKey) :
  inferForeignKeyFromField f = Some fk ->
  firstTable FOREIGN_KEY_PATTERNS f.(FileMaker.name)
    = Some fk.(inferredReferencedTable).
Proof.
  unfold inferForeignKeyFromField. destruct (negb _ && negb _); [discriminate|].
  destruct (firstTable _ _) as [table|]; [|discriminate].
  intros H. now injection H as <-.
Qed.

(** When every field that looks like a foreign key gives the same guess,
    the loop adds one relationship for that guess, or none when a
    relationship for it is there already or no field looks like a key. *)
Lemma scanFields_one_guess
    (layout table : string) (fields : list FileMaker.FMFieldMetaData) :
  (forall g fk, In g fields -> inferForeignKeyFromField g = Some fk ->
                fk.(inferredReferencedTable) = table) ->
  forall rels0 fks0,
    map targetTable (fst (scanFields layout fields rels0 fks0)) =
      map targetTable rels0
      ++ (if existsb (fun r => Reference.sameNameIgnoringCase r.(targetTable) table)
                     rels0
          then []
          else if existsb (fun g => match inferForeignKeyFromField g with
                                    | Some _ => true
                                    | None => false
                                    end) fields
               then [table] else []).
Proof.
  induction fields as [|field rest IH]; intros Hguess rels0 fks0; simpl.
  - destruct (existsb _ rels0); now rewrite app_nil_r.
  - assert (Hrest : forall g fk, In g rest -> inferForeignKeyFromField g = Some fk ->
                                 fk.(inferredReferencedTable) = table).
    { intros g fk Hin. apply Hguess. now right. }
    destruct (inferForeignKeyFromField field) as [fk0|] eqn:Hfk; [|now apply IH].
    assert (Htable : fk0.(inferredReferencedTable) = table)
      by (apply (Hguess field); [now left|exact Hfk]).
    rewrite existingRelationship_same, Htable.
    destruct (existsb _ rels0) eqn:Hdup.
    + rewrite (IH Hrest). now rewrite Hdup.
    + rewrite (IH Hrest), existsb_app, Hdup. simpl. rewrite Htable.
      rewrite <- toLowerCase_same, String.eqb_refl. simpl.
      rewrite map_app, app_nil_r. simpl. now rewrite Htable.
Qed.

#[warnings="-notation-for-abbreviation"]
Local Notation asciiNames metadata :=
  (forall name,
      In name (map FileMaker.name metadata.(FileMaker.fieldMetaData))
      \/ In name (map fst (match metadata.(FileMaker.portalMetaData) with
                           | Some portals => portals
                           | None => []
                           end)) ->
      JsString.isAsciiText name = true).

(** C3, as the code has it.  The relationships of a layout are those of
    its portals followed by field-derived ones.  On names in ASCII (where
    [toLowerCase] of this file is that of the source) a field that looks
    like a foreign key adds a relationship exactly when no relationship
    collected before it, from a portal or from an earlier field, targets a
    name that is the field's guess up to the case of its letters.  The
    comparison is on the names as guessed: with the only portal "Orders"
    and a text or number field "Order_ID" the portal relationship targets
    "Orders", the field's guess is "Order", and the result holds a
    relationship for "Order" besides the portal's one; these two are all
    when no field gives another guess.  A portal "ORDERS" and a field
    "orders_id" give the one relationship of the portal. *)
Theorem inferFromMetadata_dedup_by_name
    (layout : string) (metadata : FileMaker.FMLayoutMetadataResponse)
    (rels : list DetailedInferredRelationship) (fks : list InferredForeignKey) :
  inferFromMetadata layout metadata = (rels, fks) ->
  let portalRels :=
    relationshipsFromPortals layout metadata.(FileMaker.portalMetaData) in
  exists fieldRels,
    rels = portalRels ++ fieldRels
    /\ (asciiNames metadata ->
        forall before f after fk,
          metadata.(FileMaker.fieldMetaData) = before ++ f :: after ->
          inferForeignKeyFromField f = Some fk ->
          let earlier := fst (scanFields layout before portalRels []) in
          let later := fst (scanFields layout (before ++ [f]) portalRels []) in
          (exists rest, rels = later ++ rest)
          /\ ((exists r, In r earlier
                         /\ Reference.sameNameIgnoringCase
                              r.(targetTable) fk.(inferredReferencedTable) = true) ->
              later = earlier)
          /\ ((forall r, In r earlier ->
                         Reference.sameNameIgnoringCase
                           r.(targetTable) fk.(inferredReferencedTable) = false) ->
              later = earlier ++ [relationshipFromForeignKey layout fk]))
    /\ (asciiNames metadata ->
        forall pre r post,
          fieldRels = pre ++ r :: post ->
          exists fk,
            In fk fks
            /\ r = relationshipFromForeignKey layout fk
            /\ forall r', In r' (portalRels ++ pre) ->
                          Reference.sameNameIgnoringCase
                            r'.(targetTable) fk.(inferredReferencedTable) = false)
    /\ (forall portalFields f,
          metadata.(FileMaker.portalMetaData) = Some [("Orders", portalFields)] ->
          In f metadata.(FileMaker.fieldMetaData) ->
          f.(FileMaker.name) = "Order_ID" ->
          f.(FileMaker.result) = "text" \/ f.(FileMaker.result) = "number" ->
          map targetTable portalRels = ["Orders"]
          /\ (exists r, In r fieldRels
                        /\ Reference.sameNameIgnoringCase r.(targetTable) "Order"
                           = true)
          /\ (2 <= List.length rels)%nat
          /\ ((forall g fk,
                  In g metadata.(FileMaker.fieldMetaData) ->
                  inferForeignKeyFromField g = Some fk ->
                  fk.(inferredReferencedTable) = "Order") ->
              map targetTable rels = ["Orders"; "Order"]))
    /\ map targetTable
         (fst (inferFromMetadata layout
                 (FileMaker.mkFMLayoutMetadataResponse
                    [Scenario.field "orders_id" "number"]
                    (Some [("ORDERS", [])]) None)))
       = ["ORDERS"].
Proof.
  intros Hinfer portalRels. unfold inferFromMetadata in Hinfer.
  pose proof Hinfer as Hscan.
  apply scanFields_spec in Hinfer as (fieldRels & Hrels & _ & Hadded & Hcov).
  exists fieldRels. split; [exact Hrels|]. split; [|split; [|split]].
  - intros _ before f after fk Hfields Hfk. cbv zeta.
    rewrite (scanFields_step layout before f fk portalRels [] Hfk).
    split; [|split].
    + rewrite <- (scanFields_step layout before f fk portalRels [] Hfk).
      rewrite Hfields in Hscan.
      change (before ++ f :: after) with (before ++ [f] ++ after) in Hscan.
      rewrite app_assoc, scanFields_app in Hscan.
      apply scanFields_spec in Hscan as (rest & Hrest & _).
      now exists rest.
    + intros (r & Hin & Hsame).
      assert (H : existsb (fun r => Reference.sameNameIgnoringCase
                                      r.(targetTable) fk.(inferredReferencedTable))
                          (fst (scanFields layout before portalRels [])) = true)
        by (apply existsb_exists; now exists r).
      now rewrite H.
    + intros Hnone.
      destruct (existsb _ (fst (scanFields layout before portalRels []))) eqn:H;
        [|reflexivity].
      apply existsb_exists in H as (r & Hin & Hsame).
      rewrite (Hnone r Hin) in Hsame. discriminate.
  - intros _ pre r post E.
    destruct (Hadded pre r post E) as (fk & Hin & Hr & Hex).
    exists fk. split; [exact Hin|]. split; [exact Hr|].
    intros r' Hr'. rewrite existingRelationship_same in Hex.
    destruct (Reference.sameNameIgnoringCase _ _) eqn:Hsame; [|reflexivity].
    assert (H : existsb (fun r => Reference.sameNameIgnoringCase
                                    r.(targetTable) fk.(inferredReferencedTable))
                        (portalRels ++ pre) = true)
      by (apply existsb_exists; now exists r').
    fold portalRels in Hex. congruence.
  - intros portalFields f Hportal Hin Hname Hresult.
    destruct (inferForeignKeyFromField_Order_ID f Hname Hresult) as (fk & Hfk & Htable).
    destruct (Hcov f fk Hin Hfk) as (_ & Hex).
    assert (Hp : map targetTable portalRels = ["Orders"]).
    { unfold portalRels. rewrite Hportal. reflexivity. }
    assert (Hr : exists r, In r fieldRels
                           /\ Reference.sameNameIgnoringCase r.(targetTable) "Order"
                              = true).
    { rewrite Hrels, existingRelationship_app in Hex.
      fold portalRels in Hex.
      assert (Hnone : existingRelationship portalRels fk = false).
      { unfold portalRels. rewrite Hportal. unfold existingRelationship.
        rewrite Htable. reflexivity. }
      rewrite Hnone in Hex. simpl in Hex.
      rewrite existingRelationship_same in Hex.
      apply existsb_exists in Hex as (r & Hr & Heq).
      rewrite Htable in Heq. now exists r. }
    split; [exact Hp|]. split; [exact Hr|]. split.
    + destruct Hr as (r & Hr & _).
      rewrite Hrels, length_app.
      apply (f_equal (@List.length _)) in Hp. rewrite length_map in Hp.
      fold portalRels. rewrite Hp.
      destruct fieldRels; [contradiction|simpl; lia].
    + intros Hguess.
      pose proof (scanFields_one_guess layout "Order"
                    metadata.(FileMaker.fieldMetaData) Hguess portalRels [])
        as Hone.
      fold portalRels in Hscan. rewrite Hscan in Hone. simpl fst in Hone.
      rewrite Hone, Hp.
      assert (Hdup : existsb (fun r => Reference.sameNameIgnoringCase
                                         r.(targetTable) "Order") portalRels
                     = false).
      { unfold portalRels. rewrite Hportal. reflexivity. }
      assert (Hany : existsb (fun g => match inferForeignKeyFromField g with
                                       | Some _ => true
                                       | None => false
                                       end) metadata.(FileMaker.fieldMetaData)
                     = true).
      { apply existsb_exists. exists f. split; [exact Hin|]. now rewrite Hfk. }
      now rewrite Hdup, Hany.
  - reflexivity.
Qed.

Lemma inferFromMetadata_dedup_by_name_witness :
  map targetTable (fst (inferFromMetadata "Customers" Scenario.customersMetadata))
    = ["Orders"; "Order"]
  /\ fst (scanFields "Customers"
            ([Scenario.field "Name" "text"] ++ [Scenario.field "Order_ID" "number"])
            (relationshipsFromPortals "Customers"
               (Some [("Orders", [Scenario.field "Amount" "number"])])) [])
     = fst (scanFields "Customers" [Scenario.field "Name" "text"]
              (relationshipsFromPortals "Customers"
                 (Some [("Orders", [Scenario.field "Amount" "number"])])) [])
       ++ [relationshipFromForeignKey "Customers"
             (mkInferredForeignKey "Order_ID" "Order" Tools.high
                "フィールド名「Order_ID」が外部キーパターンに一致")]
  /\ map targetTable (fst (inferFromMetadata "Customers" Scenario.customersMetadataPlural))
       = ["Orders"].
Proof.
  destruct (inferFromMetadata "Customers" Scenario.customersMetadata)
    as [rels fks] eqn:Hinfer.
  destruct (inferFromMetadata_dedup_by_name _ _ _ _ Hinfer)
    as (fieldRels & _ & Hrule & _ & Horders & _).
  split; [|split; [|reflexivity]].
  - apply (Horders [Scenario.field "Amount" "number"]
                   (Scenario.field "Order_ID" "number")).
    + reflexivity.
    + simpl. right. now left.
    + reflexivity.
    + now right.
    + intros g fk [<-|[<-|[]]] Hfk; vm_compute in Hfk; [discriminate|].
      now injection Hfk as <-.
  - apply (Hrule (fun name Hname => ltac:(
               simpl in Hname;
               destruct Hname as [[<-|[<-|[]]]|[<-|[]]]; reflexivity))
            [Scenario.field "Name" "text"] (Scenario.field "Order_ID" "number") []
            (mkInferredForeignKey "Order_ID" "Order" Tools.high
               "フィールド名「Order_ID」が外部キーパターンに一致")
            eq_refl eq_refl).
    intros r [<-|[]]. reflexivity.
Defined.

(** C3, as the claim states it, fails: on a layout whose only portal is
    "Orders" and whose fields include the number field "Order_ID",
    [inferRelationships] returns two relationships that target "Order" or
    "Orders", one for each name. *)
Lemma inferRelationships_orders_not_deduplicated :
  exists out s',
    inferRelationships Scenario.snapshotRemote
      (mkInferRelationshipsInput "Customers" None)
      (Scenario.start Scenario.salesDb Scenario.activeManager) = (inl out, s')
    /\ map targetTable out.(inferredRelationships) = ["Orders"; "Order"]
    /\ List.length
         (filter (fun r => String.eqb r.(targetTable) "Order"
                           || String.eqb r.(targetTable) "Orders")
                 out.(inferredRelationships)) = 2%nat
    /\ List.length out.(inferredRelationships) <> 1%nat.
Proof.
  eexists. eexists. split; [reflexivity|].
  split; [reflexivity|]. split; [reflexivity|]. discriminate.
Qed.

End RelationshipInferrerFacts.

(* ====================================================================== *)
(** * Properties of the session manager *)
(* ====================================================================== *)

Module SessionFacts.
Import Client Session.

Section WithRemote.
Context {W : Type} (remote : Remote W).

Lemma withSession_active {T : Type}
    (requestFn : FileMakerHttpClient -> string -> M W (Response T))
    (s : Sys W) (client : FileMakerHttpClient) (st : SessionState) :
  activeSession (manager s) = Some (client, st) ->
  withSession requestFn s = requestFn client st.(token) s.
Proof.
  intros Hactive. unfold withSession, bind, getManager. now rewrite Hactive.
Qed.

Lemma withSession_absent {T : Type}
    (requestFn : FileMakerHttpClient -> string -> M W (Response T)) (s : Sys W) :
  activeSession (manager s) = None ->
  withSession requestFn s = (Failure noActiveSessionError, s).
Proof.
  intros Habsent. unfold withSession, bind, getManager. now rewrite Habsent.
Qed.

Lemma logout_absent (s : Sys W) :
  activeSession (manager s) = None ->
  logout remote s = (inr noActiveSessionLogout, s).
Proof.
  intros Habsent. unfold logout, bind, getManager. now rewrite Habsent.
Qed.

Lemma logout_active
    (s : Sys W) (client : FileMakerHttpClient) (st : SessionState)
    (response : Response unit) (w' : W) :
  activeSession (manager s) = Some (client, st) ->
  deleteSession remote client st.(token) (world s) = (response, w') ->
  logout remote s =
    (match response with
     | Failure e =>
         if e.(Tools.error).(Tools.code) =? ErrorMapper.ErrorCodes.SESSION_EXPIRED
         then inl "Session already expired"
         else inr e
     | _ => inl "Logged out successfully"
     end,
     mkSys emptyManager w' (trace s ++ [DeleteSession st.(token)])).
Proof.
  intros Hactive Hdelete.
  unfold logout, bind, getManager, send, clearSession, setManager.
  rewrite Hactive, Hdelete. simpl.
  destruct response as [r|e|]; try reflexivity.
  now destruct (_ =? _).
Qed.

Lemma activeSession_emptyManager : activeSession emptyManager = None.
Proof. reflexivity. Qed.

(** After [logout] the guard of the authenticated methods fails. *)
Lemma logout_leaves_absent (s : Sys W) :
  activeSession (manager (snd (logout remote s))) = None.
Proof.
  destruct (activeSession (manager s)) as [[client st]|] eqn:Hactive.
  - destruct (deleteSession remote client st.(token) (world s))
      as [response w'] eqn:Hdelete.
    now rewrite (logout_active s client st response w' Hactive Hdelete).
  - now rewrite (logout_absent s Hactive).
Qed.

(** C5. [logout] without an active session returns the non-retryable
    "No active session" error (SESSION_INVALID) and sends nothing: the
    process state, its request trace included, is unchanged.  With an
    active session it sends exactly one request, the
    [DELETE /sessions/{token}], and whatever the answer is the manager
    ends with neither client nor state; an answer resolved to
    SESSION_EXPIRED counts as a successful logout, any other error is
    returned.  Hence a [logout] that follows a [logout] returns the
    "No active session" error and sends nothing. *)
Theorem logout_clears_session (s : Sys W) :
  (activeSession (manager s) = None ->
     logout remote s = (inr noActiveSessionLogout, s)
     /\ noActiveSessionLogout.(Tools.error).(Tools.retryable) = false
     /\ noActiveSessionLogout.(Tools.error).(Tools.code)
          = ErrorMapper.ErrorCodes.SESSION_INVALID)
  /\ (forall client st response w',
        activeSession (manager s) = Some (client, st) ->
        deleteSession remote client st.(token) (world s) = (response, w') ->
        exists outcome,
          let s1 := mkSys emptyManager w' (trace s ++ [DeleteSession st.(token)]) in
          logout remote s = (outcome, s1)
          /\ getToken (manager s1) = None
          /\ getSessionInfo (manager s1) = None
          /\ hasActiveSession (manager s1) = false
          /\ (forall e, response = Failure e ->
                e.(Tools.error).(Tools.code) = ErrorMapper.ErrorCodes.SESSION_EXPIRED ->
                outcome = inl "Session already expired")
          /\ (forall e, response = Failure e ->
                e.(Tools.error).(Tools.code) <> ErrorMapper.ErrorCodes.SESSION_EXPIRED ->
                outcome = inr e)
          /\ (isErrorResponse response = false ->
                outcome = inl "Logged out successfully")
          /\ logout remote s1 = (inr noActiveSessionLogout, s1))
  /\ (let s1 := snd (logout remote s) in
      activeSession (manager s1) = None
      /\ logout remote s1 = (inr noActiveSessionLogout, s1)).
Proof.
  split; [|split].
  - intros Habsent. now rewrite (logout_absent s Habsent).
  - intros client st response w' Hactive Hdelete.
    eexists. cbv zeta.
    split; [exact (logout_active s client st response w' Hactive Hdelete)|].
    repeat split.
    + intros e -> Hcode. now rewrite Hcode, Z.eqb_refl.
    + intros e -> Hcode.
      now destruct (Z.eqb_spec e.(Tools.error).(Tools.code)
                               ErrorMapper.ErrorCodes.SESSION_EXPIRED).
    + intros Hok. destruct response; [reflexivity|discriminate|reflexivity].
  - cbv zeta. split; [apply logout_leaves_absent|].
    apply logout_absent, logout_leaves_absent.
Qed.

Lemma validateSession_expired
    (s : Sys W) (client : FileMakerHttpClient) (st : SessionState)
    (e : Tools.ErrorResponse) (w' : W) :
  activeSession (manager s) = Some (client, st) ->
  getLayouts remote client st.(token) (world s) = (Failure e, w') ->
  e.(Tools.error).(Tools.code) = ErrorMapper.ErrorCodes.SESSION_EXPIRED ->
  validateSession remote s =
    (mkValidateSessionResult false "Session expired or invalid" None,
     mkSys emptyManager w' (trace s ++ [GetLayouts st.(token)])).
Proof.
  intros Hactive Hprobe Hcode.
  unfold validateSession, bind, getManager, send, clearSession, setManager.
  rewrite Hactive, Hprobe. simpl. now rewrite Hcode.
Qed.

(** C2, as the code has it.  With an active session, [withSession] runs
    the request function on the live client and token and returns its
    result as it is; a request sent through it leaves the manager as it
    was, whatever the answer, an error resolved to SESSION_EXPIRED
    included.  The session is cleared on such an error by the two methods
    that send their request themselves: [validateSession], which then
    reports [valid: false] with the message "Session expired or invalid",
    and [logout], which then reports the success "Session already
    expired". *)
Theorem withSession_returns_result_unchanged
    (s : Sys W) (client : FileMakerHttpClient) (st : SessionState) :
  activeSession (manager s) = Some (client, st) ->
  (forall (T : Type)
          (requestFn : FileMakerHttpClient -> string -> M W (Response T)),
      withSession requestFn s = requestFn client st.(token) s)
  /\ (forall (T : Type)
             (request : FileMakerHttpClient -> string -> Request)
             (handler : FileMakerHttpClient -> string -> W -> Response T * W),
        let (response, s') :=
          withSession (fun c t => send (request c t) (handler c t)) s in
        response = fst (handler client st.(token) (world s))
        /\ manager s' = manager s
        /\ activeSession (manager s') = Some (client, st)
        /\ trace s' = trace s ++ [request client st.(token)])
  /\ (forall e w',
        getLayouts remote client st.(token) (world s) = (Failure e, w') ->
        e.(Tools.error).(Tools.code) = ErrorMapper.ErrorCodes.SESSION_EXPIRED ->
        validateSession remote s =
          (mkValidateSessionResult false "Session expired or invalid" None,
           mkSys emptyManager w' (trace s ++ [GetLayouts st.(token)])))
  /\ (forall e w',
        deleteSession remote client st.(token) (world s) = (Failure e, w') ->
        e.(Tools.error).(Tools.code) = ErrorMapper.ErrorCodes.SESSION_EXPIRED ->
        logout remote s =
          (inl "Session already expired",
           mkSys emptyManager w' (trace s ++ [DeleteSession st.(token)]))).
Proof.
  intros Hactive. split; [|split; [|split]].
  - intros T requestFn. now apply withSession_active.
  - intros T request handler.
    rewrite (withSession_active _ s client st Hactive). unfold send.
    destruct (handler client st.(token) (world s)) as [response w'].
    simpl. now repeat split.
  - intros e w'. now apply validateSession_expired.
  - intros e w' Hdelete Hcode.
    rewrite (logout_active s client st (Failure e) w' Hactive Hdelete).
    now rewrite Hcode, Z.eqb_refl.
Qed.

End WithRemote.

Lemma logout_clears_session_witness :
  logout Scenario.snapshotRemote
         (Scenario.start Scenario.expiredDb emptyManager)
    = (inr noActiveSessionLogout, Scenario.start Scenario.expiredDb emptyManager)
  /\ (exists outcome,
        logout Scenario.snapshotRemote
               (Scenario.start Scenario.expiredDb Scenario.activeManager)
          = (outcome, mkSys emptyManager Scenario.expiredDb [DeleteSession "token-1"])
        /\ outcome = inl "Session already expired")
  /\ (exists outcome,
        logout Scenario.snapshotRemote
               (Scenario.start Scenario.unreachableDb Scenario.activeManager)
          = (outcome, mkSys emptyManager Scenario.unreachableDb [DeleteSession "token-1"])
        /\ outcome = inr (ErrorMapper.createErrorResponse 503 None
                            (Some "DELETE /sessions/token-1"))).
Proof.
  split; [|split].
  - apply (proj1 (logout_clears_session Scenario.snapshotRemote _)). reflexivity.
  - destruct (proj1 (proj2 (logout_clears_session Scenario.snapshotRemote
                (Scenario.start Scenario.expiredDb Scenario.activeManager)))
                _ _ _ _ eq_refl eq_refl)
      as (outcome & Hrun & _ & _ & _ & Hexpired & _).
    exists outcome. split; [exact Hrun|].
    eapply Hexpired; reflexivity.
  - destruct (proj1 (proj2 (logout_clears_session Scenario.snapshotRemote
                (Scenario.start Scenario.unreachableDb Scenario.activeManager)))
                _ _ _ _ eq_refl eq_refl)
      as (outcome & Hrun & _ & _ & _ & _ & Hother & _).
    exists outcome. split; [exact Hrun|].
    eapply Hother; [reflexivity|]. vm_compute. discriminate.
Defined.

Lemma withSession_returns_result_unchanged_witness :
  fetchLayouts Scenario.snapshotRemote
               (Scenario.start Scenario.expiredDb Scenario.activeManager)
    = send (GetLayouts "token-1")
           (getLayouts Scenario.snapshotRemote (newClient Scenario.config) "token-1")
           (Scenario.start Scenario.expiredDb Scenario.activeManager)
  /\ validateSession Scenario.snapshotRemote
                     (Scenario.start Scenario.expiredDb Scenario.activeManager)
       = (mkValidateSessionResult false "Session expired or invalid" None,
          mkSys emptyManager Scenario.expiredDb [GetLayouts "token-1"])
  /\ logout Scenario.snapshotRemote
            (Scenario.start Scenario.expiredDb Scenario.activeManager)
       = (inl "Session already expired",
          mkSys emptyManager Scenario.expiredDb [DeleteSession "token-1"]).
Proof.
  destruct (withSession_returns_result_unchanged
              Scenario.snapshotRemote
              (Scenario.start Scenario.expiredDb Scenario.activeManager)
              (newClient Scenario.config)
              (mkSessionState "token-1"
                 (mkSessionInfo "Sales" "https://fm.example.com" 1000)
                 Scenario.config)
              eq_refl)
    as (Hresult & _ & Hvalidate & Hlogout).
  split; [|split].
  - exact (Hresult _ (fun client token =>
                        send (GetLayouts token)
                             (getLayouts Scenario.snapshotRemote client token))).
  - eapply Hvalidate; reflexivity.
  - eapply Hlogout; reflexivity.
Defined.

(** C2, as the claim states it, fails: a metadata request made through
    [withSession] ([fetchLayoutMetadata] is such a call) with an active
    session and answered with HTTP 401 comes
    back as the SESSION_EXPIRED error, and afterwards the manager still
    holds the token and the session information. *)
Lemma withSession_keeps_expired_session :
  exists e s',
    fetchLayoutMetadata Scenario.snapshotRemote "Customers"
                        (Scenario.start Scenario.expiredDb Scenario.activeManager)
      = (Failure e, s')
    /\ e.(Tools.error).(Tools.code) = ErrorMapper.ErrorCodes.SESSION_EXPIRED
    /\ hasActiveSession (manager s') = true
    /\ getToken (manager s') = Some "token-1"
    /\ getSessionInfo (manager s')
         = Some (mkSessionInfo "Sales" "https://fm.example.com" 1000)
    /\ manager s' <> emptyManager.
Proof.
  eexists. eexists. split; [reflexivity|].
  repeat split. discriminate.
Qed.

End SessionFacts.

(* ====================================================================== *)
(** * Properties of the cross-layout search *)
(* ====================================================================== *)

Module GlobalSearcherFacts.
Import Client Session GlobalSearcher.

Section WithRemote.
Context {W : Type} (remote : Remote W).

Lemma searchLayout_metadata_failure
    (layoutName searchText : string) (options : SearchOptions)
    (s s1 : Sys W) (e : Tools.ErrorResponse) :
  fetchLayoutMetadata remote layoutName s = (Failure e, s1) ->
  searchLayout remote layoutName searchText options s =
    (mkSearchLayoutResult None true
       (Some ("メタデータ取得エラー: " ++ e.(Tools.error).(Tools.message))%string),
     s1).
Proof.
  intros Hmeta. unfold searchLayout, bind. now rewrite Hmeta.
Qed.

Lemma searchLayout_find_failure
    (layoutName searchText : string) (options : SearchOptions)
    (s s1 s2 : Sys W)
    (metadataResponse : ApiResponse FileMaker.FMLayoutMetadataResponse)
    (e : Tools.ErrorResponse) :
  let searchableFields := selectSearchableFields options metadataResponse.(data) in
  fetchLayoutMetadata remote layoutName s = (Success metadataResponse, s1) ->
  searchableFields <> [] ->
  findRecords remote layoutName
              (buildRequestBody searchText options searchableFields) s1
    = (Failure e, s2) ->
  searchLayout remote layoutName searchText options s =
    (if fmErrorCodeIs e 401
     then mkSearchLayoutResult
            (Some (mkLayoutSearchResult layoutName 0%nat []
                     (map FileMaker.name searchableFields) None))
            false None
     else mkSearchLayoutResult None true
            (Some ("検索エラー: " ++ e.(Tools.error).(Tools.message))%string),
     s2).
Proof.
  intros searchableFields Hmeta Hfields Hfind.
  unfold searchLayout, bind. rewrite Hmeta.
  fold searchableFields.
  destruct searchableFields as [|f fs] eqn:Hsel; [contradiction|].
  rewrite Hfind. now destruct (fmErrorCodeIs e 401).
Qed.

(** Every outcome of [searchLayout] is either a skip with a reason and
    no result, or a result for the layout that was asked for. *)
Lemma searchLayout_outcome
    (layoutName searchText : string) (options : SearchOptions) (s : Sys W) :
  let outcome := fst (searchLayout remote layoutName searchText options s) in
  (outcome.(skipped) = true /\ outcome.(result) = None
   /\ exists reason, outcome.(skipReason) = Some reason)
  \/ (outcome.(skipped) = false
      /\ exists r, outcome.(result) = Some r /\ r.(layout) = layoutName).
Proof.
  cbv zeta. unfold searchLayout, bind.
  destruct (fetchLayoutMetadata remote layoutName s) as [[metadataResponse|e|] s1];
    simpl; [|left; eauto|left; eauto].
  destruct (selectSearchableFields options metadataResponse.(data)) as [|f fs];
    simpl; [left; eauto|].
  destruct (findRecords remote layoutName _ s1) as [[searchResponse|e|] s2];
    simpl; [right; eauto| |left; eauto].
  destruct (fmErrorCodeIs e 401); simpl; [right; eauto|left; eauto].
Qed.

(** The main loop appends to its three locals: one entry, in a result or
    in the skipped list, for each layout it is given, and the record
    counts of the results it adds. *)
Lemma searchLayouts_spec
    (searchText : string) (options : SearchOptions) (layouts : list string) :
  forall (acc : Accumulator) (s : Sys W),
    let acc' := fst (searchLayouts remote layouts searchText options acc s) in
    exists newResults newSkipped,
      acc'.(acc_results) = acc.(acc_results) ++ newResults
      /\ acc'.(acc_skippedLayouts) = acc.(acc_skippedLayouts) ++ newSkipped
      /\ acc'.(acc_totalRecordsFound) =
           (acc.(acc_totalRecordsFound) + list_sum (map recordCount newResults))%nat
      /\ Permutation (map layout newResults ++ newSkipped) layouts.
Proof.
  induction layouts as [|layoutName rest IH]; intros acc s; cbv zeta.
  - exists [], []. simpl. rewrite !app_nil_r, Nat.add_0_r. now repeat split.
  - simpl. unfold bind.
    pose proof (searchLayout_outcome layoutName searchText options s) as Hout.
    cbv zeta in Hout.
    destruct (searchLayout remote layoutName searchText options s) as [outcome s1].
    simpl in Hout.
    specialize (IH (recordOutcome layoutName outcome acc) s1). cbv zeta in IH.
    destruct IH as (newResults & newSkipped & Hres & Hskip & Htotal & Hperm).
    unfold recordOutcome in *.
    destruct Hout as [(Hskipped & _ & _)|(Hskipped & r & Hr & Hlayout)];
      rewrite Hskipped in *; simpl in *.
    + exists newResults, (layoutName :: newSkipped).
      split; [exact Hres|]. split; [now rewrite Hskip, <- app_assoc|].
      split; [exact Htotal|].
      apply Permutation_sym, Permutation_cons_app, Permutation_sym, Hperm.
    + rewrite Hr in *. simpl in *.
      exists (r :: newResults), newSkipped.
      split; [now rewrite Hres, <- app_assoc|]. split; [exact Hskip|].
      split; [rewrite Htotal; simpl; lia|].
      simpl. rewrite Hlayout. now apply perm_skip.
Qed.

(** The main loop files the outcome of each layout where it belongs: the
    result of an outcome that is not a skip among the results, the name of
    a skipped layout among the skipped ones, both in the order of the
    request. *)
Lemma searchLayouts_filing
    (searchText : string) (options : SearchOptions) (layouts : list string) :
  forall (acc : Accumulator) (s : Sys W),
    let run := Reference.searchOutcomes remote layouts searchText options s in
    let after := searchLayouts remote layouts searchText options acc s in
    snd after = snd run
    /\ List.length (fst run) = List.length layouts
    /\ (fst after).(acc_results) =
         acc.(acc_results) ++ Reference.searchedResults (fst run)
    /\ (fst after).(acc_skippedLayouts) =
         acc.(acc_skippedLayouts) ++ Reference.skippedNames layouts (fst run)
    /\ map layout (Reference.searchedResults (fst run)) =
         Reference.searchedNames layouts (fst run).
Proof.
  induction layouts as [|layoutName rest IH]; intros acc s; cbv zeta.
  - simpl. rewrite !app_nil_r. now repeat split.
  - simpl. unfold bind, ret.
    pose proof (searchLayout_outcome layoutName searchText options s) as Hout.
    cbv zeta in Hout.
    destruct (searchLayout remote layoutName searchText options s) as [outcome s1].
    simpl in Hout.
    specialize (IH (recordOutcome layoutName outcome acc) s1). cbv zeta in IH.
    destruct (Reference.searchOutcomes remote rest searchText options s1)
      as [outcomes s2].
    destruct IH as (Hstate & Hlength & Hresults & Hskipped & Hnames).
    cbn [fst snd] in *.
    assert (Hfiled :
              (recordOutcome layoutName outcome acc).(acc_results) =
                acc.(acc_results) ++ Reference.searchedResults [outcome]
              /\ (recordOutcome layoutName outcome acc).(acc_skippedLayouts) =
                   acc.(acc_skippedLayouts)
                   ++ Reference.skippedNames [layoutName] [outcome]).
    { unfold recordOutcome, Reference.searchedResults, Reference.skippedNames.
      simpl. destruct outcome.(skipped); simpl; [now rewrite app_nil_r|].
      destruct outcome.(result); simpl; now rewrite ?app_nil_r. }
    destruct Hfiled as (Hfiled1 & Hfiled2).
    split; [exact Hstate|]. split; [simpl; now rewrite Hlength|].
    split.
    { rewrite Hresults, Hfiled1, <- app_assoc. f_equal.
      unfold Reference.searchedResults. simpl. now rewrite app_nil_r. }
    split.
    + rewrite Hskipped, Hfiled2, <- app_assoc. f_equal.
      unfold Reference.skippedNames. simpl. now destruct outcome.(skipped).
    + unfold Reference.searchedResults, Reference.searchedNames in *. simpl.
      destruct Hout as [(Hskip & Hnone & _)|(Hskip & r & Hr & Hlayout)];
        rewrite Hskip; simpl; [exact Hnames|].
      rewrite Hr. simpl. now rewrite Hlayout, <- Hnames.
Qed.

(** C6, as the code has it.  A layout whose metadata cannot be fetched, or
    whose find request fails with anything but FileMaker code 401, gives a
    skipped outcome of [searchLayout] that carries a reason; a find
    request that fails with FileMaker code 401 gives a result with
    [recordCount] 0 and is not a skip.  A search with a non-blank text
    over a non-empty list of layouts goes through every layout, whatever
    happens to the ones before it, and files each outcome: [results]
    holds, in the order of the request, the result of every outcome that
    is not a skip, and [skippedLayouts] the names of the layouts whose
    outcome is a skip, without their reasons.  So [searchedLayouts] and
    [skippedLayouts] together hold each requested layout exactly once, and
    [totalRecordsFound] is the sum of the [recordCount]s of [results]. *)
Theorem globalSearchData_isolates_failures :
  (forall layoutName searchText options s s1 e,
      fetchLayoutMetadata remote layoutName s = (Failure e, s1) ->
      searchLayout remote layoutName searchText options s =
        (mkSearchLayoutResult None true
           (Some ("メタデータ取得エラー: " ++ e.(Tools.error).(Tools.message))%string),
         s1))
  /\ (forall layoutName searchText options s s1 s2 metadataResponse e,
        let searchableFields :=
          selectSearchableFields options metadataResponse.(data) in
        fetchLayoutMetadata remote layoutName s = (Success metadataResponse, s1) ->
        searchableFields <> [] ->
        findRecords remote layoutName
                    (buildRequestBody searchText options searchableFields) s1
          = (Failure e, s2) ->
        (e.(Tools.error).(Tools.fmErrorCode) = Some 401 ->
           searchLayout remote layoutName searchText options s =
             (mkSearchLayoutResult
                (Some (mkLayoutSearchResult layoutName 0%nat []
                         (map FileMaker.name searchableFields) None))
                false None, s2))
        /\ (e.(Tools.error).(Tools.fmErrorCode) <> Some 401 ->
              searchLayout remote layoutName searchText options s =
                (mkSearchLayoutResult None true
                   (Some ("検索エラー: " ++ e.(Tools.error).(Tools.message))%string),
                 s2)))
  /\ (forall input s,
        JsString.trimIsEmpty input.(in_searchText) = false ->
        input.(in_layouts) <> [] ->
        let run :=
          Reference.searchOutcomes remote input.(in_layouts) input.(in_searchText)
                                   (resolveOptions input) s in
        exists out,
          globalSearchData remote input s = (inl out, snd run)
          /\ List.length (fst run) = List.length input.(in_layouts)
          /\ out.(results) = Reference.searchedResults (fst run)
          /\ out.(summary).(searchedLayouts) =
               Reference.searchedNames input.(in_layouts) (fst run)
          /\ out.(summary).(skippedLayouts) =
               Reference.skippedNames input.(in_layouts) (fst run)
          /\ out.(summary).(searchedLayouts) = map layout out.(results)
          /\ Permutation (out.(summary).(searchedLayouts)
                          ++ out.(summary).(skippedLayouts))
                         input.(in_layouts)
          /\ out.(summary).(totalRecordsFound)
               = list_sum (map recordCount out.(results))
          /\ out.(summary).(totalLayouts) = List.length input.(in_layouts)
          /\ (List.length out.(summary).(searchedLayouts)
              + List.length out.(summary).(skippedLayouts))%nat
               = List.length input.(in_layouts)).
Proof.
  split; [|split].
  - intros. now apply searchLayout_metadata_failure.
  - intros layoutName searchText options s s1 s2 metadataResponse e
           searchableFields Hmeta Hfields Hfind.
    pose proof (searchLayout_find_failure layoutName searchText options
                  s s1 s2 metadataResponse e Hmeta Hfields Hfind) as Hrun.
    cbv zeta in Hrun. fold searchableFields in Hrun.
    unfold fmErrorCodeIs in Hrun. split.
    + intros Hcode. now rewrite Hcode in Hrun.
    + intros Hcode.
      destruct e.(Tools.error).(Tools.fmErrorCode) as [c|]; [|exact Hrun].
      destruct (Z.eqb_spec c 401) as [Heq|_]; [|exact Hrun].
      subst c. now contradiction Hcode.
  - intros input s Htext Hlayouts. cbv zeta.
    unfold globalSearchData. rewrite Htext.
    destruct input.(in_layouts) as [|l ls] eqn:Hin; [contradiction|].
    unfold bind.
    pose proof (searchLayouts_spec input.(in_searchText) (resolveOptions input)
                  (l :: ls) (mkAccumulator [] [] 0%nat) s) as Hspec.
    pose proof (searchLayouts_filing input.(in_searchText) (resolveOptions input)
                  (l :: ls) (mkAccumulator [] [] 0%nat) s) as Hfiling.
    cbv zeta in Hspec, Hfiling.
    destruct (searchLayouts remote (l :: ls) _ _ _ s) as [acc s'].
    destruct Hspec as (newResults & newSkipped & Hres & Hskip & Htotal & Hperm).
    destruct Hfiling as (Hstate & Hlength & Hresults & Hskipped & Hnames).
    cbn [fst snd acc_results acc_skippedLayouts acc_totalRecordsFound app]
      in Hres, Hskip, Htotal, Hstate, Hresults, Hskipped.
    subst s'. eexists. split; [reflexivity|].
    cbn [results summary searchedLayouts skippedLayouts totalRecordsFound
         totalLayouts].
    split; [exact Hlength|]. split; [exact Hresults|].
    split; [now rewrite Hresults, Hnames|]. split; [exact Hskipped|].
    split; [reflexivity|].
    rewrite Hres, Hskip, Htotal.
    split; [exact Hperm|]. split; [reflexivity|]. split; [reflexivity|].
    rewrite <- length_app. apply (Permutation_length Hperm).
Qed.

End WithRemote.

Lemma globalSearchData_isolates_failures_witness :
  exists out s',
    globalSearchData Scenario.snapshotRemote
      (mkGlobalSearchDataInput "ABC" ["Customers"; "Broken"; "Payments"; "Products"]
                               None)
      (Scenario.start Scenario.salesDb Scenario.activeManager) = (inl out, s')
    /\ out.(summary).(searchedLayouts) = ["Customers"; "Payments"]
    /\ out.(summary).(skippedLayouts) = ["Broken"; "Products"]
    /\ map recordCount out.(results) = [2; 0]%nat
    /\ out.(summary).(totalRecordsFound) = 2%nat
    /\ Permutation (out.(summary).(searchedLayouts) ++ out.(summary).(skippedLayouts))
                   ["Customers"; "Broken"; "Payments"; "Products"].
Proof.
  destruct (proj2 (proj2 (globalSearchData_isolates_failures Scenario.snapshotRemote))
              (mkGlobalSearchDataInput "ABC"
                 ["Customers"; "Broken"; "Payments"; "Products"] None)
              (Scenario.start Scenario.salesDb Scenario.activeManager))
    as (out & Hrun & _ & Hresults & Hsearched & Hskipped & _ & Hperm & Htotal & _).
  - reflexivity.
  - simpl. discriminate.
  - exists out. eexists. split; [exact Hrun|].
    split; [rewrite Hsearched; reflexivity|].
    split; [rewrite Hskipped; reflexivity|].
    split; [rewrite Hresults; reflexivity|].
    split; [rewrite Htotal, Hresults; reflexivity|exact Hperm].
Defined.

(** C6, as the claim states it, fails in one point: the output of
    [globalSearchData] records a skipped layout by its name alone.  A
    layout that is skipped because it is missing and the same layout
    skipped because the server is unavailable have different reasons in
    the outcome of [searchLayout], and the same output. *)
Lemma globalSearchData_output_without_reason :
  let input := mkGlobalSearchDataInput "ABC" ["Broken"] None in
  let missing := Scenario.start Scenario.salesDb Scenario.activeManager in
  let unavailable := Scenario.start Scenario.unreachableDb Scenario.activeManager in
  (fst (searchLayout Scenario.snapshotRemote "Broken" "ABC"
                     (resolveOptions input) missing)).(skipReason)
    = Some "メタデータ取得エラー: Layout is missing"
  /\ (fst (searchLayout Scenario.snapshotRemote "Broken" "ABC"
                        (resolveOptions input) unavailable)).(skipReason)
       = Some "メタデータ取得エラー: FileMaker server unavailable"
  /\ fst (globalSearchData Scenario.snapshotRemote input missing)
       = fst (globalSearchData Scenario.snapshotRemote input unavailable)
  /\ fst (globalSearchData Scenario.snapshotRemote input missing)
       = inl (mkGlobalSearchDataOutput "ABC" []
                (mkGlobalSearchSummary 1 0 [] ["Broken"])
                GLOBAL_SEARCH_LIMITATIONS GLOBAL_SEARCH_DISCLAIMER).
Proof. repeat split; reflexivity. Qed.

(** The two per-layout cases of C6 on the sample database: "Broken" is
    skipped with the message of its metadata error, and "Payments", whose
    find request is answered with FileMaker code 401, is searched with no
    records. *)
Example searchLayout_sample_outcomes :
  let options := mkSearchOptions 50 100 false contains in
  let s := Scenario.start Scenario.salesDb Scenario.activeManager in
  fst (searchLayout Scenario.snapshotRemote "Broken" "ABC" options s)
    = mkSearchLayoutResult None true (Some "メタデータ取得エラー: Layout is missing")
  /\ fst (searchLayout Scenario.snapshotRemote "Payments" "ABC" options s)
       = mkSearchLayoutResult
           (Some (mkLayoutSearchResult "Payments" 0 [] ["Title"; "Total"] None))
           false None
  /\ fst (searchLayout Scenario.snapshotRemote "Products" "ABC" options s)
       = mkSearchLayoutResult None true (Some "検索エラー: FileMaker server error").
Proof. repeat split; reflexivity. Qed.

End GlobalSearcherFacts.

(* ====================================================================== *)
(** * Properties of the metadata aggregator *)
(* ====================================================================== *)

Module MetadataAggregatorFacts.
Import Client Session MetadataAggregator.

Section WithRemote.
Context {W : Type} (remote : Remote W).

Lemma collectLayouts_skip
    (options : ExportOptions) (layoutName : string) (rest : list string)
    (acc : Collected) (s s1 : Sys W)
    (response : Response FileMaker.FMLayoutMetadataResponse) :
  fetchLayoutMetadata remote layoutName s = (response, s1) ->
  hasData response = false ->
  collectLayouts remote options (layoutName :: rest) acc s =
    collectLayouts remote options rest acc s1.
Proof.
  intros Hfetch Hno. simpl. unfold bind. rewrite Hfetch.
  destruct response; [discriminate|reflexivity|reflexivity].
Qed.

Lemma collectLayouts_add
    (options : ExportOptions) (layoutName : string) (rest : list string)
    (acc : Collected) (s s1 : Sys W)
    (response : ApiResponse FileMaker.FMLayoutMetadataResponse) :
  fetchLayoutMetadata remote layoutName s = (Success response, s1) ->
  collectLayouts remote options (layoutName :: rest) acc s =
    collectLayouts remote options rest
      (addLayout options layoutName response.(Client.data) acc) s1.
Proof.
  intros Hfetch. simpl. unfold bind. now rewrite Hfetch.
Qed.

Lemma layoutsPhase_listed
    (options : ExportOptions) (s s1 : Sys W)
    (response : ApiResponse FileMaker.FMLayoutsResponse) :
  options.(includeLayouts) = true ->
  fetchLayouts remote s = (Success response, s1) ->
  layoutsPhase remote options s =
    (let (acc, s2) :=
       collectLayouts remote options
         (map FileMaker.layout_name
              (filter (fun l => FileMaker.notFolder l.(FileMaker.layout_isFolder))
                      response.(Client.data).(FileMaker.layouts)))
         emptyCollected s1 in
     (inl acc, s2)).
Proof.
  intros Hinclude Hlist. unfold layoutsPhase, bind. rewrite Hinclude, Hlist.
  now destruct (collectLayouts _ _ _ _ _).
Qed.

Lemma exportDatabaseMetadata_listing_failure
    (input : ExportDatabaseMetadataInput) (s s1 : Sys W) (e : Tools.ErrorResponse) :
  (resolveOptions input).(includeLayouts) = true ->
  fetchLayouts remote s = (Failure e, s1) ->
  exportDatabaseMetadata remote input s = (inr e, s1).
Proof.
  intros Hinclude Hlist.
  unfold exportDatabaseMetadata, layoutsPhase, bind.
  now rewrite Hinclude, Hlist.
Qed.

Lemma exportDatabaseMetadata_scripts_failure
    (input : ExportDatabaseMetadataInput) (s s1 s2 : Sys W)
    (acc : Collected) (e : Tools.ErrorResponse) :
  layoutsPhase remote (resolveOptions input) s = (inl acc, s1) ->
  (resolveOptions input).(includeScripts) = true ->
  fetchScripts remote s1 = (Failure e, s2) ->
  exportDatabaseMetadata remote input s = (inr e, s2).
Proof.
  intros Hlayouts Hinclude Hscripts.
  unfold exportDatabaseMetadata, scriptsPhase, bind.
  now rewrite Hlayouts, Hinclude, Hscripts.
Qed.

Lemma exportDatabaseMetadata_success
    (input : ExportDatabaseMetadataInput) (s s1 s2 : Sys W)
    (acc : Collected) (scripts : list ScriptMetadata) :
  layoutsPhase remote (resolveOptions input) s = (inl acc, s1) ->
  scriptsPhase remote (resolveOptions input) s1 = (inl scripts, s2) ->
  exists out,
    exportDatabaseMetadata remote input s = (inl out, s2)
    /\ out.(data).(layouts) = acc.(col_layouts)
    /\ out.(data).(MetadataAggregator.scripts) = scripts
    /\ out.(limitations) = DATA_API_LIMITATIONS.
Proof.
  intros Hlayouts Hscripts.
  unfold exportDatabaseMetadata, bind. rewrite Hlayouts, Hscripts.
  unfold buildOutput, bind, getManager, ret.
  eexists. split; [reflexivity|]. now repeat split.
Qed.

(** [scriptsPhase] fails only when the script list was requested and
    its fetch came back as an error. *)
Lemma scriptsPhase_ok (options : ExportOptions) (s : Sys W) :
  options.(includeScripts) = false
  \/ isErrorResponse (fst (fetchScripts remote s)) = false ->
  exists scripts s', scriptsPhase remote options s = (inl scripts, s').
Proof.
  intros Hok. unfold scriptsPhase, bind.
  destruct options.(includeScripts); [|eexists; eexists; reflexivity].
  destruct Hok as [Hno|Hok]; [discriminate|].
  destruct (fetchScripts remote s) as [[response|e|] s']; simpl in *;
    try discriminate; eexists; eexists; reflexivity.
Qed.

End WithRemote.

(** On a remote system that answers from a fixed table, with an active
    session, the layout loop keeps exactly the layouts whose metadata
    fetch succeeds, in the order of the list. *)
Lemma collectLayouts_snapshot
    (db : Scenario.Snapshot) (options : ExportOptions) (layoutNames : list string) :
  forall (acc : Collected) (s : Sys Scenario.Snapshot),
    activeSession (manager s) <> None ->
    world s = db ->
    map layout_name
        (fst (collectLayouts Scenario.snapshotRemote options layoutNames acc s)).(col_layouts)
      = map layout_name acc.(col_layouts)
        ++ filter (fun n => hasData (Scenario.metadataAnswer db n)) layoutNames.
Proof.
  induction layoutNames as [|n rest IH]; intros acc s Hactive Hworld.
  - simpl. now rewrite app_nil_r.
  - destruct (activeSession (manager s)) as [[client st]|] eqn:Hs; [|contradiction].
    assert (Hfetch :
      fetchLayoutMetadata Scenario.snapshotRemote n s
        = (Scenario.metadataAnswer db n,
           mkSys (manager s) db (trace s ++ [GetLayoutMetadata n st.(token)]))).
    { unfold fetchLayoutMetadata.
      rewrite (SessionFacts.withSession_active _ s client st Hs).
      unfold send. simpl. now rewrite Hworld. }
    destruct (Scenario.metadataAnswer db n) as [response|e|] eqn:Hanswer.
    + rewrite (collectLayouts_add _ options n rest acc s _ response Hfetch).
      rewrite IH; [|simpl; now rewrite Hs|reflexivity].
      simpl. rewrite Hanswer. simpl. rewrite map_app, <- app_assoc. reflexivity.
    + rewrite (collectLayouts_skip _ options n rest acc s _ _ Hfetch eq_refl).
      rewrite IH; [|simpl; now rewrite Hs|reflexivity].
      simpl. now rewrite Hanswer.
    + rewrite (collectLayouts_skip _ options n rest acc s _ _ Hfetch eq_refl).
      rewrite IH; [|simpl; now rewrite Hs|reflexivity].
      simpl. now rewrite Hanswer.
Qed.

(** C7.  In the layout loop a layout whose metadata fetch fails is passed
    over and the loop goes on with the rest, so once the layout list has
    been fetched the layout phase cannot fail; on a remote system that
    answers from a fixed table the export holds exactly the layouts whose
    fetch succeeds.  The export returns the error of the layout list
    fetch when that fails, and the error of the script list fetch when
    scripts are requested and that fails; with both phases passed it
    succeeds with the layouts that were collected. *)
Theorem exportDatabaseMetadata_partial_tolerance :
  forall (W : Type) (remote : Remote W),
    (forall options layoutName rest acc s s1 response,
        fetchLayoutMetadata remote layoutName s = (response, s1) ->
        hasData response = false ->
        collectLayouts remote options (layoutName :: rest) acc s =
          collectLayouts remote options rest acc s1)
    /\ (forall options s s1 response,
          options.(includeLayouts) = true ->
          fetchLayouts remote s = (Success response, s1) ->
          exists acc s2, layoutsPhase remote options s = (inl acc, s2))
    /\ (forall input s s1 e,
          (resolveOptions input).(includeLayouts) = true ->
          fetchLayouts remote s = (Failure e, s1) ->
          exportDatabaseMetadata remote input s = (inr e, s1))
    /\ (forall input s s1 s2 acc e,
          layoutsPhase remote (resolveOptions input) s = (inl acc, s1) ->
          (resolveOptions input).(includeScripts) = true ->
          fetchScripts remote s1 = (Failure e, s2) ->
          exportDatabaseMetadata remote input s = (inr e, s2))
    /\ (forall input s s1 acc,
          layoutsPhase remote (resolveOptions input) s = (inl acc, s1) ->
          (resolveOptions input).(includeScripts) = false
          \/ isErrorResponse (fst (fetchScripts remote s1)) = false ->
          exists out s2,
            exportDatabaseMetadata remote input s = (inl out, s2)
            /\ out.(data).(layouts) = acc.(col_layouts))
    /\ (forall db options layoutNames s,
          activeSession (manager s) <> None ->
          world s = db ->
          map layout_name
              (fst (collectLayouts Scenario.snapshotRemote options layoutNames
                      emptyCollected s)).(col_layouts)
            = filter (fun n => hasData (Scenario.metadataAnswer db n)) layoutNames).
Proof.
  intros W remote.
  split; [intros; eapply collectLayouts_skip; eassumption|].
  split.
  { intros options s s1 response Hinclude Hlist.
    rewrite (layoutsPhase_listed remote options s s1 response Hinclude Hlist).
    destruct (collectLayouts _ _ _ _ _) as [acc s2]. now exists acc, s2. }
  split; [intros; now apply exportDatabaseMetadata_listing_failure|].
  split; [intros; eapply exportDatabaseMetadata_scripts_failure; eassumption|].
  split.
  { intros input s s1 acc Hlayouts Hscripts.
    destruct (scriptsPhase_ok remote (resolveOptions input) s1 Hscripts)
      as (scripts & s2 & Hphase).
    destruct (exportDatabaseMetadata_success remote input s s1 s2 acc scripts
                Hlayouts Hphase) as (out & Hrun & Hout & _).
    now exists out, s2. }
  intros db options layoutNames s Hactive Hworld.
  now rewrite (collectLayouts_snapshot db options layoutNames emptyCollected s
                 Hactive Hworld).
Qed.

Lemma exportDatabaseMetadata_partial_tolerance_witness :
  (exists out s',
      exportDatabaseMetadata Scenario.snapshotRemote
        (mkExportDatabaseMetadataInput Tools.json None)
        (Scenario.start Scenario.salesDb Scenario.activeManager) = (inl out, s')
      /\ map layout_name out.(data).(layouts)
           = ["Customers"; "Invoices"; "Payments"; "Products"])
  /\ exportDatabaseMetadata Scenario.snapshotRemote
       (mkExportDatabaseMetadataInput Tools.json None)
       (Scenario.start Scenario.unreachableDb Scenario.activeManager)
     = (inr (ErrorMapper.createErrorResponse 503 None (Some "GET /layouts")),
        mkSys Scenario.activeManager Scenario.unreachableDb [GetLayouts "token-1"])
  /\ map layout_name
       (fst (collectLayouts Scenario.snapshotRemote
               (mkExportOptions true true true true)
               ["Customers"; "Broken"; "Invoices"; "Payments"; "Products"]
               emptyCollected
               (Scenario.start Scenario.salesDb Scenario.activeManager))).(col_layouts)
     = ["Customers"; "Invoices"; "Payments"; "Products"].
Proof.
  destruct (exportDatabaseMetadata_partial_tolerance _ Scenario.snapshotRemote)
    as (_ & _ & Hlisting & _ & Hsuccess & Hkept).
  split; [|split].
  - destruct (Hsuccess (mkExportDatabaseMetadataInput Tools.json None)
                (Scenario.start Scenario.salesDb Scenario.activeManager)
                _ _ eq_refl) as (out & s' & Hrun & Hlayouts).
    + right. reflexivity.
    + exists out, s'. split; [exact Hrun|]. rewrite Hlayouts. reflexivity.
  - apply Hlisting; reflexivity.
  - apply (Hkept Scenario.salesDb).
    + discriminate.
    + reflexivity.
Defined.

(** The script list is fatal too: on a database whose layouts can be read
    but whose script list cannot, the export returns the error of the
    script list fetch, and succeeds when scripts are not requested. *)
Example exportDatabaseMetadata_scripts_sample :
  fst (exportDatabaseMetadata Scenario.snapshotRemote
         (mkExportDatabaseMetadataInput Tools.json None)
         (Scenario.start Scenario.noScriptsDb Scenario.activeManager))
    = inr (ErrorMapper.createErrorResponse 500 None (Some "GET /scripts"))
  /\ exists out,
       fst (exportDatabaseMetadata Scenario.snapshotRemote
              (mkExportDatabaseMetadataInput Tools.json
                 (Some (mkExportInputOptions None (Some false) None None)))
              (Scenario.start Scenario.noScriptsDb Scenario.activeManager))
         = inl out
       /\ map layout_name out.(data).(layouts)
            = ["Customers"; "Invoices"; "Payments"; "Products"].
Proof.
  split; [reflexivity|]. eexists. split; reflexivity.
Qed.

End MetadataAggregatorFacts.

(* ====================================================================== *)
(** * Further properties of the error mapper *)
(* ====================================================================== *)

Module ErrorMapperLaws.
Import ErrorMapper.

Lemma lookup_In (key : Z) (map : ErrorMap) (info : ErrorInfo) :
  lookup key map = Some info -> In info (values map).
Proof.
  induction map as [|[k i] rest IH]; simpl; intros H.
  - discriminate.
  - destruct (k =? key).
    + injection H as <-. now left.
    + right. now apply IH.
Qed.

(** The descriptors [resolveError] can return: an entry of one of the two
    tables, or the unknown descriptor. *)
Lemma resolveError_cases (httpStatus : Z) (fmErrorCode : option Z) :
  In (resolveError httpStatus fmErrorCode) (values FM_ERROR_MAP)
  \/ In (resolveError httpStatus fmErrorCode) (values HTTP_ERROR_MAP)
  \/ resolveError httpStatus fmErrorCode = unknownError.
Proof.
  unfold resolveError.
  destruct fmErrorCode as [fm|].
  - destruct (lookup fm FM_ERROR_MAP) as [info|] eqn:Hfm.
    + left. now apply (lookup_In fm).
    + destruct (lookup httpStatus HTTP_ERROR_MAP) as [info|] eqn:Hhttp.
      * right. left. now apply (lookup_In httpStatus).
      * now right; right.
  - destruct (lookup httpStatus HTTP_ERROR_MAP) as [info|] eqn:Hhttp.
    + right. left. now apply (lookup_In httpStatus).
    + now right; right.
Qed.

Ltac each_entry H :=
  simpl in H;
  repeat (destruct H as [<-|H]; [vm_compute; auto|]);
  try contradiction.

(** X1. [isRetryableError] agrees with [resolveError]: whatever the status
    and the FileMaker code, the flag that [isRetryableError] reports for
    the resolved internal code is the flag of the resolved descriptor,
    unless the descriptor is the unknown fallback (whose code 5001 is also
    the code of the retryable status-500 entry). *)
Theorem isRetryableError_agrees_with_resolveError
    (httpStatus : Z) (fmErrorCode : option Z) :
  let info := resolveError httpStatus fmErrorCode in
  info = unknownError \/ isRetryableError info.(code) = info.(retryable).
Proof.
  cbv zeta.
  destruct (resolveError_cases httpStatus fmErrorCode) as [H|[H|H]].
  - right. revert H. generalize (resolveError httpStatus fmErrorCode).
    intros info H. each_entry H.
  - right. revert H. generalize (resolveError httpStatus fmErrorCode).
    intros info H. each_entry H.
  - now left.
Qed.

(** X2. The retryable descriptors are those of four categories: a
    descriptor returned by [resolveError] is retryable exactly when it is
    not the unknown fallback and its code is SESSION_EXPIRED,
    API_RATE_LIMITED, INTERNAL_UNKNOWN (the status-500 entry) or
    AUTH_SERVER_UNAVAILABLE; every validation, not-found, credential and
    privilege descriptor is not retryable. *)
Theorem resolveError_retryable_categories
    (httpStatus : Z) (fmErrorCode : option Z) :
  let info := resolveError httpStatus fmErrorCode in
  info.(retryable) = true <->
  (info <> unknownError
   /\ In info.(code)
         [ ErrorCodes.SESSION_EXPIRED; ErrorCodes.API_RATE_LIMITED;
           ErrorCodes.INTERNAL_UNKNOWN; ErrorCodes.AUTH_SERVER_UNAVAILABLE ]).
Proof.
  cbv zeta.
  assert (Hdec : forall info : ErrorInfo,
            In info (values FM_ERROR_MAP) \/ In info (values HTTP_ERROR_MAP) ->
            info <> unknownError
            /\ (info.(retryable) = true <->
                In info.(code)
                   [ ErrorCodes.SESSION_EXPIRED; ErrorCodes.API_RATE_LIMITED;
                     ErrorCodes.INTERNAL_UNKNOWN; ErrorCodes.AUTH_SERVER_UNAVAILABLE ])).
  { intros info [H|H]; simpl in H;
      repeat (destruct H as [<-|H];
              [split; [discriminate|];
               split; [try discriminate; intros _; vm_compute; tauto
                      |intros Hin; vm_compute in Hin;
                       repeat (destruct Hin as [Hin|Hin]; try discriminate);
                       try contradiction; reflexivity]|]);
      contradiction. }
  destruct (resolveError_cases httpStatus fmErrorCode) as [H|[H|H]].
  - destruct (Hdec _ (or_introl H)) as (Hne & Hiff). tauto.
  - destruct (Hdec _ (or_intror H)) as (Hne & Hiff). tauto.
  - rewrite H. split.
    + discriminate.
    + intros (Hne & _). now contradiction Hne.
Qed.

Ltac listed := repeat first [left; reflexivity | right].

Lemma known_descriptor (info : ErrorInfo) :
  In info (values FM_ERROR_MAP) \/ In info (values HTTP_ERROR_MAP)
  \/ info = unknownError ->
  In info.(code)
     [ ErrorCodes.AUTH_INVALID_CREDENTIALS; ErrorCodes.AUTH_SERVER_UNAVAILABLE;
       ErrorCodes.AUTH_INSUFFICIENT_PRIVILEGES; ErrorCodes.AUTH_ACCOUNT_LOCKED;
       ErrorCodes.SESSION_EXPIRED; ErrorCodes.API_LAYOUT_NOT_FOUND;
       ErrorCodes.API_RECORD_NOT_FOUND; ErrorCodes.API_FIELD_NOT_FOUND;
       ErrorCodes.API_INVALID_QUERY; ErrorCodes.API_RATE_LIMITED;
       ErrorCodes.INTERNAL_UNKNOWN ]
  /\ info.(message) <> "".
Proof.
  intros [H|[H|H]].
  - simpl in H.
    repeat (destruct H as [<-|H]; [split; [vm_compute; listed|discriminate]|]).
    contradiction.
  - simpl in H.
    repeat (destruct H as [<-|H]; [split; [vm_compute; listed|discriminate]|]).
    contradiction.
  - subst info. split; [vm_compute; listed|discriminate].
Qed.

(** X28. Whatever the HTTP status and the FileMaker code, the error that
    [createErrorResponse] builds carries one of eleven internal codes and a
    non-empty message, and hands the context and the FileMaker code on
    unchanged.  It never reports SESSION_INVALID, INTERNAL_CONFIG_ERROR or
    an ANALYSIS code, and its retryable flag is that of the resolved
    descriptor. *)
Theorem createErrorResponse_codes
    (httpStatus : Z) (fmErrorCode : option Z) (context : option string) :
  let e := (createErrorResponse httpStatus fmErrorCode context).(Tools.error) in
  In e.(Tools.code)
     [ ErrorCodes.AUTH_INVALID_CREDENTIALS; ErrorCodes.AUTH_SERVER_UNAVAILABLE;
       ErrorCodes.AUTH_INSUFFICIENT_PRIVILEGES; ErrorCodes.AUTH_ACCOUNT_LOCKED;
       ErrorCodes.SESSION_EXPIRED; ErrorCodes.API_LAYOUT_NOT_FOUND;
       ErrorCodes.API_RECORD_NOT_FOUND; ErrorCodes.API_FIELD_NOT_FOUND;
       ErrorCodes.API_INVALID_QUERY; ErrorCodes.API_RATE_LIMITED;
       ErrorCodes.INTERNAL_UNKNOWN ]
  /\ e.(Tools.message) <> ""
  /\ e.(Tools.details) = context
  /\ e.(Tools.fmErrorCode) = fmErrorCode
  /\ e.(Tools.retryable) = (resolveError httpStatus fmErrorCode).(retryable)
  /\ e.(Tools.code) <> ErrorCodes.SESSION_INVALID
  /\ e.(Tools.code) <> ErrorCodes.INTERNAL_CONFIG_ERROR.
Proof.
  cbv zeta. unfold createErrorResponse. cbn [Tools.error Tools.code Tools.message
    Tools.details Tools.fmErrorCode Tools.retryable].
  destruct (known_descriptor _ (resolveError_cases httpStatus fmErrorCode))
    as (Hcode & Hmessage).
  split; [exact Hcode|]. split; [exact Hmessage|].
  split; [reflexivity|]. split; [reflexivity|]. split; [reflexivity|].
  split; intros Heq; rewrite Heq in Hcode; vm_compute in Hcode;
    repeat (destruct Hcode as [Hcode|Hcode]; [discriminate|]); contradiction.
Qed.

Lemma resolveError_retryable_categories_witness :
  (resolveError 429 None).(retryable) = true.
Proof.
  apply (proj2 (resolveError_retryable_categories 429 None)).
  split; [discriminate|]. simpl. right. now left.
Defined.

End ErrorMapperLaws.

(* ====================================================================== *)
(** * Further properties of the session manager *)
(* ====================================================================== *)

Module SessionLaws.
Import Client Session SessionLogin.

Section WithRemote.
Context {W : Type} (remote : Remote W) (loginRequest : LoginRequest W).

(** X3. [validateSession] sends nothing without an active session.  With
    one it sends exactly the probe [GET /layouts]; it reports [valid]
    exactly when the answer is not an error, with the age
    [floor((now - createdAt) / 1000)] read after the answer; and it drops
    the session exactly when the answer is an error resolved to
    SESSION_EXPIRED: any other error leaves the manager as it was and its
    message is returned. *)
Theorem validateSession_outcomes (s : Sys W) :
  (activeSession (manager s) = None ->
     validateSession remote s
       = (mkValidateSessionResult false "No active session" None, s))
  /\ (forall client st response w',
        activeSession (manager s) = Some (client, st) ->
        getLayouts remote client st.(token) (world s) = (response, w') ->
        let (r, s') := validateSession remote s in
        world s' = w'
        /\ trace s' = trace s ++ [GetLayouts st.(token)]
        /\ r.(valid) = negb (isErrorResponse response)
        /\ (isErrorResponse response = false ->
              manager s' = manager s
              /\ r.(validate_message) = "Session is valid"
              /\ r.(sessionAge)
                   = Some ((dateNow remote w' - st.(info).(createdAt)) / 1000))
        /\ (forall e, response = Failure e ->
              r.(sessionAge) = None
              /\ (e.(Tools.error).(Tools.code) = ErrorMapper.ErrorCodes.SESSION_EXPIRED ->
                    manager s' = emptyManager
                    /\ r.(validate_message) = "Session expired or invalid")
              /\ (e.(Tools.error).(Tools.code) <> ErrorMapper.ErrorCodes.SESSION_EXPIRED ->
                    manager s' = manager s
                    /\ r.(validate_message) = e.(Tools.error).(Tools.message)))).
Proof.
  split.
  - intros Habsent. unfold validateSession, bind, getManager. now rewrite Habsent.
  - intros client st response w' Hactive Hprobe.
    assert (Hstate : (manager s).(state) = Some st).
    { unfold activeSession in Hactive.
      destruct (hasActiveSession (manager s)); [|discriminate].
      destruct (manager s).(httpClient); [|discriminate].
      destruct (manager s).(state); [|discriminate].
      now injection Hactive as _ ->. }
    unfold validateSession, getSessionAge, clearSession, setManager, now, send,
      ret, getManager, bind.
    rewrite Hactive, Hprobe. simpl.
    destruct response as [r|e|]; simpl.
    + rewrite Hstate. simpl. repeat split; discriminate.
    + destruct (Z.eqb_spec e.(Tools.error).(Tools.code)
                           ErrorMapper.ErrorCodes.SESSION_EXPIRED) as [Hc|Hc];
        simpl; (split; [reflexivity|]); (split; [reflexivity|]);
        (split; [reflexivity|]); (split; [discriminate|]);
        intros e' He'; injection He' as <-; (split; [reflexivity|]); split;
        intros Hc'; try contradiction; now split.
    + rewrite Hstate. simpl. repeat split; discriminate.
Qed.

(** X4. [isSessionExpiringSoon] is advisory: it leaves the manager, the
    remote system and the trace as they were; it is [false] without a
    session; with one it compares the age with the timeout less the buffer;
    and once it holds it keeps holding as the clock advances. *)
Theorem isSessionExpiringSoon_advisory (bufferSeconds : Z) (s : Sys W) :
  snd (isSessionExpiringSoon remote bufferSeconds s) = s
  /\ ((manager s).(state) = None ->
        fst (isSessionExpiringSoon remote bufferSeconds s) = false)
  /\ (forall st,
        (manager s).(state) = Some st ->
        fst (isSessionExpiringSoon remote bufferSeconds s)
          = (st.(config).(Config.sessionTimeout) - bufferSeconds
             <=? (dateNow remote (world s) - st.(info).(createdAt)) / 1000))
  /\ (forall s' : Sys W,
        manager s' = manager s ->
        dateNow remote (world s) <= dateNow remote (world s') ->
        fst (isSessionExpiringSoon remote bufferSeconds s) = true ->
        fst (isSessionExpiringSoon remote bufferSeconds s') = true).
Proof.
  assert (Hrun : forall t : Sys W,
            isSessionExpiringSoon remote bufferSeconds t =
              (match (manager t).(state) with
               | Some st =>
                   st.(config).(Config.sessionTimeout) - bufferSeconds
                   <=? (dateNow remote (world t) - st.(info).(createdAt)) / 1000
               | None => false
               end, t)).
  { intros t.
    unfold isSessionExpiringSoon, getSessionAge, now, ret, getManager, bind.
    destruct (manager t).(state) as [st|] eqn:Hst; [|reflexivity].
    now rewrite Hst. }
  rewrite Hrun. simpl.
  split; [reflexivity|]. split; [now intros ->|]. split; [now intros st ->|].
  intros s' Hm Hclock. rewrite Hrun, Hm. simpl.
  destruct (manager s).(state) as [st|]; [|discriminate].
  intros Hsoon. apply Z.leb_le in Hsoon. apply Z.leb_le.
  etransitivity; [exact Hsoon|].
  apply Z.div_le_mono; lia.
Qed.

(** What [login] does, step by step: the optional teardown, the login
    request, then the new state or the dropped client. *)
Lemma login_run (config : Config.FileMakerConfig) (s : Sys W) :
  let s1 := if hasActiveSession (manager s) then snd (logout remote s) else s in
  let client := newClient config in
  login remote loginRequest config s =
    (let (response, w') :=
       loginRequest client config.(Config.username) config.(Config.password)
                    (world s1) in
     match response with
     | inr e =>
         (inr e, mkSys (mkSessionManager None (manager s1).(state)) w' (trace s1))
     | inl r =>
         let sessionInfo :=
           mkSessionInfo config.(Config.database) config.(Config.server)
                         (dateNow remote w') in
         (inl sessionInfo,
          mkSys (mkSessionManager (Some client)
                   (Some (mkSessionState r.(data).(login_token) sessionInfo config)))
                w' (trace s1))
     end).
Proof.
  cbv zeta.
  unfold login, setHttpClient, setState, callLogin, setManager, now, ret,
    getManager, bind.
  destruct (hasActiveSession (manager s)).
  - destruct (logout remote s) as [r1 s1]. simpl.
    destruct (loginRequest _ _ _ (world s1)) as [[r|e] w']; reflexivity.
  - simpl. destruct (loginRequest _ _ _ (world s)) as [[r|e] w']; reflexivity.
Qed.

(** X5. Logging in over an active session tears the old session down
    first: exactly one request, the [DELETE] of the old token, enters the
    trace, and whatever its answer is the login goes on from the state it
    leaves.  The outcome is that of the login request alone. *)
Theorem login_tears_down_previous_session
    (config : Config.FileMakerConfig) (s : Sys W)
    (client : FileMakerHttpClient) (st : SessionState)
    (deleted : Response unit) (w1 w2 : W)
    (response : ApiResponse FMLoginResponse + Tools.ErrorResponse) :
  activeSession (manager s) = Some (client, st) ->
  deleteSession remote client st.(token) (world s) = (deleted, w1) ->
  loginRequest (newClient config) config.(Config.username) config.(Config.password) w1
    = (response, w2) ->
  let (result, s') := login remote loginRequest config s in
  trace s' = trace s ++ [DeleteSession st.(token)]
  /\ world s' = w2
  /\ match response with
     | inr e => result = inr e /\ manager s' = emptyManager
     | inl r =>
         let sessionInfo :=
           mkSessionInfo config.(Config.database) config.(Config.server)
                         (dateNow remote w2) in
         result = inl sessionInfo
         /\ manager s' =
              mkSessionManager (Some (newClient config))
                (Some (mkSessionState r.(data).(login_token) sessionInfo config))
     end.
Proof.
  intros Hactive Hdelete Hlogin.
  rewrite login_run. cbv zeta.
  assert (Hhas : hasActiveSession (manager s) = true).
  { unfold activeSession in Hactive.
    now destruct (hasActiveSession (manager s)). }
  rewrite Hhas.
  rewrite (SessionFacts.logout_active remote s client st deleted w1 Hactive Hdelete).
  simpl. rewrite Hlogin.
  destruct response as [r|e]; simpl; now repeat split.
Qed.

(** X6. A failed login never leaves a usable session, whatever the state
    before it: the error of the login request is returned, the client is
    dropped, and the guard of the authenticated methods fails, so the next
    [withSession] answers with the "no session" error and sends nothing. *)
Theorem login_failure_leaves_no_session
    (config : Config.FileMakerConfig) (s s' : Sys W) (e : Tools.ErrorResponse) :
  login remote loginRequest config s = (inr e, s') ->
  (manager s').(httpClient) = None
  /\ activeSession (manager s') = None
  /\ (forall (T : Type) (requestFn : FileMakerHttpClient -> string -> M W (Response T)),
        withSession requestFn s' = (Failure noActiveSessionError, s')).
Proof.
  rewrite login_run. cbv zeta.
  destruct (loginRequest _ _ _ _) as [[r|e'] w']; intros Hrun; [discriminate|].
  injection Hrun as _ <-. simpl.
  assert (Habsent : forall st,
            activeSession (mkSessionManager None st) = None).
  { intros st. unfold activeSession. simpl.
    now destruct (hasActiveSession _). }
  split; [reflexivity|]. split; [apply Habsent|].
  intros T requestFn. apply SessionFacts.withSession_absent. apply Habsent.
Qed.


End WithRemote.

Lemma validateSession_outcomes_witness :
  validateSession Scenario.snapshotRemote
                  (Scenario.start Scenario.salesDb emptyManager)
    = (mkValidateSessionResult false "No active session" None,
       Scenario.start Scenario.salesDb emptyManager).
Proof.
  apply (proj1 (validateSession_outcomes Scenario.snapshotRemote _)). reflexivity.
Defined.

Lemma isSessionExpiringSoon_advisory_witness :
  fst (isSessionExpiringSoon Scenario.snapshotRemote 60
         (Scenario.start (Samples.salesDbAt 900000) Scenario.activeManager)) = true.
Proof.
  apply (proj2 (proj2 (proj2 (isSessionExpiringSoon_advisory
                                Scenario.snapshotRemote 60
                                (Scenario.start (Samples.salesDbAt 781000)
                                                Scenario.activeManager))))).
  - reflexivity.
  - vm_compute. discriminate.
  - reflexivity.
Defined.

Lemma login_tears_down_previous_session_witness :
  trace (snd (login Scenario.snapshotRemote Samples.loginRequest Scenario.config
                (Scenario.start Scenario.expiredDb Scenario.activeManager)))
    = [DeleteSession "token-1"]
  /\ getToken (manager (snd (login Scenario.snapshotRemote Samples.loginRequest
                                Scenario.config
                                (Scenario.start Scenario.expiredDb
                                                Scenario.activeManager))))
       = Some "token-2".
Proof.
  pose proof (login_tears_down_previous_session
                Scenario.snapshotRemote Samples.loginRequest Scenario.config
                (Scenario.start Scenario.expiredDb Scenario.activeManager)
                _ _ _ _ _ _ eq_refl eq_refl eq_refl) as H.
  destruct (login _ _ _ _) as [result s'].
  destruct H as (Htrace & _ & _ & Hmanager).
  split; [exact Htrace|]. simpl. now rewrite Hmanager.
Defined.

Lemma login_failure_leaves_no_session_witness :
  activeSession
    (manager (snd (login Scenario.snapshotRemote Samples.loginRequest
                     (Samples.configWithPassword "wrong")
                     (Scenario.start Scenario.salesDb Scenario.activeManager))))
    = None.
Proof.
  apply (login_failure_leaves_no_session
           Scenario.snapshotRemote Samples.loginRequest
           (Samples.configWithPassword "wrong")
           (Scenario.start Scenario.salesDb Scenario.activeManager)
           _ (ErrorMapper.createErrorResponse 401 (Some 212) (Some "Login failed"))).
  reflexivity.
Defined.


End SessionLaws.

(* ====================================================================== *)
(** * Further properties of the cross-layout search *)
(* ====================================================================== *)

Module GlobalSearcherLaws.
Import Client Session GlobalSearcher.

Section WithRemote.
Context {W : Type} (remote : Remote W).

(** A request made through [withSession] leaves the manager alone and adds
    at most itself to the trace. *)
Lemma withSession_send_effect {T : Type}
    (request : FileMakerHttpClient -> string -> Request)
    (handler : FileMakerHttpClient -> string -> W -> Response T * W) (s : Sys W) :
  let s' := snd (withSession (fun c t => send (request c t) (handler c t)) s) in
  manager s' = manager s
  /\ ((activeSession (manager s) = None /\ s' = s)
      \/ exists client st,
           activeSession (manager s) = Some (client, st)
           /\ trace s' = trace s ++ [request client st.(token)]).
Proof.
  cbv zeta. unfold withSession, bind, getManager.
  destruct (activeSession (manager s)) as [[client st]|] eqn:Hactive.
  - unfold send. destruct (handler client st.(token) (world s)) as [r w'].
    simpl. split; [reflexivity|]. right. now exists client, st.
  - simpl. split; [reflexivity|]. now left.
Qed.

Lemma searchLayout_without_session
    (layoutName searchText : string) (options : SearchOptions) (s : Sys W) :
  activeSession (manager s) = None ->
  searchLayout remote layoutName searchText options s =
    (mkSearchLayoutResult None true
       (Some "メタデータ取得エラー: No active session. Please login first."), s).
Proof.
  intros Habsent.
  rewrite (GlobalSearcherFacts.searchLayout_metadata_failure
             remote layoutName searchText options s s noActiveSessionError).
  - reflexivity.
  - unfold fetchLayoutMetadata. now apply SessionFacts.withSession_absent.
Qed.

Lemma searchLayouts_without_session
    (searchText : string) (options : SearchOptions) (layouts : list string) :
  forall (acc : Accumulator) (s : Sys W),
    activeSession (manager s) = None ->
    searchLayouts remote layouts searchText options acc s =
      (mkAccumulator acc.(acc_results) (acc.(acc_skippedLayouts) ++ layouts)
                     acc.(acc_totalRecordsFound), s).
Proof.
  induction layouts as [|l rest IH]; intros acc s Habsent; simpl.
  - rewrite app_nil_r. now destruct acc.
  - unfold bind. rewrite (searchLayout_without_session l _ _ s Habsent).
    rewrite IH by exact Habsent. unfold recordOutcome. simpl.
    now rewrite <- app_assoc.
Qed.

(** X8. Without an active session a search over a non-blank text and a
    non-empty list of layouts still succeeds: every requested layout is
    reported as skipped, in the order given, nothing is searched, no record
    is counted, and no request is sent. *)
Theorem globalSearchData_without_session
    (input : GlobalSearchDataInput) (s : Sys W) :
  activeSession (manager s) = None ->
  JsString.trimIsEmpty input.(in_searchText) = false ->
  input.(in_layouts) <> [] ->
  globalSearchData remote input s =
    (inl (mkGlobalSearchDataOutput input.(in_searchText) []
            (mkGlobalSearchSummary (List.length input.(in_layouts)) 0 []
                                   input.(in_layouts))
            GLOBAL_SEARCH_LIMITATIONS GLOBAL_SEARCH_DISCLAIMER), s).
Proof.
  intros Habsent Htext Hlayouts. unfold globalSearchData. rewrite Htext.
  destruct input.(in_layouts) as [|l ls] eqn:Hin; [contradiction|].
  unfold bind. now rewrite (searchLayouts_without_session _ _ (l :: ls) _ s Habsent).
Qed.

(** X9. A search is refused before anything is sent when the text is
    empty or white space only, or when no layout is given: the result is
    the "Bad request" error (API_INVALID_QUERY, not retryable) that names
    the missing input, the text being checked first, and the process state
    is unchanged.  These are the only errors the search returns: whatever
    the remote system answers, a search with a non-blank text and at least
    one layout gives a result. *)
Theorem globalSearchData_rejects_empty_input
    (input : GlobalSearchDataInput) (s : Sys W) :
  (JsString.trimIsEmpty input.(in_searchText) = true ->
     globalSearchData remote input s =
       (inr (Tools.mkErrorResponse
               (Tools.mkErrorDetail ErrorMapper.ErrorCodes.API_INVALID_QUERY
                  "Bad request" (Some "検索テキストが空です") None false)), s))
  /\ (JsString.trimIsEmpty input.(in_searchText) = false ->
        input.(in_layouts) = [] ->
        globalSearchData remote input s =
          (inr (Tools.mkErrorResponse
                  (Tools.mkErrorDetail ErrorMapper.ErrorCodes.API_INVALID_QUERY
                     "Bad request" (Some "検索対象レイアウトが指定されていません")
                     None false)), s))
  /\ (forall (e : Tools.ErrorResponse) (s' : Sys W),
        globalSearchData remote input s = (inr e, s') ->
        JsString.trimIsEmpty input.(in_searchText) = true
        \/ input.(in_layouts) = []).
Proof.
  split; [|split].
  - intros Htext. unfold globalSearchData. now rewrite Htext.
  - intros Htext Hlayouts. unfold globalSearchData. now rewrite Htext, Hlayouts.
  - intros e s' H. unfold globalSearchData in H.
    destruct (JsString.trimIsEmpty input.(in_searchText)); [now left|].
    destruct input.(in_layouts) as [|l ls]; [now right|].
    unfold bind, ret in H.
    destruct (searchLayouts remote (l :: ls) _ _ _ s) as [acc s1]. discriminate.
Qed.

Lemma slice0_length {A : Type} (xs : list A) (stop : Z) :
  Z.of_nat (List.length (JsString.slice0 xs stop)) =
    if stop <? 0 then Z.max (Z.of_nat (List.length xs) + stop) 0
    else Z.min stop (Z.of_nat (List.length xs)).
Proof.
  unfold JsString.slice0. rewrite length_firstn.
  destruct (Z.ltb_spec stop 0); lia.
Qed.

#[warnings="-notation-for-abbreviation"]
Local Notation allowed layouts options :=
  (fun request : Request =>
     match request with
     | GetLayoutMetadata layoutName _ => In layoutName layouts
     | PostFind layoutName _ body =>
         In layoutName layouts
         /\ body.(limit) = options.(maxRecordsPerLayout)
         /\ body.(query) <> []
         /\ (0 <= options.(maxFieldsPerLayout) ->
             Z.of_nat (List.length body.(query)) <= options.(maxFieldsPerLayout))
     | _ => False
     end).

Lemma buildRequestBody_allowed
    (layoutName token searchText : string) (options : SearchOptions)
    (metadata : FileMaker.FMLayoutMetadataResponse) :
  selectSearchableFields options metadata <> [] ->
  allowed [layoutName] options
    (PostFind layoutName token
       (buildRequestBody searchText options (selectSearchableFields options metadata))).
Proof.
  intros Hfields. simpl. split; [now left|]. split; [reflexivity|]. split.
  - destruct (selectSearchableFields options metadata); [contradiction|discriminate].
  - intros Hmax. rewrite length_map. unfold selectSearchableFields.
    rewrite slice0_length.
    destruct (Z.ltb_spec options.(maxFieldsPerLayout) 0); lia.
Qed.

Lemma fetchLayoutMetadata_effect (layoutName : string) (s : Sys W) :
  let s' := snd (fetchLayoutMetadata remote layoutName s) in
  manager s' = manager s
  /\ ((activeSession (manager s) = None /\ s' = s)
      \/ exists client st,
           activeSession (manager s) = Some (client, st)
           /\ trace s' = trace s ++ [GetLayoutMetadata layoutName st.(token)]).
Proof.
  exact (withSession_send_effect
           (fun _ token => GetLayoutMetadata layoutName token)
           (fun client token => getLayoutMetadata remote client layoutName token) s).
Qed.

Lemma findRecords_effect (layoutName : string) (body : FindRequestBody) (s : Sys W) :
  let s' := snd (findRecords remote layoutName body s) in
  manager s' = manager s
  /\ ((activeSession (manager s) = None /\ s' = s)
      \/ exists client st,
           activeSession (manager s) = Some (client, st)
           /\ trace s' = trace s ++ [PostFind layoutName st.(token) body]).
Proof.
  exact (withSession_send_effect
           (fun _ token => PostFind layoutName token body)
           (fun client token => postFind remote client layoutName token body) s).
Qed.

(** One layout costs at most two requests, the metadata fetch and the
    find, and the manager is left alone. *)
Lemma searchLayout_requests
    (layoutName searchText : string) (options : SearchOptions) (s : Sys W) :
  let s' := snd (searchLayout remote layoutName searchText options s) in
  manager s' = manager s
  /\ exists added,
       trace s' = trace s ++ added
       /\ (List.length added <= 2)%nat
       /\ Forall (allowed [layoutName] options) added.
Proof.
  cbv zeta. unfold searchLayout, bind.
  pose proof (fetchLayoutMetadata_effect layoutName s) as Hmeta.
  cbv zeta in Hmeta.
  destruct (fetchLayoutMetadata remote layoutName s) as [metadataResult s1].
  simpl in Hmeta. destruct Hmeta as (Hm1 & Ht1).
  assert (Hadded1 : exists added1,
            trace s1 = trace s ++ added1 /\ (List.length added1 <= 1)%nat
            /\ Forall (allowed [layoutName] options) added1).
  { destruct Ht1 as [(_ & ->)|(client & st & _ & Ht1)].
    - exists []. rewrite app_nil_r.
      split; [reflexivity|]. split; [simpl; lia|constructor].
    - exists [GetLayoutMetadata layoutName st.(token)].
      split; [exact Ht1|]. split; [simpl; lia|].
      constructor; [now left|constructor]. }
  destruct Hadded1 as (added1 & Htrace1 & Hlen1 & Hall1).
  assert (Hskip : forall o : SearchLayoutResult,
            manager s1 = manager s
            /\ exists added,
                 trace (snd (ret (W := W) o s1)) = trace s ++ added
                 /\ (List.length added <= 2)%nat
                 /\ Forall (allowed [layoutName] options) added).
  { intros o. split; [exact Hm1|]. exists added1. simpl.
    split; [exact Htrace1|]. split; [lia|exact Hall1]. }
  destruct metadataResult as [metadataResponse|e|]; [|apply Hskip|apply Hskip].
  destruct (selectSearchableFields options metadataResponse.(data))
    as [|f fs] eqn:Hsel; [apply Hskip|].
  pose proof (findRecords_effect layoutName
                (buildRequestBody searchText options (f :: fs)) s1) as Hfind.
  cbv zeta in Hfind.
  destruct (findRecords remote layoutName _ s1) as [searchResult s2].
  simpl in Hfind. destruct Hfind as (Hm2 & Ht2).
  assert (Hdone : manager s2 = manager s
                  /\ exists added,
                       trace s2 = trace s ++ added
                       /\ (List.length added <= 2)%nat
                       /\ Forall (allowed [layoutName] options) added).
  { split; [now rewrite Hm2|].
    destruct Ht2 as [(_ & ->)|(client & st & _ & Ht2)].
    - exists added1. split; [exact Htrace1|]. split; [lia|exact Hall1].
    - exists (added1 ++ [PostFind layoutName st.(token)
                           (buildRequestBody searchText options (f :: fs))]).
      split; [now rewrite Ht2, Htrace1, app_assoc|].
      split; [rewrite length_app; simpl; lia|].
      apply Forall_app. split; [exact Hall1|].
      constructor; [|constructor]. rewrite <- Hsel.
      apply (buildRequestBody_allowed layoutName st.(token) searchText options
               metadataResponse.(data)).
      rewrite Hsel. discriminate. }
  destruct searchResult as [searchResponse|e|]; simpl; try exact Hdone.
  destruct (fmErrorCodeIs e 401); exact Hdone.
Qed.

Lemma allowed_weaken
    (layoutName : string) (layouts : list string) (options : SearchOptions)
    (added : list Request) :
  In layoutName layouts ->
  Forall (allowed [layoutName] options) added ->
  Forall (allowed layouts options) added.
Proof.
  intros Hin. apply Forall_impl. intros [t|l t|l t body|t|t]; simpl; try tauto.
  - intros [<-|[]]. exact Hin.
  - intros ([<-|[]] & H). now split.
Qed.

Lemma searchLayouts_requests
    (searchText : string) (options : SearchOptions) (all layouts : list string) :
  incl layouts all ->
  forall (acc : Accumulator) (s : Sys W),
    let s' := snd (searchLayouts remote layouts searchText options acc s) in
    manager s' = manager s
    /\ exists added,
         trace s' = trace s ++ added
         /\ (List.length added <= 2 * List.length layouts)%nat
         /\ Forall (allowed all options) added.
Proof.
  induction layouts as [|l rest IH]; intros Hincl acc s; cbv zeta.
  - simpl. split; [reflexivity|]. exists []. rewrite app_nil_r.
    split; [reflexivity|]. split; [simpl; lia|constructor].
  - simpl. unfold bind.
    pose proof (searchLayout_requests l searchText options s) as Hone.
    cbv zeta in Hone.
    destruct (searchLayout remote l searchText options s) as [outcome s1].
    simpl in Hone. destruct Hone as (Hm1 & added1 & Ht1 & Hlen1 & Hall1).
    assert (Hrest : incl rest all) by (intros x Hx; apply Hincl; now right).
    specialize (IH Hrest (recordOutcome l outcome acc) s1). cbv zeta in IH.
    destruct IH as (Hm2 & added2 & Ht2 & Hlen2 & Hall2).
    split; [now rewrite Hm2|].
    exists (added1 ++ added2).
    split; [now rewrite Ht2, Ht1, app_assoc|].
    split; [rewrite length_app; simpl; lia|].
    apply Forall_app. split; [|exact Hall2].
    apply (allowed_weaken l); [apply Hincl; now left|exact Hall1].
Qed.

(** X10. Whatever the remote system answers, a search leaves the session
    manager as it was and sends at most two requests per requested layout,
    each either the metadata fetch or the find of a requested layout.
    Every find carries the limit [min(maxRecordsPerLayout ?? 100, 1000)],
    so never more than 1000, and a non-empty query of at most
    [maxFieldsPerLayout ?? 50] clauses (when that bound is not negative). *)
Theorem globalSearchData_requests (input : GlobalSearchDataInput) (s : Sys W) :
  let s' := snd (globalSearchData remote input s) in
  let options := resolveOptions input in
  manager s' = manager s
  /\ options.(maxRecordsPerLayout) <= ABSOLUTE_MAX_RECORDS
  /\ exists added,
       trace s' = trace s ++ added
       /\ (List.length added <= 2 * List.length input.(in_layouts))%nat
       /\ Forall (allowed input.(in_layouts) options) added.
Proof.
  cbv zeta. split; [|split].
  - unfold globalSearchData.
    destruct (JsString.trimIsEmpty input.(in_searchText)); [reflexivity|].
    destruct input.(in_layouts) as [|l ls] eqn:Hin; [reflexivity|].
    unfold bind.
    pose proof (searchLayouts_requests input.(in_searchText) (resolveOptions input)
                  (l :: ls) (l :: ls) (incl_refl _)
                  (mkAccumulator [] [] 0%nat) s) as H.
    cbv zeta in H. destruct (searchLayouts remote (l :: ls) _ _ _ s) as [acc s1].
    simpl in *. tauto.
  - unfold resolveOptions. simpl. apply Z.le_min_r.
  - unfold globalSearchData.
    destruct (JsString.trimIsEmpty input.(in_searchText)).
    { exists []. simpl. rewrite app_nil_r. repeat split; [lia|constructor]. }
    destruct input.(in_layouts) as [|l ls] eqn:Hin.
    { exists []. simpl. rewrite app_nil_r. repeat split; [lia|constructor]. }
    unfold bind.
    pose proof (searchLayouts_requests input.(in_searchText) (resolveOptions input)
                  (l :: ls) (l :: ls) (incl_refl _)
                  (mkAccumulator [] [] 0%nat) s) as H.
    cbv zeta in H. destruct (searchLayouts remote (l :: ls) _ _ _ s) as [acc s1].
    simpl in *. tauto.
Qed.

End WithRemote.

Lemma globalSearchData_requests_witness :
  manager (snd (globalSearchData Scenario.snapshotRemote
                  (mkGlobalSearchDataInput "ABC" ["Customers"; "Broken"]
                     (Some (mkGlobalSearchDataOptions (Some 1) (Some 5000) None None)))
                  (Scenario.start Scenario.salesDb Scenario.activeManager)))
    = Scenario.activeManager
  /\ trace (snd (globalSearchData Scenario.snapshotRemote
                   (mkGlobalSearchDataInput "ABC" ["Customers"; "Broken"]
                      (Some (mkGlobalSearchDataOptions (Some 1) (Some 5000) None None)))
                   (Scenario.start Scenario.salesDb Scenario.activeManager)))
     = [ GetLayoutMetadata "Customers" "token-1";
         PostFind "Customers" "token-1" (mkFindRequestBody [("Name", "*ABC*")] 1000);
         GetLayoutMetadata "Broken" "token-1" ].
Proof.
  split; [|reflexivity].
  exact (proj1 (globalSearchData_requests Scenario.snapshotRemote
                  (mkGlobalSearchDataInput "ABC" ["Customers"; "Broken"]
                     (Some (mkGlobalSearchDataOptions (Some 1) (Some 5000) None None)))
                  (Scenario.start Scenario.salesDb Scenario.activeManager))).
Defined.

Lemma globalSearchData_without_session_witness :
  globalSearchData Scenario.snapshotRemote
    (mkGlobalSearchDataInput "ABC" ["Customers"; "Invoices"] None)
    (Scenario.start Scenario.salesDb emptyManager)
  = (inl (mkGlobalSearchDataOutput "ABC" []
            (mkGlobalSearchSummary 2 0 [] ["Customers"; "Invoices"])
            GLOBAL_SEARCH_LIMITATIONS GLOBAL_SEARCH_DISCLAIMER),
     Scenario.start Scenario.salesDb emptyManager).
Proof.
  apply (globalSearchData_without_session Scenario.snapshotRemote
           (mkGlobalSearchDataInput "ABC" ["Customers"; "Invoices"] None)
           (Scenario.start Scenario.salesDb emptyManager)).
  - reflexivity.
  - reflexivity.
  - simpl. discriminate.
Defined.

Lemma globalSearchData_rejects_empty_input_witness :
  globalSearchData Scenario.snapshotRemote
    (mkGlobalSearchDataInput (" " ++ Samples.ideographicSpace) ["Customers"] None)
    (Scenario.start Scenario.salesDb Scenario.activeManager)
  = (inr (Tools.mkErrorResponse
            (Tools.mkErrorDetail ErrorMapper.ErrorCodes.API_INVALID_QUERY
               "Bad request" (Some "検索テキストが空です") None false)),
     Scenario.start Scenario.salesDb Scenario.activeManager)
  /\ globalSearchData Scenario.snapshotRemote
       (mkGlobalSearchDataInput "ABC" [] None)
       (Scenario.start Scenario.salesDb Scenario.activeManager)
     = (inr (Tools.mkErrorResponse
               (Tools.mkErrorDetail ErrorMapper.ErrorCodes.API_INVALID_QUERY
                  "Bad request" (Some "検索対象レイアウトが指定されていません")
                  None false)),
        Scenario.start Scenario.salesDb Scenario.activeManager).
Proof.
  split.
  - apply (proj1 (globalSearchData_rejects_empty_input Scenario.snapshotRemote
                    (mkGlobalSearchDataInput (" " ++ Samples.ideographicSpace) ["Customers"] None)
                    (Scenario.start Scenario.salesDb Scenario.activeManager))).
    reflexivity.
  - apply (proj1 (proj2 (globalSearchData_rejects_empty_input Scenario.snapshotRemote
                           (mkGlobalSearchDataInput "ABC" [] None)
                           (Scenario.start Scenario.salesDb Scenario.activeManager)))).
    + reflexivity.
    + reflexivity.
Defined.

Section Results.
Context {W : Type} (remote : Remote W).

#[warnings="-notation-for-abbreviation"]
Local Notation wellFormed :=
  (fun r : LayoutSearchResult =>
     r.(recordCount) = List.length r.(records)
     /\ r.(searchedFields) <> []
     /\ r.(matchedFields) <> Some []
     /\ forall matched,
          r.(matchedFields) = Some matched ->
          incl matched r.(searchedFields) /\ r.(records) <> []).

Lemma searchLayout_result_wellFormed
    (layoutName searchText : string) (options : SearchOptions) (s : Sys W)
    (r : LayoutSearchResult) :
  (fst (searchLayout remote layoutName searchText options s)).(result) = Some r ->
  wellFormed r.
Proof.
  unfold searchLayout, bind.
  destruct (fetchLayoutMetadata remote layoutName s) as [[metadataResponse|e|] s1];
    simpl; try discriminate.
  destruct (selectSearchableFields options metadataResponse.(data)) as [|f fs];
    [discriminate|].
  cbv beta iota zeta.
  assert (Hne : f :: fs <> []) by discriminate.
  remember (f :: fs) as fields eqn:Hfields. clear Hfields.
  destruct (findRecords remote layoutName _ s1) as [[searchResponse|e|] s2];
    cbv beta iota zeta.
  - unfold ret. cbn [fst result]. intros H. injection H as <-.
    cbn [recordCount records searchedFields matchedFields].
    split; [reflexivity|]. split; [now destruct fields|].
    destruct (FileMaker.data (data searchResponse)) as [|record rest];
      cbn [map]; [repeat split; discriminate|].
    destruct (filter _ fields) as [|m ms] eqn:Hfilter; cbn [map];
      [repeat split; discriminate|].
    split; [discriminate|]. intros matched H. injection H as <-.
    split; [|discriminate].
    change (FileMaker.name m :: map FileMaker.name ms)
      with (map FileMaker.name (m :: ms)).
    rewrite <- Hfilter. apply incl_map, incl_filter.
  - destruct (fmErrorCodeIs e 401); unfold ret; cbn [fst result];
      [|discriminate].
    intros H. injection H as <-.
    cbn [recordCount records searchedFields matchedFields].
    split; [reflexivity|]. split; [now destruct fields|].
    split; discriminate.
  - unfold ret. cbn [fst result]. discriminate.
Qed.

Lemma searchLayouts_wellFormed
    (searchText : string) (options : SearchOptions) (layouts : list string) :
  forall (acc : Accumulator) (s : Sys W),
    Forall wellFormed acc.(acc_results) ->
    Forall wellFormed
      (fst (searchLayouts remote layouts searchText options acc s)).(acc_results).
Proof.
  induction layouts as [|layoutName rest IH]; intros acc s Hacc; simpl;
    [exact Hacc|].
  unfold bind.
  pose proof (searchLayout_result_wellFormed layoutName searchText options s) as Hwf.
  destruct (searchLayout remote layoutName searchText options s) as [outcome s1].
  simpl in Hwf. apply IH. unfold recordOutcome.
  destruct outcome.(skipped); [exact Hacc|].
  destruct outcome.(result) as [r|]; [|exact Hacc].
  simpl. apply Forall_app. split; [exact Hacc|].
  constructor; [now apply Hwf|constructor].
Qed.

(** X21. Every entry of the results of a search is consistent in itself:
    its record count is the number of records it carries, it names at least
    one searched field, and its matched fields, when present, are a
    non-empty selection of the searched fields and are only reported
    together with at least one record.  The searched layouts of the summary
    are the layouts of the results, in the same order, and the total is the
    number of requested layouts. *)
Theorem globalSearchData_results_consistent
    (input : GlobalSearchDataInput) (s s' : Sys W) (out : GlobalSearchDataOutput) :
  globalSearchData remote input s = (inl out, s') ->
  Forall wellFormed out.(results)
  /\ out.(summary).(searchedLayouts) = map layout out.(results)
  /\ out.(summary).(totalLayouts) = List.length input.(in_layouts)
  /\ out.(out_searchText) = input.(in_searchText).
Proof.
  unfold globalSearchData.
  destruct (JsString.trimIsEmpty input.(in_searchText)); [discriminate|].
  destruct input.(in_layouts) as [|l ls] eqn:Hlayouts; [discriminate|].
  unfold bind, ret.
  pose proof (searchLayouts_wellFormed input.(in_searchText) (resolveOptions input)
                (l :: ls) (mkAccumulator [] [] 0%nat) s (Forall_nil _)) as Hwf.
  destruct (searchLayouts remote (l :: ls) _ _ _ s) as [acc s1].
  intros H. injection H as <- <-. simpl. repeat split. exact Hwf.
Qed.

End Results.

Lemma globalSearchData_results_consistent_witness :
  exists out s',
    globalSearchData Scenario.snapshotRemote
      (mkGlobalSearchDataInput "ABC" ["Customers"; "Broken"; "Invoices"] None)
      (Scenario.start Scenario.salesDb Scenario.activeManager) = (inl out, s')
    /\ map recordCount out.(results) = map (fun r => List.length r.(records)) out.(results)
    /\ out.(summary).(searchedLayouts) = ["Customers"; "Invoices"].
Proof.
  destruct (globalSearchData Scenario.snapshotRemote
              (mkGlobalSearchDataInput "ABC" ["Customers"; "Broken"; "Invoices"] None)
              (Scenario.start Scenario.salesDb Scenario.activeManager))
    as [[out|e] s'] eqn:Hrun; [|vm_compute in Hrun; discriminate].
  exists out, s'. split; [reflexivity|].
  destruct (globalSearchData_results_consistent _ _ _ _ _ Hrun)
    as (Hwf & Hsearched & _ & _).
  split.
  - clear Hrun Hsearched. induction Hwf as [|r rs (Hcount & _) _ IH]; simpl;
      [reflexivity|now rewrite Hcount, IH].
  - rewrite Hsearched. vm_compute in Hrun. injection Hrun as <- _. reflexivity.
Defined.

End GlobalSearcherLaws.

(* ====================================================================== *)
(** * Further properties of the metadata aggregator *)
(* ====================================================================== *)

Module MetadataAggregatorLaws.
Import Client Session MetadataAggregator.

Section WithRemote.
Context {W : Type} (remote : Remote W).

Lemma fetchLayoutMetadata_active
    (layoutName : string) (s : Sys W) (client : FileMakerHttpClient) (st : SessionState) :
  activeSession (manager s) = Some (client, st) ->
  fetchLayoutMetadata remote layoutName s =
    (let (r, w') := getLayoutMetadata remote client layoutName st.(token) (world s) in
     (r, mkSys (manager s) w' (trace s ++ [GetLayoutMetadata layoutName st.(token)]))).
Proof.
  intros Hactive. unfold fetchLayoutMetadata.
  now rewrite (SessionFacts.withSession_active _ s client st Hactive).
Qed.

Lemma fetchLayouts_active
    (s : Sys W) (client : FileMakerHttpClient) (st : SessionState) :
  activeSession (manager s) = Some (client, st) ->
  fetchLayouts remote s =
    (let (r, w') := getLayouts remote client st.(token) (world s) in
     (r, mkSys (manager s) w' (trace s ++ [GetLayouts st.(token)]))).
Proof.
  intros Hactive. unfold fetchLayouts.
  now rewrite (SessionFacts.withSession_active _ s client st Hactive).
Qed.

Lemma fetchScripts_active
    (s : Sys W) (client : FileMakerHttpClient) (st : SessionState) :
  activeSession (manager s) = Some (client, st) ->
  fetchScripts remote s =
    (let (r, w') := getScripts remote client st.(token) (world s) in
     (r, mkSys (manager s) w' (trace s ++ [GetScripts st.(token)]))).
Proof.
  intros Hactive. unfold fetchScripts.
  now rewrite (SessionFacts.withSession_active _ s client st Hactive).
Qed.

Lemma collectLayouts_requests
    (options : ExportOptions) (client : FileMakerHttpClient) (st : SessionState)
    (layoutNames : list string) :
  forall (acc : Collected) (s : Sys W),
    activeSession (manager s) = Some (client, st) ->
    let s' := snd (collectLayouts remote options layoutNames acc s) in
    manager s' = manager s
    /\ trace s' = trace s
                  ++ map (fun n => GetLayoutMetadata n st.(token)) layoutNames.
Proof.
  induction layoutNames as [|n rest IH]; intros acc s Hactive; cbv zeta.
  - simpl. now rewrite app_nil_r.
  - simpl. unfold bind. rewrite (fetchLayoutMetadata_active n s client st Hactive).
    destruct (getLayoutMetadata remote client n st.(token) (world s)) as [r w'].
    set (s1 := mkSys (manager s) w' (trace s ++ [GetLayoutMetadata n st.(token)])).
    assert (Hactive1 : activeSession (manager s1) = Some (client, st)) by exact Hactive.
    destruct r as [response|e|];
      match goal with
      | |- context [collectLayouts remote options rest ?a s1] =>
          destruct (IH a s1 Hactive1) as (Hm & Ht)
      end;
      (split; [exact Hm|]); rewrite Ht; simpl; now rewrite <- app_assoc.
Qed.

Lemma buildOutput_state
    (input : ExportDatabaseMetadataInput) (options : ExportOptions)
    (acc : Collected) (scripts : list ScriptMetadata) (s : Sys W) :
  snd (buildOutput remote input options acc scripts s) = s.
Proof. reflexivity. Qed.

(** X11. With an active session an export sends, in this order: the
    layout list fetch when layouts are included; when that succeeds, one
    metadata fetch for each layout of the list that is not a folder; and
    the script list fetch when scripts are included and the layout list
    did not fail.  All carry the token of the session, nothing else is
    sent, and the session manager is left as it was. *)
Theorem exportDatabaseMetadata_requests
    (input : ExportDatabaseMetadataInput) (s : Sys W)
    (client : FileMakerHttpClient) (st : SessionState) :
  activeSession (manager s) = Some (client, st) ->
  let options := resolveOptions input in
  let s' := snd (exportDatabaseMetadata remote input s) in
  let scriptsRequest :=
    if options.(includeScripts) then [GetScripts st.(token)] else [] in
  manager s' = manager s
  /\ trace s' =
       trace s ++
       (if options.(includeLayouts) then
          GetLayouts st.(token) ::
          match fst (getLayouts remote client st.(token) (world s)) with
          | Success response =>
              map (fun n => GetLayoutMetadata n st.(token))
                  (map FileMaker.layout_name
                       (filter (fun l => FileMaker.notFolder l.(FileMaker.layout_isFolder))
                               response.(Client.data).(FileMaker.layouts)))
              ++ scriptsRequest
          | _ => []
          end
        else scriptsRequest).
Proof.
  intros Hactive. cbv zeta.
  set (after := fun acc : Collected =>
         bind (scriptsPhase remote (resolveOptions input))
              (fun scriptsResult =>
                 match scriptsResult with
                 | inl scripts =>
                     bind (buildOutput remote input (resolveOptions input) acc scripts)
                          (fun output => ret (inl output))
                 | inr e => ret (inr e)
                 end)).
  assert (Hscripts : forall (acc : Collected) (s1 : Sys W),
            activeSession (manager s1) = Some (client, st) ->
            manager (snd (after acc s1)) = manager s1
            /\ trace (snd (after acc s1)) =
                 trace s1 ++
                 (if (resolveOptions input).(includeScripts)
                  then [GetScripts st.(token)] else [])).
  { intros acc s1 Hactive1. unfold after, scriptsPhase, bind.
    destruct (resolveOptions input).(includeScripts).
    - rewrite (fetchScripts_active s1 client st Hactive1).
      destruct (getScripts remote client st.(token) (world s1)) as [[r|e|] w'];
        simpl; now split.
    - simpl. now rewrite app_nil_r. }
  remember (snd (exportDatabaseMetadata remote input s)) as s' eqn:Hs'.
  unfold exportDatabaseMetadata, layoutsPhase in Hs'.
  destruct (resolveOptions input).(includeLayouts).
  - unfold bind at 1 2 in Hs'. rewrite (fetchLayouts_active s client st Hactive) in Hs'.
    destruct (getLayouts remote client st.(token) (world s)) as [[response|e|] w'];
      simpl in Hs'; simpl; try (subst s'; now split).
    set (s1 := mkSys (manager s) w' (trace s ++ [GetLayouts st.(token)])) in *.
    set (names := map FileMaker.layout_name _) in *.
    assert (Hactive1 : activeSession (manager s1) = Some (client, st)) by exact Hactive.
    destruct (collectLayouts_requests (resolveOptions input) client st names
                emptyCollected s1 Hactive1) as (Hm2 & Ht2).
    unfold bind at 1 in Hs'.
    destruct (collectLayouts remote (resolveOptions input) names emptyCollected s1)
      as [acc s2].
    simpl in Hm2, Ht2.
    change (s' = snd (after acc s2)) in Hs'.
    assert (Hactive2 : activeSession (manager s2) = Some (client, st)).
    { now rewrite Hm2. }
    destruct (Hscripts acc s2 Hactive2) as (Hm3 & Ht3).
    rewrite <- Hs' in Hm3, Ht3.
    split; [now rewrite Hm3, Hm2|].
    rewrite Ht3, Ht2. simpl. now rewrite <- !app_assoc.
  - unfold bind at 1 in Hs'. simpl in Hs'.
    change (s' = snd (after emptyCollected s)) in Hs'. subst s'.
    apply (Hscripts emptyCollected s Hactive).
Qed.

(** X12. Without an active session an export that includes layouts or
    scripts returns the "no session" error of [withSession], and an export
    that includes neither succeeds with no layout and no script and the
    database and server named "unknown" (the manager holding no state); in
    both cases nothing is sent and the process state is unchanged. *)
Theorem exportDatabaseMetadata_without_session
    (input : ExportDatabaseMetadataInput) (s : Sys W) :
  activeSession (manager s) = None ->
  let options := resolveOptions input in
  (options.(includeLayouts) = true \/ options.(includeScripts) = true ->
     exportDatabaseMetadata remote input s = (inr noActiveSessionError, s))
  /\ (options.(includeLayouts) = false -> options.(includeScripts) = false ->
        exists out,
          exportDatabaseMetadata remote input s = (inl out, s)
          /\ out.(data).(layouts) = []
          /\ out.(data).(scripts) = []
          /\ out.(data).(valueLists) = None
          /\ out.(data).(inferredRelationships) = None
          /\ ((manager s).(state) = None ->
                out.(data).(database_name) = "unknown"
                /\ out.(data).(database_server) = "unknown")).
Proof.
  intros Habsent. cbv zeta. split.
  - intros Hany. unfold exportDatabaseMetadata, layoutsPhase, scriptsPhase, bind.
    destruct (resolveOptions input).(includeLayouts).
    + unfold fetchLayouts.
      now rewrite (SessionFacts.withSession_absent _ s Habsent).
    + destruct Hany as [Hany|Hany]; [discriminate|]. rewrite Hany. simpl.
      unfold fetchScripts.
      now rewrite (SessionFacts.withSession_absent _ s Habsent).
  - intros Hlayouts Hscripts.
    unfold exportDatabaseMetadata, layoutsPhase, scriptsPhase, buildOutput,
      getManager, ret, bind.
    rewrite Hlayouts, Hscripts. simpl.
    eexists. split; [reflexivity|]. simpl.
    split; [reflexivity|]. split; [reflexivity|].
    split; [now destruct (optionOrTrue _ opt_includeValueLists)|].
    split; [now destruct (optionOrTrue _ opt_includePortalAnalysis)|].
    intros Hstate. unfold getSessionInfo. now rewrite Hstate.
Qed.

End WithRemote.

Lemma getProperty_app {A : Type} (m1 m2 : list (string * A)) (key : string) :
  JsString.getProperty (m1 ++ m2) key =
    match JsString.getProperty m1 key with
    | Some v => Some v
    | None => JsString.getProperty m2 key
    end.
Proof.
  induction m1 as [|[k v] rest IH]; simpl; [reflexivity|].
  now destruct (String.eqb k key).
Qed.

Lemma getProperty_None {A : Type} (m : list (string * A)) (key : string) :
  JsString.getProperty m key = None <-> ~ In key (map fst m).
Proof.
  induction m as [|[k v] rest IH]; simpl; [tauto|].
  destruct (String.eqb_spec k key) as [->|Hne].
  - split; [discriminate|]. intros H. exfalso. apply H. now left.
  - rewrite IH. tauto.
Qed.

(** [valueListMap] after the entries of one layout: a name already in the
    map keeps its values, a new name gets those of its first entry. *)
Lemma collectValueLists_lookup (entries : list (string * list string)) :
  forall (valueListMap : list (string * list string)) (key : string),
    JsString.getProperty (collectValueLists entries valueListMap) key =
      match JsString.getProperty valueListMap key with
      | Some values => Some values
      | None => JsString.getProperty entries key
      end.
Proof.
  induction entries as [|[n vs] rest IH]; intros m key; simpl.
  - now destruct (JsString.getProperty m key).
  - destruct (JsString.getProperty m n) as [old|] eqn:Hn; rewrite IH.
    + destruct (JsString.getProperty m key) as [v|] eqn:Hkey; [reflexivity|].
      destruct (String.eqb_spec n key) as [->|_]; [congruence|reflexivity].
    + rewrite getProperty_app. simpl.
      destruct (JsString.getProperty m key) as [v|] eqn:Hkey; [reflexivity|].
      now destruct (String.eqb n key).
Qed.

Lemma collectValueLists_NoDup (entries : list (string * list string)) :
  forall valueListMap : list (string * list string),
    NoDup (map fst valueListMap) ->
    NoDup (map fst (collectValueLists entries valueListMap)).
Proof.
  induction entries as [|[n vs] rest IH]; intros m Hm; simpl; [exact Hm|].
  destruct (JsString.getProperty m n) as [old|] eqn:Hn; apply IH; [exact Hm|].
  rewrite map_app. apply NoDup_app; [exact Hm|repeat constructor; auto|].
  intros a Ha [<-|[]]. now apply (getProperty_None m n).
Qed.

#[warnings="-notation-for-abbreviation"]
Local Notation fromPortal layouts :=
  (fun r : InferredRelationship =>
     In r.(sourceLayout) (map layout_name layouts)
     /\ r.(inferenceMethod) = portal_name_method
     /\ r.(confidence) <> Tools.low
     /\ r.(inferredTargetTable) = inferRelatedTableName r.(portalName)).

(** What the layout loop keeps true of its three accumulators. *)
#[warnings="-notation-for-abbreviation"]
Local Notation invariant options acc :=
  (NoDup (map fst acc.(col_valueListMap))
   /\ (options.(includeValueLists) = false -> acc.(col_valueListMap) = [])
   /\ List.length acc.(col_inferredRelationships) =
        (if options.(includePortalAnalysis)
         then list_sum (map (fun l => List.length l.(portals)) acc.(col_layouts))
         else 0%nat)
   /\ Forall (fromPortal acc.(col_layouts)) acc.(col_inferredRelationships)).

Lemma addLayout_invariant
    (options : ExportOptions) (layoutName : string)
    (metadata : FileMaker.FMLayoutMetadataResponse) (acc : Collected) :
  invariant options acc ->
  invariant options (addLayout options layoutName metadata acc).
Proof.
  intros (Hnodup & Hoff & Hcount & Hall). unfold addLayout. simpl.
  split; [|split; [|split]].
  - destruct options.(includeValueLists); [|exact Hnodup].
    destruct metadata.(FileMaker.valueLists); [|exact Hnodup].
    now apply collectValueLists_NoDup.
  - intros Hno. rewrite Hno. now apply Hoff.
  - rewrite length_app, Hcount, map_app, list_sum_app. simpl.
    destruct options.(includePortalAnalysis); simpl; [|reflexivity].
    rewrite !length_map. lia.
  - apply Forall_app. split.
    + revert Hall. apply Forall_impl. intros r (Hin & Hrest).
      split; [|exact Hrest]. rewrite map_app. apply in_or_app. now left.
    + destruct options.(includePortalAnalysis); [|constructor].
      apply Forall_forall. intros r Hr. apply in_map_iff in Hr as (entry & <- & _).
      unfold inferRelationshipFromPortal. simpl.
      split; [rewrite map_app; apply in_or_app; right; now left|].
      split; [reflexivity|]. split; [|reflexivity].
      now destruct (String.eqb _ _).
Qed.

Section WithRemote2.
Context {W : Type} (remote : Remote W).

Lemma collectLayouts_invariant (options : ExportOptions) (layoutNames : list string) :
  forall (acc : Collected) (s : Sys W),
    invariant options acc ->
    let acc' := fst (collectLayouts remote options layoutNames acc s) in
    invariant options acc'
    /\ incl (map layout_name acc'.(col_layouts))
            (map layout_name acc.(col_layouts) ++ layoutNames)
    /\ (List.length acc'.(col_layouts)
        <= List.length acc.(col_layouts) + List.length layoutNames)%nat.
Proof.
  induction layoutNames as [|n rest IH]; intros acc s Hinv; cbv zeta.
  - simpl. split; [exact Hinv|]. split; [|lia].
    rewrite app_nil_r. apply incl_refl.
  - simpl. unfold bind.
    destruct (fetchLayoutMetadata remote n s) as [[response|e|] s1].
    + destruct (IH (addLayout options n response.(Client.data) acc) s1
                  (addLayout_invariant options n _ acc Hinv)) as (H1 & H2 & H3).
      cbv zeta in H1, H2, H3. split; [exact H1|]. split.
      * intros x Hx. apply H2 in Hx. unfold addLayout in Hx. simpl in Hx.
        rewrite map_app in Hx. simpl in Hx.
        rewrite <- app_assoc in Hx. exact Hx.
      * assert (Hone : List.length
                         (addLayout options n response.(Client.data) acc).(col_layouts)
                       = S (List.length acc.(col_layouts))).
        { unfold addLayout. simpl. rewrite length_app. simpl. lia. }
        rewrite Hone in H3. simpl. lia.
    + destruct (IH acc s1 Hinv) as (H1 & H2 & H3).
      split; [exact H1|]. split.
      * intros x Hx. apply H2, in_app_or in Hx. apply in_or_app.
        destruct Hx as [Hx|Hx]; [now left|right; now right].
      * simpl. lia.
    + destruct (IH acc s1 Hinv) as (H1 & H2 & H3).
      split; [exact H1|]. split.
      * intros x Hx. apply H2, in_app_or in Hx. apply in_or_app.
        destruct Hx as [Hx|Hx]; [now left|right; now right].
      * simpl. lia.
Qed.

Lemma emptyCollected_invariant (options : ExportOptions) :
  invariant options emptyCollected.
Proof.
  simpl. split; [constructor|]. split; [reflexivity|].
  split; [now destruct options.(includePortalAnalysis)|constructor].
Qed.

Lemma layoutsPhase_invariant (options : ExportOptions) (s s1 : Sys W) (acc : Collected) :
  layoutsPhase remote options s = (inl acc, s1) ->
  invariant options acc.
Proof.
  unfold layoutsPhase, bind.
  destruct options.(includeLayouts) eqn:Hinc.
  - destruct (fetchLayouts remote s) as [[response|e|] s0]; try discriminate.
    set (names := map FileMaker.layout_name _).
    pose proof (collectLayouts_invariant options names emptyCollected s0
                  (emptyCollected_invariant options)) as H.
    cbv zeta in H.
    destruct (collectLayouts remote options names emptyCollected s0) as [acc0 s2].
    intros Hrun. injection Hrun as <- _. apply H.
  - intros Hrun. injection Hrun as <- _. apply emptyCollected_invariant.
Qed.

(** The output of a successful export, in terms of what the layout phase
    collected. *)
Lemma exportDatabaseMetadata_output
    (input : ExportDatabaseMetadataInput) (s s' : Sys W)
    (out : ExportDatabaseMetadataOutput) :
  exportDatabaseMetadata remote input s = (inl out, s') ->
  exists acc s1,
    layoutsPhase remote (resolveOptions input) s = (inl acc, s1)
    /\ out.(data).(layouts) = acc.(col_layouts)
    /\ out.(data).(valueLists) =
         (if (resolveOptions input).(includeValueLists)
          then match acc.(col_valueListMap) with
               | [] => None
               | _ :: _ =>
                   Some (map (fun entry => mkValueListMetadata (fst entry) (snd entry))
                             acc.(col_valueListMap))
               end
          else None)
    /\ out.(data).(inferredRelationships) =
         (if (resolveOptions input).(includePortalAnalysis)
          then match acc.(col_inferredRelationships) with
               | [] => None
               | _ :: _ => Some acc.(col_inferredRelationships)
               end
          else None).
Proof.
  unfold exportDatabaseMetadata, bind.
  destruct (layoutsPhase remote (resolveOptions input) s) as [[acc|e] s1];
    [|discriminate].
  destruct (scriptsPhase remote (resolveOptions input) s1) as [[scripts|e] s2];
    [|discriminate].
  unfold buildOutput, getManager, ret, bind. intros Hrun.
  injection Hrun as <- _. exists acc, s1. simpl.
  split; [reflexivity|]. split; [reflexivity|]. split.
  - destruct (optionOrTrue _ opt_includeValueLists); [|reflexivity].
    now destruct acc.(col_valueListMap).
  - destruct (optionOrTrue _ opt_includePortalAnalysis); [|reflexivity].
    now destruct acc.(col_inferredRelationships).
Qed.

(** X13. Value lists are collected first-seen-wins: adding a layout keeps
    the values of every name already collected and takes, for a new name,
    the values of the layout's entry.  The [valueLists] of a successful
    export, when present, are not empty, were requested, and hold each
    name once. *)
Theorem exportDatabaseMetadata_value_lists :
  (forall options layoutName metadata acc entries key,
      options.(includeValueLists) = true ->
      metadata.(FileMaker.valueLists) = Some entries ->
      JsString.getProperty
        (addLayout options layoutName metadata acc).(col_valueListMap) key =
        match JsString.getProperty acc.(col_valueListMap) key with
        | Some values => Some values
        | None => JsString.getProperty entries key
        end)
  /\ (forall input s s' out,
        exportDatabaseMetadata remote input s = (inl out, s') ->
        match out.(data).(valueLists) with
        | Some lists =>
            (resolveOptions input).(includeValueLists) = true
            /\ lists <> []
            /\ NoDup (map vl_name lists)
        | None => True
        end).
Proof.
  split.
  - intros options layoutName metadata acc entries key Hinc Hlists.
    unfold addLayout. simpl. rewrite Hinc, Hlists.
    apply collectValueLists_lookup.
  - intros input s s' out Hrun.
    destruct (exportDatabaseMetadata_output input s s' out Hrun)
      as (acc & s1 & Hphase & _ & Hlists & _).
    destruct (layoutsPhase_invariant _ s s1 acc Hphase) as (Hnodup & _).
    rewrite Hlists.
    destruct (resolveOptions input).(includeValueLists); [|exact I].
    destruct acc.(col_valueListMap) as [|entry rest] eqn:Hmap; [exact I|].
    split; [reflexivity|]. split; [discriminate|].
    rewrite map_map. simpl. exact Hnodup.
Qed.



(** X15. Folders never reach the export: when the layout list was fetched,
    every exported layout is a non-folder entry of that list, and there are
    no more exported layouts than such entries. *)
Theorem exportDatabaseMetadata_skips_folders
    (input : ExportDatabaseMetadataInput) (s s0 s' : Sys W)
    (listing : ApiResponse FileMaker.FMLayoutsResponse)
    (out : ExportDatabaseMetadataOutput) :
  (resolveOptions input).(includeLayouts) = true ->
  fetchLayouts remote s = (Success listing, s0) ->
  exportDatabaseMetadata remote input s = (inl out, s') ->
  (forall layout, In layout out.(data).(layouts) ->
     exists entry,
       In entry listing.(Client.data).(FileMaker.layouts)
       /\ entry.(FileMaker.layout_name) = layout.(layout_name)
       /\ entry.(FileMaker.layout_isFolder) <> Some true)
  /\ (List.length out.(data).(layouts)
      <= List.length
           (filter (fun l => FileMaker.notFolder l.(FileMaker.layout_isFolder))
                   listing.(Client.data).(FileMaker.layouts)))%nat.
Proof.
  intros Hinc Hlist Hrun.
  destruct (exportDatabaseMetadata_output input s s' out Hrun)
    as (acc & s1 & Hphase & Hlayouts & _).
  rewrite Hlayouts.
  rewrite (MetadataAggregatorFacts.layoutsPhase_listed remote _ s s0 listing Hinc Hlist)
    in Hphase.
  set (names := map FileMaker.layout_name _) in Hphase.
  pose proof (collectLayouts_invariant (resolveOptions input) names emptyCollected s0
                (emptyCollected_invariant _)) as H.
  cbv zeta in H.
  destruct (collectLayouts remote (resolveOptions input) names emptyCollected s0)
    as [acc0 s2].
  injection Hphase as -> _. simpl in H. destruct H as (_ & Hincl & Hlen).
  split.
  - intros layout Hin.
    assert (Hname : In layout.(layout_name) names).
    { apply Hincl. now apply in_map. }
    unfold names in Hname. apply in_map_iff in Hname as (entry & Hentry & Hfilter).
    apply filter_In in Hfilter as (Hin' & Hnot).
    exists entry. split; [exact Hin'|]. split; [exact Hentry|].
    intros Hfolder. rewrite Hfolder in Hnot. discriminate.
  - unfold names in Hlen. rewrite length_map in Hlen. exact Hlen.
Qed.

End WithRemote2.

Lemma exportDatabaseMetadata_value_lists_witness :
  match fst (exportDatabaseMetadata Scenario.snapshotRemote
               (mkExportDatabaseMetadataInput Tools.json None)
               (Scenario.start Samples.listsDb Scenario.activeManager)) with
  | inl out =>
      out.(data).(valueLists)
        = Some [ mkValueListMetadata "Status" ["Open"; "Closed"];
                 mkValueListMetadata "Color" ["Red"];
                 mkValueListMetadata "Size" ["S"; "M"] ]
      /\ match out.(data).(valueLists) with
         | Some lists => NoDup (map vl_name lists)
         | None => False
         end
  | inr _ => False
  end.
Proof.
  destruct (exportDatabaseMetadata Scenario.snapshotRemote
              (mkExportDatabaseMetadataInput Tools.json None)
              (Scenario.start Samples.listsDb Scenario.activeManager))
    as [[out|e] s'] eqn:Hrun; [|vm_compute in Hrun; discriminate].
  pose proof (proj2 (exportDatabaseMetadata_value_lists Scenario.snapshotRemote)
                _ _ _ _ Hrun) as Hlists.
  simpl. vm_compute in Hrun. injection Hrun as <- _.
  split; [reflexivity|]. simpl in Hlists. simpl. apply Hlists.
Defined.


Lemma exportDatabaseMetadata_skips_folders_witness :
  match fst (exportDatabaseMetadata Scenario.snapshotRemote
               (mkExportDatabaseMetadataInput Tools.json None)
               (Scenario.start Samples.listsDb Scenario.activeManager)) with
  | inl out => (List.length out.(data).(layouts) <= 2)%nat
  | inr _ => False
  end.
Proof.
  destruct (exportDatabaseMetadata Scenario.snapshotRemote
              (mkExportDatabaseMetadataInput Tools.json None)
              (Scenario.start Samples.listsDb Scenario.activeManager))
    as [[out|e] s'] eqn:Hrun; [|vm_compute in Hrun; discriminate].
  simpl.
  exact (proj2 (exportDatabaseMetadata_skips_folders
                  Scenario.snapshotRemote
                  (mkExportDatabaseMetadataInput Tools.json None)
                  (Scenario.start Samples.listsDb Scenario.activeManager)
                  (mkSys Scenario.activeManager Samples.listsDb [GetLayouts "token-1"])
                  s'
                  (mkApiResponse 200
                     (FileMaker.mkFMLayoutsResponse
                        [ Scenario.layoutInfo "Tickets";
                          FileMaker.mkFMLayoutInfo "Old" (Some true);
                          Scenario.layoutInfo "Tasks" ]) [])
                  out eq_refl eq_refl Hrun)).
Defined.

Lemma exportDatabaseMetadata_requests_witness :
  trace (snd (exportDatabaseMetadata Scenario.snapshotRemote
                (mkExportDatabaseMetadataInput Tools.json None)
                (Scenario.start Scenario.salesDb Scenario.activeManager)))
    = [ GetLayouts "token-1";
        GetLayoutMetadata "Customers" "token-1"; GetLayoutMetadata "Broken" "token-1";
        GetLayoutMetadata "Invoices" "token-1"; GetLayoutMetadata "Payments" "token-1";
        GetLayoutMetadata "Products" "token-1";
        GetScripts "token-1" ].
Proof.
  exact (proj2 (exportDatabaseMetadata_requests Scenario.snapshotRemote
                  (mkExportDatabaseMetadataInput Tools.json None)
                  (Scenario.start Scenario.salesDb Scenario.activeManager)
                  _ _ eq_refl)).
Defined.

Lemma exportDatabaseMetadata_without_session_witness :
  exportDatabaseMetadata Scenario.snapshotRemote
    (mkExportDatabaseMetadataInput Tools.json None)
    (Scenario.start Scenario.salesDb emptyManager)
    = (inr noActiveSessionError, Scenario.start Scenario.salesDb emptyManager).
Proof.
  apply (proj1 (exportDatabaseMetadata_without_session Scenario.snapshotRemote
                  (mkExportDatabaseMetadataInput Tools.json None)
                  (Scenario.start Scenario.salesDb emptyManager) eq_refl)).
  now left.
Defined.

End MetadataAggregatorLaws.

(* ====================================================================== *)
(** * Facts about the string operations *)
(* ====================================================================== *)

Module StringLaws.

Lemma length_append (a b : string) :
  String.length (a ++ b) = (String.length a + String.length b)%nat.
Proof. induction a as [|c a IH]; simpl; [reflexivity|now rewrite IH]. Qed.

Lemma append_nil_r (a : string) : (a ++ "")%string = a.
Proof. induction a as [|c a IH]; simpl; [reflexivity|now rewrite IH]. Qed.

Lemma append_assoc (a b c : string) : ((a ++ b) ++ c)%string = (a ++ b ++ c)%string.
Proof. induction a as [|x a IH]; simpl; [reflexivity|now rewrite IH]. Qed.

Lemma length_zero (a : string) : String.length a = 0%nat -> a = "".
Proof. now destruct a. Qed.

Lemma substring_0_0 (s : string) : String.substring 0 0 s = "".
Proof. now destruct s. Qed.

(** A string is its first [n] characters followed by the rest. *)
Lemma substring_split (s : string) :
  forall n : nat,
    (n <= String.length s)%nat ->
    (String.substring 0 n s ++ String.substring n (String.length s - n) s)%string = s.
Proof.
  induction s as [|c s IH]; intros n Hn; simpl in Hn.
  - assert (n = 0%nat) as -> by lia. reflexivity.
  - destruct n as [|n]; simpl.
    + f_equal. specialize (IH 0%nat ltac:(lia)).
      rewrite substring_0_0 in IH. simpl in IH.
      now rewrite Nat.sub_0_r in IH.
    + f_equal. apply IH. lia.
Qed.

Lemma length_substring_le (s : string) :
  forall n m : nat, (String.length (String.substring n m s) <= m)%nat.
Proof.
  induction s as [|c s IH]; intros n m; simpl.
  - destruct n, m; simpl; lia.
  - destruct n as [|n].
    + destruct m as [|m]; simpl; [lia|]. specialize (IH 0%nat m). lia.
    + apply IH.
Qed.

Lemma length_substring (s : string) :
  forall n m : nat,
    (n + m <= String.length s)%nat ->
    String.length (String.substring n m s) = m.
Proof.
  induction s as [|c s IH]; intros n m H; simpl in H.
  - assert (n = 0%nat) as -> by lia. assert (m = 0%nat) as -> by lia. reflexivity.
  - destruct n as [|n]; simpl.
    + destruct m as [|m]; simpl; [reflexivity|]. f_equal. apply IH. simpl. lia.
    + apply IH. lia.
Qed.

Lemma toLowerCase_length (s : string) :
  String.length (JsString.toLowerCase s) = String.length s.
Proof. induction s as [|c s IH]; simpl; [reflexivity|now rewrite IH]. Qed.

Lemma prefix_length (p s : string) :
  String.prefix p s = true -> (String.length p <= String.length s)%nat.
Proof.
  revert s. induction p as [|c p IH]; intros s H; simpl; [lia|].
  destruct s as [|d s]; simpl in H; [discriminate|].
  destruct (Ascii.ascii_dec c d); [|discriminate].
  specialize (IH s H). simpl. lia.
Qed.

(** [s.startsWith(p)] holds exactly of the strings [p ++ rest], and then
    [s.substring(p.length)] is [rest]. *)
Lemma startsWith_split (s p : string) :
  JsString.startsWith s p = true ->
  s = (p ++ JsString.substringFrom s (String.length p))%string.
Proof.
  unfold JsString.startsWith, JsString.substringFrom. intros H.
  pose proof (prefix_length p s H) as Hlen.
  apply String.prefix_correct in H.
  rewrite <- (substring_split s (String.length p) Hlen) at 1.
  now rewrite H.
Qed.

(** [s.endsWith(suffix)] holds only of strings [rest ++ suffix], and then
    [s.substring(0, s.length - suffix.length)] is [rest]. *)
Lemma endsWith_split (s suffix : string) :
  JsString.endsWith s suffix = true ->
  s = (JsString.substringTo s (String.length s - String.length suffix) ++ suffix)%string.
Proof.
  unfold JsString.endsWith, JsString.substringTo. intros H.
  destruct (Nat.leb_spec (String.length suffix) (String.length s)) as [Hlen|_];
    [|discriminate].
  apply String.eqb_eq in H.
  rewrite <- (substring_split s (String.length s - String.length suffix)) at 1
    by lia.
  replace (String.length s - (String.length s - String.length suffix))%nat
    with (String.length suffix) by lia.
  now rewrite H.
Qed.

Lemma endsWith_append (a suffix : string) :
  JsString.endsWith (a ++ suffix) suffix = true.
Proof.
  unfold JsString.endsWith. rewrite length_append.
  destruct (Nat.leb_spec (String.length suffix)
                         (String.length a + String.length suffix)) as [_|H]; [|lia].
  replace (String.length a + String.length suffix - String.length suffix)%nat
    with (String.length a) by lia.
  apply String.eqb_eq.
  induction a as [|c a IH]; simpl.
  - clear. induction suffix as [|c s IH]; simpl; [reflexivity|now rewrite IH].
  - exact IH.
Qed.

End StringLaws.

(* ====================================================================== *)
(** * Further properties of the relationship inferrer *)
(* ====================================================================== *)

Module RelationshipInferrerLaws.
Import RelationshipInferrer StringLaws.

Lemma stripPrefix_split (prefixes : list string) (s : string) :
  exists p, In p ("" :: prefixes) /\ s = (p ++ stripPrefix prefixes s)%string.
Proof.
  induction prefixes as [|prefix rest IH]; simpl.
  - exists "". split; [now left|reflexivity].
  - destruct (JsString.startsWith s prefix) eqn:Hstarts.
    + exists prefix. split; [right; now left|]. now apply startsWith_split.
    + destruct IH as (p & [<-|Hin] & Hs).
      * exists "". split; [now left|exact Hs].
      * exists p. split; [right; now right|exact Hs].
Qed.

Lemma stripSuffix_split (suffixes : list string) (s : string) :
  exists sfx, In sfx ("" :: suffixes) /\ s = (stripSuffix suffixes s ++ sfx)%string.
Proof.
  induction suffixes as [|suffix rest IH]; simpl.
  - exists "". split; [now left|now rewrite append_nil_r].
  - destruct (JsString.endsWith s suffix) eqn:Hends.
    + exists suffix. split; [right; now left|]. now apply endsWith_split.
    + destruct IH as (sfx & [<-|Hin] & Hs).
      * exists "". split; [now left|exact Hs].
      * exists sfx. split; [right; now right|exact Hs].
Qed.

Lemma inferTableFromPortalName_split (portalName : string) :
  exists p sfx,
    In p [""; "portal_"; "Portal_"; "PORTAL_"; "rel_"; "Rel_"; "REL_"]
    /\ In sfx [""; "_portal"; "_Portal"; "_PORTAL"; "_rel"; "_Rel"; "_REL"]
    /\ portalName = (p ++ inferTableFromPortalName portalName ++ sfx)%string.
Proof.
  unfold inferTableFromPortalName.
  destruct (stripPrefix_split
              ["portal_"; "Portal_"; "PORTAL_"; "rel_"; "Rel_"; "REL_"] portalName)
    as (p & Hp & Hs1).
  destruct (stripSuffix_split
              ["_portal"; "_Portal"; "_PORTAL"; "_rel"; "_Rel"; "_REL"]
              (stripPrefix ["portal_"; "Portal_"; "PORTAL_"; "rel_"; "Rel_"; "REL_"]
                           portalName))
    as (sfx & Hsfx & Hs2).
  destruct (String.eqb _ "").
  - exists "", "". split; [now left|]. split; [now left|].
    simpl. now rewrite append_nil_r.
  - exists p, sfx. split; [exact Hp|]. split; [exact Hsfx|].
    now rewrite <- Hs2.
Qed.

(** X16. The table guessed from a portal name is the name with at most one
    of the six known prefixes and at most one of the six known suffixes
    taken off; when that would leave nothing, the name is kept whole, so a
    non-empty portal name never gives an empty guess. *)
Theorem inferTableFromPortalName_strips (portalName : string) :
  let table := inferTableFromPortalName portalName in
  (exists p sfx,
      In p [""; "portal_"; "Portal_"; "PORTAL_"; "rel_"; "Rel_"; "REL_"]
      /\ In sfx [""; "_portal"; "_Portal"; "_PORTAL"; "_rel"; "_Rel"; "_REL"]
      /\ portalName = (p ++ table ++ sfx)%string)
  /\ (portalName <> "" -> table <> "")
  /\ (String.length table <= String.length portalName)%nat.
Proof.
  cbv zeta. pose proof (inferTableFromPortalName_split portalName) as Hsplit.
  split; [exact Hsplit|]. split.
  - intros Hne. unfold inferTableFromPortalName.
    destruct (String.eqb_spec
                (stripSuffix ["_portal"; "_Portal"; "_PORTAL"; "_rel"; "_Rel"; "_REL"]
                   (stripPrefix ["portal_"; "Portal_"; "PORTAL_"; "rel_"; "Rel_"; "REL_"]
                                portalName)) "") as [_|Hne']; assumption.
  - destruct Hsplit as (p & sfx & _ & _ & Heq).
    rewrite Heq at 2. rewrite !length_append. lia.
Qed.

Lemma inferTableFromPortalName_strips_witness :
  inferTableFromPortalName "portal_" <> "".
Proof.
  apply (proj1 (proj2 (inferTableFromPortalName_strips "portal_"))). discriminate.
Defined.

Lemma inferForeignKeyFromField_fieldName
    (field : FileMaker.FMFieldMetaData) (fk : InferredForeignKey) :
  inferForeignKeyFromField field = Some fk ->
  fk.(fieldName) = field.(FileMaker.name).
Proof.
  unfold inferForeignKeyFromField. destruct (negb _ && negb _); [discriminate|].
  destruct (firstTable _ _); [|discriminate].
  intros H. now injection H as <-.
Qed.

(** The loop over the fields of a portal stops at the first field that
    looks like a foreign key. *)
Lemma firstForeignKeyField_found
    (before after : list FileMaker.FMFieldMetaData) (f : FileMaker.FMFieldMetaData) :
  Forall (fun g => inferForeignKeyFromField g = None) before ->
  inferForeignKeyFromField f <> None ->
  firstForeignKeyField (before ++ f :: after) = Some f.(FileMaker.name).
Proof.
  intros Hbefore Hf. induction Hbefore as [|g before Hg _ IH]; simpl.
  - destruct (inferForeignKeyFromField f) as [fk|] eqn:Hfk; [|contradiction].
    now rewrite (inferForeignKeyFromField_fieldName f fk Hfk).
  - now rewrite Hg.
Qed.

Lemma firstForeignKeyField_none (portalFields : list FileMaker.FMFieldMetaData) :
  firstForeignKeyField portalFields = None <->
  Forall (fun g => inferForeignKeyFromField g = None) portalFields.
Proof.
  induction portalFields as [|field rest IH]; simpl.
  - split; [constructor|reflexivity].
  - destruct (inferForeignKeyFromField field) as [fk|] eqn:Hfk.
    + split; [discriminate|]. intros H. inversion H; congruence.
    + rewrite IH. split.
      * intros H. now constructor.
      * intros H. now inversion H.
Qed.

Lemma firstForeignKeyField_some
    (portalFields : list FileMaker.FMFieldMetaData) (name : string) :
  firstForeignKeyField portalFields = Some name ->
  exists before f after,
    portalFields = before ++ f :: after
    /\ f.(FileMaker.name) = name
    /\ inferForeignKeyFromField f <> None
    /\ Forall (fun g => inferForeignKeyFromField g = None) before.
Proof.
  induction portalFields as [|field rest IH]; simpl; [discriminate|].
  destruct (inferForeignKeyFromField field) as [fk|] eqn:Hfk.
  - intros H. injection H as <-. exists [], field, rest.
    split; [reflexivity|].
    split; [symmetry; now apply inferForeignKeyFromField_fieldName|].
    split; [congruence|constructor].
  - intros H. destruct (IH H) as (before & f & after & -> & Hname & Hf & Hbefore).
    exists (field :: before), f, after.
    split; [reflexivity|]. split; [exact Hname|]. split; [exact Hf|].
    now constructor.
Qed.

(** X17. The confidence of a relationship inferred from a portal is never
    low, and it is high exactly when nothing was stripped from the portal
    name, that is when the target table is the portal name itself.  Its
    target field is the name of the first field of the portal that looks
    like a foreign key, whatever follows that field, and it has none
    exactly when no field of the portal looks like one. *)
Theorem inferRelationshipFromPortal_confidence
    (sourceLayout portalName : string)
    (portalFields : list FileMaker.FMFieldMetaData) :
  let r := inferRelationshipFromPortal sourceLayout portalName portalFields in
  r.(confidence) <> Tools.low
  /\ (r.(confidence) = Tools.high <-> r.(targetTable) = portalName)
  /\ (forall name,
        r.(targetField) = Some name <->
        exists before f after,
          portalFields = before ++ f :: after
          /\ f.(FileMaker.name) = name
          /\ inferForeignKeyFromField f <> None
          /\ Forall (fun g => inferForeignKeyFromField g = None) before)
  /\ (r.(targetField) = None <->
      Forall (fun g => inferForeignKeyFromField g = None) portalFields).
Proof.
  cbv zeta. unfold inferRelationshipFromPortal.
  cbn [confidence targetTable targetField].
  split; [now destruct (String.eqb _ _)|]. split; [|split].
  - destruct (String.eqb_spec (JsString.toLowerCase (inferTableFromPortalName portalName))
                              (JsString.toLowerCase portalName)) as [Heq|Hne].
    + split; [|reflexivity]. intros _.
      apply (f_equal String.length) in Heq. rewrite !toLowerCase_length in Heq.
      destruct (inferTableFromPortalName_split portalName)
        as (p & sfx & _ & _ & Hsplit).
      apply (f_equal String.length) in Hsplit as Hlen.
      rewrite !length_append in Hlen.
      assert (Hp : p = "") by (apply length_zero; lia).
      assert (Hs : sfx = "") by (apply length_zero; lia).
      rewrite Hp, Hs in Hsplit. simpl in Hsplit.
      now rewrite append_nil_r in Hsplit.
    + split; [discriminate|]. intros Heq. now rewrite Heq in Hne.
  - intros name. split; [apply firstForeignKeyField_some|].
    intros (before & f & after & -> & <- & Hf & Hbefore).
    now apply firstForeignKeyField_found.
  - apply firstForeignKeyField_none.
Qed.

Lemma inferRelationshipFromPortal_confidence_witness :
  (inferRelationshipFromPortal "Customers" "Orders"
     [ Scenario.field "Amount" "number"; Scenario.field "Customer_ID" "number";
       Scenario.field "fk_Item" "text" ]).(targetField) = Some "Customer_ID"
  /\ (inferRelationshipFromPortal "Customers" "Orders" []).(confidence) = Tools.high.
Proof.
  split.
  - apply (proj1 (proj2 (proj2
             (inferRelationshipFromPortal_confidence "Customers" "Orders"
                [ Scenario.field "Amount" "number";
                  Scenario.field "Customer_ID" "number";
                  Scenario.field "fk_Item" "text" ])))).
    exists [Scenario.field "Amount" "number"],
           (Scenario.field "Customer_ID" "number"),
           [Scenario.field "fk_Item" "text"].
    split; [reflexivity|]. split; [reflexivity|].
    split; [discriminate|]. now repeat constructor.
  - apply (proj1 (proj2
             (inferRelationshipFromPortal_confidence "Customers" "Orders" []))).
    reflexivity.
Defined.

Lemma matchesClasses_length (classes : list (ascii -> bool)) :
  forall s : string,
    matchesClasses classes s = true -> String.length s = List.length classes.
Proof.
  induction classes as [|cls rest IH]; intros [|c s] H; simpl in *;
    try discriminate; [reflexivity|].
  apply andb_true_iff in H as (_ & H). now rewrite (IH s H).
Qed.

Lemma dotPlus_nonempty (s : string) : dotPlus s = true -> s <> "".
Proof.
  unfold dotPlus. intros H. apply andb_true_iff in H as (H & _).
  destruct (String.eqb_spec s ""); [discriminate|assumption].
Qed.

Lemma splitLast_split (s : string) (k : nat) :
  (fst (splitLast s k) ++ snd (splitLast s k))%string = s
  \/ fst (splitLast s k) = "".
Proof.
  unfold splitLast. simpl.
  destruct (Nat.le_gt_cases k (String.length s)) as [Hle|Hgt].
  - left.
    pose proof (substring_split s (String.length s - k)) as H.
    replace (String.length s - (String.length s - k))%nat with k in H by lia.
    apply H. lia.
  - right. replace (String.length s - k)%nat with 0%nat by lia.
    apply substring_0_0.
Qed.

(** A suffix pattern that matches takes a tail of the given width off the
    name. *)
Lemma suffix_pattern_split
    (classes : list (ascii -> bool)) (fieldName table tail : string) (k : nat) :
  List.length classes = k ->
  splitLast fieldName k = (table, tail) ->
  matchesClasses classes tail = true ->
  dotPlus table = true ->
  fieldName = (table ++ tail)%string /\ String.length tail = k.
Proof.
  intros Hk Hsplit Hclasses Hdot.
  split; [|rewrite (matchesClasses_length _ _ Hclasses); exact Hk].
  destruct (splitLast_split fieldName k) as [H|H]; rewrite Hsplit in H; simpl in H.
  - now symmetry.
  - apply dotPlus_nonempty in Hdot. contradiction.
Qed.

(** A prefix pattern that matches takes three characters off the front. *)
Lemma prefix_pattern_split
    (classes : list (ascii -> bool)) (fieldName : string) :
  List.length classes = 3%nat ->
  matchesClasses classes (JsString.substringTo fieldName 3) = true ->
  dotPlus (JsString.substringFrom fieldName 3) = true ->
  exists pre,
    fieldName = (pre ++ JsString.substringFrom fieldName 3)%string
    /\ String.length pre = 3%nat.
Proof.
  intros Hthree Hclasses Hdot.
  exists (JsString.substringTo fieldName 3).
  split; [|rewrite (matchesClasses_length _ _ Hclasses); exact Hthree].
  unfold JsString.substringTo, JsString.substringFrom in *.
  destruct (Nat.le_gt_cases 3 (String.length fieldName)) as [Hle|Hgt].
  - symmetry. now apply substring_split.
  - apply dotPlus_nonempty in Hdot. exfalso. apply Hdot.
    apply length_zero.
    pose proof (length_substring_le fieldName 3 (String.length fieldName - 3)).
    lia.
Qed.

Lemma pattern_split (pattern : string -> option string) (fieldName table : string) :
  In pattern FOREIGN_KEY_PATTERNS ->
  pattern fieldName = Some table ->
  exists pre post,
    fieldName = (pre ++ table ++ post)%string
    /\ (2 <= String.length pre + String.length post <= 3)%nat
    /\ (pre = "" \/ post = "").
Proof.
  intros Hin Hmatch. simpl in Hin.
  destruct Hin as [<-|[<-|[<-|[<-|[]]]]].
  - unfold matchUnderscoreIdSuffix in Hmatch.
    destruct (splitLast fieldName 3) as [t tail] eqn:Hsplit.
    destruct (matchesClasses _ tail && dotPlus t) eqn:H; [|discriminate].
    apply andb_true_iff in H as (Hc & Hd).
    injection Hmatch as <-.
    destruct (suffix_pattern_split [isChar "_"; isIi; isDd] _ _ _ 3%nat eq_refl Hsplit Hc Hd) as (Heq & Hlen).
    exists "", tail. simpl. split; [exact Heq|split; [lia|now left]].
  - unfold matchIdSuffix in Hmatch.
    destruct (splitLast fieldName 3) as [t3 tail3] eqn:Hsplit3.
    destruct (matchesClasses _ tail3 && dotPlus t3) eqn:H3.
    + injection Hmatch as <-. apply andb_true_iff in H3 as (Hc & Hd).
      destruct (suffix_pattern_split [isUpper; isIi; isDd] _ _ _ 3%nat eq_refl Hsplit3 Hc Hd) as (Heq & Hlen).
      exists "", tail3. simpl. split; [exact Heq|split; [lia|now left]].
    + destruct (splitLast fieldName 2) as [t2 tail2] eqn:Hsplit2.
      destruct (matchesClasses _ tail2 && dotPlus t2) eqn:H2; [|discriminate].
      apply andb_true_iff in H2 as (Hc & Hd).
      injection Hmatch as <-.
      destruct (suffix_pattern_split [isIi; isDd] _ _ _ 2%nat eq_refl Hsplit2 Hc Hd) as (Heq & Hlen).
      exists "", tail2. simpl. split; [exact Heq|split; [lia|now left]].
  - unfold matchFkPrefix in Hmatch.
    destruct (matchesClasses _ _ && dotPlus _) eqn:H; [|discriminate].
    apply andb_true_iff in H as (Hc & Hd).
    injection Hmatch as <-.
    destruct (prefix_pattern_split [isFf; isKk; isChar "_"] fieldName eq_refl Hc Hd)
      as (pre & Heq & Hlen).
    exists pre, "". rewrite append_nil_r. split; [exact Heq|split; [simpl; lia|now right]].
  - unfold matchIdPrefix in Hmatch.
    destruct (matchesClasses _ _ && dotPlus _) eqn:H; [|discriminate].
    apply andb_true_iff in H as (Hc & Hd).
    injection Hmatch as <-.
    destruct (prefix_pattern_split [isIi; isDd; isChar "_"] fieldName eq_refl Hc Hd)
      as (pre & Heq & Hlen).
    exists pre, "". rewrite append_nil_r. split; [exact Heq|split; [simpl; lia|now right]].
Qed.

Lemma firstTable_pattern (patterns : list (string -> option string))
    (fieldName table : string) :
  firstTable patterns fieldName = Some table ->
  table <> "" /\ exists pattern, In pattern patterns /\ pattern fieldName = Some table.
Proof.
  induction patterns as [|pattern rest IH]; simpl; [discriminate|].
  destruct (pattern fieldName) as [t|] eqn:Hp.
  - destruct (String.eqb_spec t "") as [->|Hne]; simpl.
    + intros H. destruct (IH H) as (Hne & p & Hin & Hm).
      split; [exact Hne|]. exists p. split; [now right|exact Hm].
    + intros H. injection H as <-. split; [exact Hne|].
      exists pattern. split; [now left|exact Hp].
  - intros H. destruct (IH H) as (Hne & p & Hin & Hm).
    split; [exact Hne|]. exists p. split; [now right|exact Hm].
Qed.

(** X18. Whatever [inferForeignKeyFromField] reports is grounded in the
    field: the field is a text or number field, the reported field name is
    its name, and the guessed table is a non-empty part of the name, left
    when two or three characters (the [id] marker) are taken off one end,
    the front or the back.
    The confidence is never low, and it is high exactly for a number field
    whose name ends in [_id] in any letter case. *)
Theorem inferForeignKeyFromField_sound
    (field : FileMaker.FMFieldMetaData) (fk : InferredForeignKey) :
  inferForeignKeyFromField field = Some fk ->
  fk.(fieldName) = field.(FileMaker.name)
  /\ (field.(FileMaker.result) = "number" \/ field.(FileMaker.result) = "text")
  /\ fk.(inferredReferencedTable) <> ""
  /\ (exists pre post,
        field.(FileMaker.name) = (pre ++ fk.(inferredReferencedTable) ++ post)%string
        /\ (2 <= String.length pre + String.length post <= 3)%nat
        /\ (pre = "" \/ post = ""))
  /\ fk.(fk_confidence) <> Tools.low
  /\ (fk.(fk_confidence) = Tools.high <->
      field.(FileMaker.result) = "number"
      /\ JsString.endsWith (JsString.toLowerCase field.(FileMaker.name)) "_id" = true).
Proof.
  unfold inferForeignKeyFromField. intros H.
  destruct (firstTable FOREIGN_KEY_PATTERNS field.(FileMaker.name))
    as [table|] eqn:Hft; [|now destruct (negb _ && negb _)].
  destruct (firstTable_pattern _ _ _ Hft) as (Hne & pattern & Hin & Hmatch).
  pose proof (pattern_split pattern _ _ Hin Hmatch) as Hsplit.
  destruct (String.eqb_spec field.(FileMaker.result) "number") as [Hnum|Hnum];
    destruct (String.eqb_spec field.(FileMaker.result) "text") as [Htext|Htext];
    cbn [negb andb] in H; try discriminate; injection H as <-;
    cbn [fieldName inferredReferencedTable fk_confidence];
    (split; [reflexivity|]); (split; [tauto|]); (split; [exact Hne|]);
    (split; [exact Hsplit|]).
  - rewrite Htext in Hnum. discriminate.
  - rewrite andb_true_r.
    destruct (JsString.endsWith _ "_id"); (split; [discriminate|]);
      split; try tauto; try discriminate.
    intros (_ & Hends). discriminate.
  - rewrite andb_false_r. split; [discriminate|].
    split; [discriminate|]. intros (Hnumber & _). contradiction.
Qed.

Lemma inferForeignKeyFromField_sound_witness :
  exists pre post,
    ("fk_Customer" = pre ++ "Customer" ++ post)%string
    /\ (2 <= String.length pre + String.length post <= 3)%nat
    /\ (pre = "" \/ post = "").
Proof.
  apply (proj1 (proj2 (proj2 (proj2
           (inferForeignKeyFromField_sound
              (Scenario.field "fk_Customer" "text")
              (mkInferredForeignKey "fk_Customer" "Customer" Tools.medium
                 "フィールド名「fk_Customer」が外部キーパターンに一致")
              eq_refl))))).
Defined.

#[warnings="-notation-for-abbreviation"]
Local Notation foreignKeysOf fields :=
  (flat_map (fun field => match inferForeignKeyFromField field with
                          | Some fkInference => [fkInference]
                          | None => []
                          end) fields).

Lemma inferForeignKeyFromField_confidence
    (field : FileMaker.FMFieldMetaData) (fk : InferredForeignKey) :
  inferForeignKeyFromField field = Some fk -> fk.(fk_confidence) <> Tools.low.
Proof.
  unfold inferForeignKeyFromField.
  destruct (negb _ && negb _); [discriminate|].
  destruct (firstTable _ _); [|discriminate].
  intros H. injection H as <-. simpl. now destruct (_ && _).
Qed.

Lemma foreignKeysOf_confidence (fields : list FileMaker.FMFieldMetaData) :
  Forall (fun fk => fk.(fk_confidence) <> Tools.low) (foreignKeysOf fields).
Proof.
  apply Forall_forall. intros fk Hin. apply in_flat_map in Hin as (f & _ & Hin).
  destruct (inferForeignKeyFromField f) as [fk'|] eqn:Hfk; [|destruct Hin].
  destruct Hin as [<-|[]]. now apply (inferForeignKeyFromField_confidence f).
Qed.

(** The loop over the fields appends one foreign key per field that looks
    like one, and at most one relationship per such key. *)
Lemma scanFields_shape (layout : string) (fields : list FileMaker.FMFieldMetaData) :
  forall rels0 fks0,
    snd (scanFields layout fields rels0 fks0) = fks0 ++ foreignKeysOf fields
    /\ exists added,
         fst (scanFields layout fields rels0 fks0) = rels0 ++ added
         /\ (List.length added <= List.length (foreignKeysOf fields))%nat
         /\ Forall (fun r => exists fk,
                        In fk (foreignKeysOf fields)
                        /\ r = relationshipFromForeignKey layout fk) added.
Proof.
  induction fields as [|field rest IH]; intros rels0 fks0; simpl.
  - rewrite app_nil_r. split; [reflexivity|]. exists [].
    rewrite app_nil_r. repeat split; [simpl; lia|constructor].
  - destruct (inferForeignKeyFromField field) as [fk0|] eqn:Hfk.
    + destruct (existingRelationship rels0 fk0).
      * destruct (IH rels0 (fks0 ++ [fk0])) as (Hfks & added & Hrels & Hlen & Hall).
        split; [now rewrite Hfks, <- app_assoc|].
        exists added. split; [exact Hrels|]. split; [simpl; lia|].
        eapply Forall_impl; [|exact Hall].
        intros r (fk & Hin & Hr). exists fk. split; [now right|exact Hr].
      * destruct (IH (rels0 ++ [relationshipFromForeignKey layout fk0]) (fks0 ++ [fk0]))
          as (Hfks & added & Hrels & Hlen & Hall).
        split; [now rewrite Hfks, <- app_assoc|].
        exists (relationshipFromForeignKey layout fk0 :: added).
        split; [now rewrite Hrels, <- app_assoc|]. split; [simpl; lia|].
        constructor.
        -- exists fk0. split; [now left|reflexivity].
        -- eapply Forall_impl; [|exact Hall].
           intros r (fk & Hin & Hr). exists fk. split; [now right|exact Hr].
    + simpl. exact (IH rels0 fks0).
Qed.

(** Counting the confidence levels of a list none of whose entries is low
    adds its length to high plus medium and leaves low as it was. *)
Lemma countConfidence_fold {A : Type} (conf : A -> Tools.ConfidenceLevel) (l : list A) :
  forall b : ConfidenceBreakdown,
    Forall (fun x => conf x <> Tools.low) l ->
    (fold_left (fun b x => countConfidence (conf x) b) l b).(count_low) = b.(count_low)
    /\ ((fold_left (fun b x => countConfidence (conf x) b) l b).(count_high)
        + (fold_left (fun b x => countConfidence (conf x) b) l b).(count_medium)
        = b.(count_high) + b.(count_medium) + List.length l)%nat.
Proof.
  induction l as [|x l IH]; intros b Hall; simpl.
  - split; [reflexivity|lia].
  - inversion Hall as [|? ? Hx Hl]; subst.
    destruct (IH (countConfidence (conf x) b) Hl) as (Hlow & Hsum).
    rewrite Hlow, Hsum. destruct (conf x); simpl; [split; [reflexivity|lia]..|].
    contradiction.
Qed.

(** X19. On success [inferRelationships] reports one foreign key for each
    field that looks like one, in field order, and its relationships are
    those of the portals, one per portal in the portals' order, followed by
    at most one relationship per reported foreign key, each made from such
    a key. *)
Theorem inferRelationships_shape
    {W : Type} (remote : Client.Remote W) (input : InferRelationshipsInput)
    (s s' : Session.Sys W)
    (response : Client.ApiResponse FileMaker.FMLayoutMetadataResponse) :
  Session.fetchLayoutMetadata remote input.(in_layout) s
    = (Client.Success response, s') ->
  exists out added,
    inferRelationships remote input s = (inl out, s')
    /\ out.(out_layout) = input.(in_layout)
    /\ out.(inferredForeignKeys) =
         foreignKeysOf response.(Client.data).(FileMaker.fieldMetaData)
    /\ out.(inferredRelationships) =
         relationshipsFromPortals input.(in_layout)
           response.(Client.data).(FileMaker.portalMetaData) ++ added
    /\ (List.length added <= List.length out.(inferredForeignKeys))%nat
    /\ Forall (fun r => exists fk,
                   In fk out.(inferredForeignKeys)
                   /\ r = relationshipFromForeignKey input.(in_layout) fk) added.
Proof.
  intros Hfetch. unfold inferRelationships, Session.bind. rewrite Hfetch.
  unfold inferFromMetadata.
  destruct (scanFields_shape input.(in_layout)
              response.(Client.data).(FileMaker.fieldMetaData)
              (relationshipsFromPortals input.(in_layout)
                 response.(Client.data).(FileMaker.portalMetaData)) [])
    as (Hfks & added & Hrels & Hlen & Hall).
  destruct (scanFields _ _ _ _) as [rels fks]. simpl in Hfks, Hrels. subst rels fks.
  eexists. exists added. split; [reflexivity|]. simpl.
  repeat split; assumption.
Qed.

(** X20. In the summary of a successful [inferRelationships] the total is
    the number of relationships plus the number of foreign keys, no entry
    is counted as low confidence, and the high and medium counts add up to
    the total. *)
Theorem inferRelationships_summary
    {W : Type} (remote : Client.Remote W) (input : InferRelationshipsInput)
    (s s' : Session.Sys W) (out : InferRelationshipsOutput) :
  inferRelationships remote input s = (inl out, s') ->
  out.(totalInferred) =
    (List.length out.(inferredRelationships)
     + List.length out.(inferredForeignKeys))%nat
  /\ out.(confidenceBreakdown).(count_low) = 0%nat
  /\ (out.(confidenceBreakdown).(count_high)
      + out.(confidenceBreakdown).(count_medium))%nat = out.(totalInferred).
Proof.
  unfold inferRelationships, Session.bind.
  destruct (Session.fetchLayoutMetadata remote input.(in_layout) s)
    as [[response|e|] s1]; simpl; try discriminate.
  unfold inferFromMetadata.
  destruct (scanFields_shape input.(in_layout)
              response.(Client.data).(FileMaker.fieldMetaData)
              (relationshipsFromPortals input.(in_layout)
                 response.(Client.data).(FileMaker.portalMetaData)) [])
    as (Hfks & added & Hrels & Hlen & Hall).
  destruct (scanFields _ _ _ _) as [rels fks]. simpl in Hfks, Hrels.
  intros H. injection H as <- <-. simpl.
  split; [reflexivity|].
  assert (HrelsOk : Forall (fun r => r.(confidence) <> Tools.low) rels).
  { rewrite Hrels. apply Forall_app. split.
    - unfold relationshipsFromPortals.
      destruct (FileMaker.portalMetaData _) as [portals|]; [|constructor].
      apply Forall_forall. intros r Hin. apply in_map_iff in Hin as (entry & <- & _).
      unfold inferRelationshipFromPortal. simpl. now destruct (String.eqb _ _).
    - eapply Forall_impl; [|exact Hall].
      intros r (fk & Hin & ->). simpl.
      pose proof (foreignKeysOf_confidence
                    response.(Client.data).(FileMaker.fieldMetaData)) as Hconf.
      rewrite Forall_forall in Hconf. now apply Hconf. }
  assert (HfksOk : Forall (fun fk => fk.(fk_confidence) <> Tools.low) fks).
  { rewrite Hfks. apply foreignKeysOf_confidence. }
  unfold buildBreakdown.
  destruct (countConfidence_fold confidence rels (mkConfidenceBreakdown 0 0 0) HrelsOk)
    as (Hlow1 & Hsum1).
  destruct (countConfidence_fold fk_confidence fks
              (fold_left (fun b rel => countConfidence rel.(confidence) b) rels
                 (mkConfidenceBreakdown 0 0 0)) HfksOk)
    as (Hlow2 & Hsum2).
  split; [now rewrite Hlow2, Hlow1|].
  rewrite Hsum2, Hsum1. simpl. lia.
Qed.

Lemma inferRelationships_shape_witness :
  exists out added,
    inferRelationships Scenario.snapshotRemote
      (mkInferRelationshipsInput "Customers" None)
      (Scenario.start Scenario.salesDb Scenario.activeManager)
    = (inl out,
       snd (Session.fetchLayoutMetadata Scenario.snapshotRemote "Customers"
              (Scenario.start Scenario.salesDb Scenario.activeManager)))
    /\ map fieldName out.(inferredForeignKeys) = ["Order_ID"]
    /\ map targetTable out.(inferredRelationships) = ["Orders"] ++ map targetTable added
    /\ (List.length added <= 1)%nat.
Proof.
  destruct (inferRelationships_shape Scenario.snapshotRemote
              (mkInferRelationshipsInput "Customers" None)
              (Scenario.start Scenario.salesDb Scenario.activeManager)
              (snd (Session.fetchLayoutMetadata Scenario.snapshotRemote "Customers"
                      (Scenario.start Scenario.salesDb Scenario.activeManager)))
              (Client.mkApiResponse 200 Scenario.customersMetadata [])
              eq_refl)
    as (out & added & Hrun & _ & Hfks & Hrels & Hlen & _).
  exists out, added. split; [exact Hrun|].
  rewrite Hfks in *. rewrite Hrels.
  split; [reflexivity|]. split; [now rewrite map_app|exact Hlen].
Defined.

Lemma inferRelationships_summary_witness :
  exists out s',
    inferRelationships Scenario.snapshotRemote
      (mkInferRelationshipsInput "Customers" None)
      (Scenario.start Scenario.salesDb Scenario.activeManager) = (inl out, s')
    /\ out.(totalInferred) = 3%nat
    /\ out.(confidenceBreakdown).(count_low) = 0%nat
    /\ (out.(confidenceBreakdown).(count_high)
        + out.(confidenceBreakdown).(count_medium))%nat = out.(totalInferred).
Proof.
  destruct (inferRelationships Scenario.snapshotRemote
              (mkInferRelationshipsInput "Customers" None)
              (Scenario.start Scenario.salesDb Scenario.activeManager))
    as [[out|e] s'] eqn:Hrun; [|vm_compute in Hrun; discriminate].
  exists out, s'. split; [reflexivity|].
  destruct (inferRelationships_summary _ _ _ _ _ Hrun) as (Htotal & Hlow & Hsum).
  split; [|split; assumption].
  vm_compute in Hrun. injection Hrun as <- _. reflexivity.
Defined.

End RelationshipInferrerLaws.

(* ====================================================================== *)
(** * Properties of the portal analyzer *)
(* ====================================================================== *)

Module PortalAnalyzerLaws.
Import Client Session PortalAnalyzer.

Lemma arrayIncludes_In (xs : list string) (x : string) :
  JsString.arrayIncludes xs x = true <-> In x xs.
Proof.
  unfold JsString.arrayIncludes. rewrite existsb_exists. split.
  - intros (y & Hin & Heq). apply String.eqb_eq in Heq. now subst.
  - intros Hin. exists x. split; [exact Hin|apply String.eqb_refl].
Qed.

Lemma setAdd_spec (set : list string) (x : string) :
  NoDup set ->
  NoDup (setAdd set x) /\ forall t, In t (setAdd set x) <-> In t set \/ t = x.
Proof.
  intros Hset. unfold setAdd.
  destruct (JsString.arrayIncludes set x) eqn:Hin.
  - apply arrayIncludes_In in Hin. split; [exact Hset|].
    intros t. split; [now left|]. intros [H| ->]; assumption.
  - assert (Hnot : ~ In x set).
    { intros H. apply arrayIncludes_In in H. congruence. }
    split.
    + apply NoDup_app; [exact Hset|repeat constructor; intros []|].
      intros t Ht [<-|[]]. contradiction.
    + intros t. rewrite in_app_iff. simpl. intuition congruence.
Qed.

Lemma setAdd_fold {A : Type} (f : A -> string) (l : list A) :
  forall set : list string,
    NoDup set ->
    NoDup (fold_left (fun set entry => setAdd set (f entry)) l set)
    /\ forall t,
         In t (fold_left (fun set entry => setAdd set (f entry)) l set)
         <-> In t set \/ In t (map f l).
Proof.
  induction l as [|a l IH]; intros set Hset; simpl.
  - split; [exact Hset|]. intros t. tauto.
  - destruct (setAdd_spec set (f a) Hset) as (Hnodup & Hin).
    destruct (IH _ Hnodup) as (Hnodup' & Hin').
    split; [exact Hnodup'|]. intros t. rewrite Hin', Hin.
    intuition congruence.
Qed.

Lemma isDataKey_spec (key : string) :
  isDataKey key = true <->
  key <> "recordId" /\ key <> "modId" /\ key <> "__proto__".
Proof.
  unfold isDataKey. rewrite !andb_true_iff, !negb_true_iff.
  destruct (String.eqb_spec key "recordId"), (String.eqb_spec key "modId"),
           (String.eqb_spec key "__proto__");
    intuition congruence.
Qed.

Lemma index_below (sampleCount : Q) (i : nat) :
  Qle_bool sampleCount (inject_Z (Z.of_nat i)) = false <->
  (inject_Z (Z.of_nat i) < sampleCount)%Q.
Proof.
  split.
  - intros H. apply Qnot_le_lt. intros Hle.
    apply Qle_bool_iff in Hle. congruence.
  - intros Hlt. destruct (Qle_bool sampleCount (inject_Z (Z.of_nat i))) eqn:H;
      [|reflexivity].
    apply Qle_bool_iff in H. exfalso. exact (Qlt_not_le _ _ Hlt H).
Qed.

Lemma index_below_mono (sampleCount : Q) (i j : nat) :
  (i <= j)%nat ->
  (inject_Z (Z.of_nat j) < sampleCount)%Q ->
  (inject_Z (Z.of_nat i) < sampleCount)%Q.
Proof.
  intros Hij Hj. eapply Qle_lt_trans; [|exact Hj].
  rewrite <- Zle_Qle. lia.
Qed.

Section Values.
Context {V : Type}.

(** The loop of [extractSampleData] yields a sample at position [k]
    exactly when the index it has reached there is below the count and a
    record is left for it. *)
Lemma sampleLoop_nth (sampleCount : Q) (rest : list (@PortalRecord V)) :
  forall (i k : nat) (sample : PortalRecord),
    nth_error (sampleLoop i sampleCount rest) k = Some sample <->
    (inject_Z (Z.of_nat (i + k)) < sampleCount)%Q
    /\ exists record, nth_error rest k = Some record /\ sample = sampleRecord record.
Proof.
  induction rest as [|record rest IH]; intros i k sample; simpl.
  - split.
    + destruct k; discriminate.
    + intros (_ & r & Hr & _). destruct k; discriminate.
  - destruct (Qle_bool sampleCount (inject_Z (Z.of_nat i))) eqn:Hstop.
    + split.
      * destruct k; discriminate.
      * intros (Hlt & _). exfalso.
        apply (index_below_mono sampleCount i (i + k)) in Hlt; [|lia].
        apply index_below in Hlt. congruence.
    + apply index_below in Hstop. destruct k as [|k]; simpl.
      * rewrite Nat.add_0_r. split.
        -- intros H. injection H as <-. split; [exact Hstop|].
           now exists record.
        -- intros (_ & r & Hr & ->). now injection Hr as <-.
      * rewrite IH. now replace (S i + k)%nat with (i + S k)%nat by lia.
Qed.

Lemma extractSampleData_nth
    (portalRecords : list (@PortalRecord V)) (limit : Q)
    (i : nat) (sample : PortalRecord) :
  nth_error (extractSampleData portalRecords limit) i = Some sample <->
  (inject_Z (Z.of_nat i) < limit)%Q
  /\ exists record, nth_error portalRecords i = Some record
                    /\ sample = sampleRecord record.
Proof.
  unfold extractSampleData. rewrite sampleLoop_nth. simpl.
  rewrite Q.min_glb_lt_iff. split.
  - intros ((Hlimit & _) & Hrecord). now split.
  - intros (Hlimit & record & Hnth & Hsample).
    split; [|now exists record]. split; [exact Hlimit|].
    rewrite <- Zlt_Qlt. apply Nat2Z.inj_lt.
    apply nth_error_Some. congruence.
Qed.

Lemma extractSampleData_index
    (portalRecords : list (@PortalRecord V)) (limit : Q) (i : nat) :
  (i < List.length (extractSampleData portalRecords limit))%nat <->
  (inject_Z (Z.of_nat i) < limit)%Q /\ (i < List.length portalRecords)%nat.
Proof.
  rewrite <- !nth_error_Some. split.
  - intros H.
    destruct (nth_error (extractSampleData portalRecords limit) i)
      as [sample|] eqn:Hnth; [|contradiction].
    apply extractSampleData_nth in Hnth as (Hlimit & record & Hrecord & _).
    split; [exact Hlimit|congruence].
  - intros (Hlimit & Hrecord).
    destruct (nth_error portalRecords i) as [record|] eqn:Hnth; [|contradiction].
    assert (H : nth_error (extractSampleData portalRecords limit) i
                = Some (sampleRecord record)).
    { apply extractSampleData_nth. split; [exact Hlimit|]. now exists record. }
    congruence.
Qed.

(** X22. The samples of a portal are taken from its first rows, one sample
    per row and in the rows' order: row [i] is sampled exactly when [i] is
    below the limit, so a fractional limit is rounded up and a limit of
    zero or less gives no sample.  Each sample holds exactly the entries of
    its row whose key is not [recordId], [modId] or [__proto__]. *)
Theorem extractSampleData_samples
    (portalRecords : list (@PortalRecord V)) (limit : Q) :
  let samples := extractSampleData portalRecords limit in
  (forall i : nat,
      (i < List.length samples)%nat <->
      (inject_Z (Z.of_nat i) < limit)%Q /\ (i < List.length portalRecords)%nat)
  /\ forall (i : nat) (sample : PortalRecord),
       nth_error samples i = Some sample ->
       exists record,
         nth_error portalRecords i = Some record
         /\ forall (key : string) (value : V),
              In (key, value) sample <->
              In (key, value) record
              /\ key <> "recordId" /\ key <> "modId" /\ key <> "__proto__".
Proof.
  cbv zeta. split; [apply extractSampleData_index|].
  intros i sample Hnth.
  apply extractSampleData_nth in Hnth as (_ & record & Hrecord & ->).
  exists record. split; [exact Hrecord|].
  intros key value. unfold sampleRecord. rewrite filter_In. simpl.
  now rewrite isDataKey_spec.
Qed.

Lemma extractSampleData_length
    (portalRecords : list (@PortalRecord V)) (limit : Q) (bound : Z) :
  0 <= bound ->
  (limit <= inject_Z bound)%Q ->
  Z.of_nat (List.length (extractSampleData portalRecords limit)) <= bound
  /\ (List.length (extractSampleData portalRecords limit)
      <= List.length portalRecords)%nat.
Proof.
  intros Hbound Hlimit.
  destruct (List.length (extractSampleData portalRecords limit)) as [|n] eqn:Hlen;
    [split; [exact Hbound|lia]|].
  assert (Hlast : (n < List.length (extractSampleData portalRecords limit))%nat)
    by lia.
  apply extractSampleData_index in Hlast as (Hbelow & Hrecord).
  split; [|lia].
  assert (Hn : (inject_Z (Z.of_nat n) < inject_Z bound)%Q)
    by (eapply Qlt_le_trans; eassumption).
  rewrite <- Zlt_Qlt in Hn. lia.
Qed.

#[warnings="-notation-for-abbreviation"]
Local Notation sampled input :=
  (fun portal : @PortalAnalysis V =>
     match portal.(sampleData) with
     | Some samples =>
         input.(in_includeSampleData) = Some true
         /\ Z.of_nat (List.length samples) <= MAX_SAMPLE_LIMIT
         /\ (List.length samples <= portal.(recordCount))%nat
     | None => portal.(recordCount) = 0%nat
     end).

Lemma analyzePortal_sampled
    (input : AnalyzePortalDataInput) (portalDataMap : @PortalDataMap V)
    (portalName : string) (portalFields : list FileMaker.FMFieldMetaData) :
  sampled input
    (analyzePortal
       (match input.(in_includeSampleData) with Some b => b | None => false end)
       (Qmin (match input.(in_sampleLimit) with
              | Some n => n
              | None => inject_Z DEFAULT_SAMPLE_LIMIT
              end)
             (inject_Z MAX_SAMPLE_LIMIT))
       portalDataMap portalName portalFields).
Proof.
  unfold analyzePortal.
  destruct input.(in_includeSampleData) as [[|]|]; try reflexivity.
  destruct (JsString.getProperty portalDataMap portalName) as [rows|];
    [|reflexivity].
  simpl. split; [reflexivity|].
  apply extractSampleData_length; [unfold MAX_SAMPLE_LIMIT; lia|].
  apply Q.le_min_r.
Qed.

Section WithRemote.
Context {W : Type} (remote : Remote W)
        (fetchFirstRecord : string -> M W (Response (list (@RecordPortals V)))).

#[warnings="-notation-for-abbreviation"]
Local Notation includeOf input :=
  (match input.(in_includeSampleData) with Some b => b | None => false end).

#[warnings="-notation-for-abbreviation"]
Local Notation limitOf input :=
  (Qmin (match input.(in_sampleLimit) with
         | Some n => n
         | None => inject_Z DEFAULT_SAMPLE_LIMIT
         end)
        (inject_Z MAX_SAMPLE_LIMIT)).

(** What [analyzePortalData] does once the metadata is there and names at
    least one portal. *)
Lemma analyzePortalData_run
    (input : AnalyzePortalDataInput) (s s1 : Sys W)
    (response : ApiResponse FileMaker.FMLayoutMetadataResponse)
    (entry : string * list FileMaker.FMFieldMetaData)
    (rest : list (string * list FileMaker.FMFieldMetaData)) :
  fetchLayoutMetadata remote input.(in_layout) s = (Success response, s1) ->
  response.(data).(FileMaker.portalMetaData) = Some (entry :: rest) ->
  exists portalDataMap s',
    analyzePortalData remote fetchFirstRecord input s =
      (inl (mkAnalyzePortalDataOutput input.(in_layout)
              (fst (analyzePortals (includeOf input) (limitOf input)
                                   portalDataMap (entry :: rest)))
              (List.length
                 (fst (analyzePortals (includeOf input) (limitOf input)
                                      portalDataMap (entry :: rest))))
              (snd (analyzePortals (includeOf input) (limitOf input)
                                   portalDataMap (entry :: rest)))), s').
Proof.
  intros Hfetch Hportals. unfold analyzePortalData, bind. rewrite Hfetch, Hportals.
  destruct input.(in_includeSampleData) as [[|]|].
  - destruct (fetchFirstRecord input.(in_layout) s1) as [recordsResult s2].
    now exists (portalDataOf recordsResult), s2.
  - now exists [], s1.
  - now exists [], s1.
Qed.

Lemma analyzePortal_name
    (includeSampleData : bool) (sampleLimit : Q) (portalDataMap : @PortalDataMap V)
    (portalName : string) (portalFields : list FileMaker.FMFieldMetaData) :
  let portal :=
    analyzePortal includeSampleData sampleLimit portalDataMap portalName portalFields in
  portal.(name) = portalName
  /\ portal.(fields) = map convertFieldMetadata portalFields
  /\ portal.(relatedTableName) = inferRelatedTableName portalName.
Proof.
  cbv zeta. unfold analyzePortal.
  now destruct includeSampleData, (JsString.getProperty portalDataMap portalName).
Qed.

(** X23. When the request for the layout's metadata fails, the analysis
    returns the error of that request.  Once the metadata is there the
    analysis succeeds whatever the request for the first record answers,
    with one entry per portal of the layout, in the portals' order, under
    the portal's own name and with the portal's fields. *)
Theorem analyzePortalData_outcome (input : AnalyzePortalDataInput) (s : Sys W) :
  (forall e s1,
      fetchLayoutMetadata remote input.(in_layout) s = (Failure e, s1) ->
      analyzePortalData remote fetchFirstRecord input s = (inr e, s1))
  /\ (forall response s1,
        fetchLayoutMetadata remote input.(in_layout) s = (Success response, s1) ->
        exists out s',
          analyzePortalData remote fetchFirstRecord input s = (inl out, s')
          /\ out.(out_layout) = input.(in_layout)
          /\ map (fun portal => (portal.(name), portal.(fields))) out.(portals) =
               map (fun entry => (fst entry, map convertFieldMetadata (snd entry)))
                   (match response.(data).(FileMaker.portalMetaData) with
                    | Some portalMetaData => portalMetaData
                    | None => []
                    end)).
Proof.
  split.
  - intros e s1 Hfetch. unfold analyzePortalData, bind. now rewrite Hfetch.
  - intros response s1 Hfetch.
    destruct response.(data).(FileMaker.portalMetaData) as [[|entry rest]|]
      eqn:Hportals.
    + unfold analyzePortalData, bind. rewrite Hfetch, Hportals.
      eexists. eexists. now repeat split.
    + destruct (analyzePortalData_run input s s1 response entry rest Hfetch Hportals)
        as (portalDataMap & s' & Hrun).
      eexists. exists s'. split; [exact Hrun|]. split; [reflexivity|].
      cbn [portals]. unfold analyzePortals. cbn [fst]. rewrite map_map.
      apply map_ext. intros [portalName portalFields]. cbn [fst snd].
      destruct (analyzePortal_name (includeOf input) (limitOf input) portalDataMap
                  portalName portalFields) as (Hname & Hfields & _).
      now rewrite Hname, Hfields.
    + unfold analyzePortalData, bind. rewrite Hfetch, Hportals.
      eexists. eexists. now repeat split.
Qed.

(** X24. In a successful analysis the summary agrees with the entries: the
    total is the number of entries, and the related tables are the guessed
    table names of the entries, each listed once.  Samples are given only
    when they were asked for; an entry with samples has at most 100 of
    them and no more than its record count, and an entry without samples
    has the record count 0. *)
Theorem analyzePortalData_summary
    (input : AnalyzePortalDataInput) (s s' : Sys W) (out : AnalyzePortalDataOutput) :
  analyzePortalData remote fetchFirstRecord input s = (inl out, s') ->
  out.(totalPortals) = List.length out.(portals)
  /\ NoDup out.(relatedTables)
  /\ (forall table,
        In table out.(relatedTables) <->
        In table (map relatedTableName out.(portals)))
  /\ Forall (sampled input) out.(portals).
Proof.
  intros Hout.
  destruct (fetchLayoutMetadata remote input.(in_layout) s)
    as [[response|e|] s1] eqn:Hfetch;
    [|unfold analyzePortalData, bind in Hout; rewrite Hfetch in Hout; discriminate..].
  destruct response.(data).(FileMaker.portalMetaData) as [[|entry rest]|]
    eqn:Hportals.
  - unfold analyzePortalData, bind in Hout. rewrite Hfetch, Hportals in Hout.
    injection Hout as <- _. simpl.
    repeat split; try constructor; intros [].
  - destruct (analyzePortalData_run input s s1 response entry rest Hfetch Hportals)
      as (portalDataMap & s2 & Hrun).
    rewrite Hrun in Hout. clear Hrun Hportals.
    remember (entry :: rest) as portalMetaData eqn:Hentries. clear Hentries.
    injection Hout as <- _.
    cbn [totalPortals portals relatedTables]. unfold analyzePortals. cbn [fst snd].
    destruct (setAdd_fold (fun entry : string * list FileMaker.FMFieldMetaData =>
                             inferRelatedTableName (fst entry))
                          portalMetaData [] (NoDup_nil _)) as (Hnodup & Hin).
    split; [reflexivity|]. split; [exact Hnodup|]. split.
    + intros table. rewrite Hin, map_map.
      rewrite (map_ext
                 (fun x : string * list FileMaker.FMFieldMetaData =>
                    relatedTableName
                      (analyzePortal (includeOf input) (limitOf input)
                                     portalDataMap (fst x) (snd x)))
                 (fun x => inferRelatedTableName (fst x))).
      * split; [intros [[]|H]; exact H|intros H; now right].
      * intros [portalName portalFields].
        apply (analyzePortal_name (includeOf input) (limitOf input) portalDataMap).
    + apply Forall_forall. intros portal Hportal.
      apply in_map_iff in Hportal as ([portalName portalFields] & <- & _).
      apply analyzePortal_sampled.
  - unfold analyzePortalData, bind in Hout. rewrite Hfetch, Hportals in Hout.
    injection Hout as <- _. simpl.
    repeat split; try constructor; intros [].
Qed.

End WithRemote.

End Values.

Lemma extractSampleData_samples_witness :
  (2 < List.length (extractSampleData Samples.orderRows (5 # 2)%Q))%nat
  /\ exists record,
       nth_error Samples.protoRows 0 = Some record
       /\ forall key value,
            In (key, value) [("Orders::Amount", "7")] <->
            In (key, value) record
            /\ key <> "recordId" /\ key <> "modId" /\ key <> "__proto__".
Proof.
  split.
  - apply (proj1 (extractSampleData_samples Samples.orderRows (5 # 2)%Q) 2%nat).
    split; [reflexivity|simpl; lia].
  - apply (proj2 (extractSampleData_samples Samples.protoRows 1%Q) 0%nat).
    reflexivity.
Defined.

Lemma analyzePortalData_outcome_witness :
  exists out s',
    analyzePortalData Scenario.snapshotRemote Samples.failingFirstRecord
      (mkAnalyzePortalDataInput "Customers" (Some true) None)
      (Scenario.start Scenario.salesDb Scenario.activeManager) = (inl out, s')
    /\ out.(out_layout) = "Customers"
    /\ map (fun portal => (portal.(name), portal.(fields))) out.(portals) =
         [ ("Orders", [ convertFieldMetadata (Scenario.field "Amount" "number") ]) ].
Proof.
  apply (proj2 (analyzePortalData_outcome Scenario.snapshotRemote
                  Samples.failingFirstRecord
                  (mkAnalyzePortalDataInput "Customers" (Some true) None)
                  (Scenario.start Scenario.salesDb Scenario.activeManager))
               (mkApiResponse 200 Scenario.customersMetadata [])
               (snd (fetchLayoutMetadata Scenario.snapshotRemote "Customers"
                       (Scenario.start Scenario.salesDb Scenario.activeManager)))).
  reflexivity.
Defined.

Lemma analyzePortalData_summary_witness :
  exists out s',
    analyzePortalData Scenario.snapshotRemote Samples.fetchFirstRecord
      (mkAnalyzePortalDataInput "Customers" (Some true) (Some 2%Q))
      (Scenario.start Scenario.salesDb Scenario.activeManager) = (inl out, s')
    /\ out.(totalPortals) = List.length out.(portals)
    /\ NoDup out.(relatedTables)
    /\ map recordCount out.(portals) = [3%nat]
    /\ map (fun portal => option_map (@List.length _) portal.(sampleData)) out.(portals)
       = [Some 2%nat].
Proof.
  destruct (analyzePortalData Scenario.snapshotRemote Samples.fetchFirstRecord
              (mkAnalyzePortalDataInput "Customers" (Some true) (Some 2%Q))
              (Scenario.start Scenario.salesDb Scenario.activeManager))
    as [[out|e] s'] eqn:Hrun; [|vm_compute in Hrun; discriminate].
  exists out, s'. split; [reflexivity|].
  destruct (analyzePortalData_summary _ _ _ _ _ _ Hrun) as (Htotal & Hnodup & _ & _).
  split; [exact Htotal|]. split; [exact Hnodup|].
  vm_compute in Hrun. injection Hrun as <- _. split; reflexivity.
Defined.

End PortalAnalyzerLaws.

(* ====================================================================== *)
(** * Properties of the configuration loader and of the login tool *)
(* ====================================================================== *)

Module ConfigLoaderLaws.
Import ConfigLoader StringLaws.

Lemma truthy_Some (x : option string) :
  truthy x = true <-> exists s, x = Some s /\ s <> "".
Proof.
  unfold truthy. destruct x as [s|].
  - destruct (String.eqb_spec s "") as [->|Hne]; simpl; split.
    + discriminate.
    + intros (s' & H & Hne). injection H as <-. contradiction.
    + intros _. now exists s.
    + reflexivity.
  - split; [discriminate|]. intros (s & H & _). discriminate.
Qed.

Lemma endsWith_slash_length (s : string) :
  JsString.endsWith s "/" = true -> (1 <= String.length s)%nat.
Proof.
  unfold JsString.endsWith. cbv zeta. change (String.length "/") with 1%nat.
  destruct (Nat.leb_spec 1 (String.length s)); [trivial|discriminate].
Qed.

Lemma dropLast_length (s : string) :
  String.length (JsText.dropLast s) = (String.length s - 1)%nat.
Proof. unfold JsText.dropLast. apply length_substring. lia. Qed.

(** The loop that removes trailing slashes ends before its fuel does, on a
    string that does not end in a slash. *)
Lemma stripTrailingSlashes_done (fuel : nat) :
  forall normalized : string,
    (String.length normalized < fuel)%nat ->
    JsString.endsWith (stripTrailingSlashes fuel normalized) "/" = false.
Proof.
  induction fuel as [|fuel IH]; intros normalized Hfuel; [lia|]. simpl.
  destruct (JsString.endsWith normalized "/") eqn:Hends; [|exact Hends].
  apply IH. rewrite dropLast_length.
  apply endsWith_slash_length in Hends. lia.
Qed.

Lemma normalizeServerUrl_no_slash (url : option string) (normalized : string) :
  normalizeServerUrl url = Some normalized ->
  JsString.endsWith normalized "/" = false.
Proof.
  unfold normalizeServerUrl. destruct (negb (truthy url)); [discriminate|].
  destruct url as [u|]; [|discriminate].
  intros H.
  apply (f_equal (fun x => match x with Some v => v | None => normalized end)) in H.
  cbv beta iota in H. rewrite <- H. apply stripTrailingSlashes_done. lia.
Qed.

Lemma whenTruthy_Some (x : option string) (s : string) :
  whenTruthy x = Some s -> x = Some s.
Proof. unfold whenTruthy. now destruct (truthy x). Qed.

Lemma requiredError_nil (field : option string) (name : string) :
  requiredError field name = [] <-> truthy field = true.
Proof.
  unfold requiredError. destruct (truthy field); split; try reflexivity;
    discriminate.
Qed.

#[warnings="-notation-for-abbreviation"]
Local Notation complete config :=
  ((exists s, config.(server) = Some s /\ s <> ""
              /\ JsString.startsWith s "http://" = false)
   /\ (exists d, config.(database) = Some d /\ d <> "")
   /\ (exists u, config.(username) = Some u /\ u <> "")
   /\ (exists p, config.(password) = Some p /\ p <> "")).

Lemma validateConfig_complete (config : PartialConfig) :
  (validateConfig config).(valid) = true <-> complete config.
Proof.
  unfold validateConfig. cbn [valid].
  rewrite <- !truthy_Some.
  split.
  - intros H.
    destruct (_ ++ _ ++ _ ++ _) as [|e es] eqn:Herrors; [|discriminate].
    apply app_eq_nil in Herrors as (Hserver & Herrors).
    apply app_eq_nil in Herrors as (Hdatabase & Herrors).
    apply app_eq_nil in Herrors as (Husername & Hpassword).
    apply requiredError_nil in Hdatabase, Husername, Hpassword.
    repeat split; try assumption.
    destruct (truthy config.(server)) eqn:Htruthy; [|discriminate].
    apply truthy_Some in Htruthy as (s & Hs & Hne).
    exists s. rewrite Hs in Hserver. simpl in Hserver.
    destruct (JsString.startsWith s "http://"); [discriminate|]. now repeat split.
  - intros ((s & Hs & Hne & Hhttp) & Hdatabase & Husername & Hpassword).
    assert (Htruthy : truthy config.(server) = true).
    { apply truthy_Some. now exists s. }
    unfold requiredError.
    now rewrite Htruthy, Hs, Hhttp, Hdatabase, Husername, Hpassword.
Qed.

(** X25. A partial configuration is valid exactly when server, database,
    user name and password are all present and non-empty and the server
    does not start with [http://]; then no error is listed, and otherwise
    at least one is.  The warnings about SSL verification and the session
    timeout have no part in it. *)
Theorem validateConfig_valid_iff (config : PartialConfig) :
  ((validateConfig config).(valid) = true <-> complete config)
  /\ ((validateConfig config).(valid) = true <-> (validateConfig config).(errors) = [])
  /\ (forall (ssl : option bool) (timeout : option Z),
        (validateConfig
           (mkPartialConfig config.(server) config.(database) config.(username)
              config.(password) config.(apiVersion) ssl timeout)).(valid)
        = (validateConfig config).(valid)).
Proof.
  split; [apply validateConfig_complete|]. split.
  - unfold validateConfig. cbn [valid errors].
    destruct (_ ++ _ ++ _ ++ _); split; try reflexivity; discriminate.
  - reflexivity.
Qed.

Lemma validateConfig_valid_iff_witness :
  (validateConfig (loadConfigFromEnv Samples.httpEnv)).(valid) = false
  /\ (validateConfig
        (mkPartialConfig (Some "https://fm.example.com") (Some "Sales")
           (Some "analyst") (Some "secret") None (Some false) (Some 5))).(valid) = true.
Proof.
  split; [reflexivity|].
  apply (proj2 (proj1 (validateConfig_valid_iff
                         (mkPartialConfig (Some "https://fm.example.com") (Some "Sales")
                            (Some "analyst") (Some "secret") None (Some false)
                            (Some 5))))).
  simpl. split; [|split; [|split]].
  - exists "https://fm.example.com".
    split; [reflexivity|]. split; [discriminate|reflexivity].
  - exists "Sales". split; [reflexivity|discriminate].
  - exists "analyst". split; [reflexivity|discriminate].
  - exists "secret". split; [reflexivity|discriminate].
Defined.

(** The server of the merged configuration went through
    [normalizeServerUrl] whenever it is not empty. *)
Lemma mergeConfig_server (env : Env) (overrides : option PartialConfig) (s : string) :
  (mergeConfig env overrides).(server) = Some s -> s <> "" ->
  JsString.endsWith s "/" = false.
Proof.
  unfold mergeConfig. destruct overrides as [o|]; cbn [server loadConfigFromEnv].
  - destruct (truthy o.(server)) eqn:Htruthy.
    + intros H _. now apply (normalizeServerUrl_no_slash o.(server)).
    + unfold mergeField. destruct o.(server) as [v|].
      * intros H Hne. injection H as ->. unfold truthy in Htruthy.
        destruct (String.eqb_spec s ""); [contradiction|discriminate].
      * intros H _. apply whenTruthy_Some in H.
        now apply (normalizeServerUrl_no_slash env.(FM_SERVER)).
  - intros H _. apply whenTruthy_Some in H.
    now apply (normalizeServerUrl_no_slash env.(FM_SERVER)).
Qed.

Lemma getConfig_valid
    (env : Env) (overrides : option PartialConfig) (config : Config.FileMakerConfig) :
  getConfig env overrides = inl config ->
  config.(Config.server) <> ""
  /\ JsString.startsWith config.(Config.server) "http://" = false
  /\ JsString.endsWith config.(Config.server) "/" = false
  /\ config.(Config.database) <> ""
  /\ config.(Config.username) <> ""
  /\ config.(Config.password) <> ""
  /\ Some config.(Config.server) = (mergeConfig env overrides).(server)
  /\ Some config.(Config.database) = (mergeConfig env overrides).(database)
  /\ Some config.(Config.username) = (mergeConfig env overrides).(username)
  /\ Some config.(Config.password) = (mergeConfig env overrides).(password).
Proof.
  unfold getConfig.
  destruct (validateConfig (mergeConfig env overrides)).(valid) eqn:Hvalid;
    [|discriminate].
  intros H. injection H as <-.
  apply validateConfig_complete in Hvalid
    as ((s & Hs & Hne & Hhttp) & (d & Hd & Hdne) & (u & Hu & Hune) & (p & Hp & Hpne)).
  pose proof (mergeConfig_server env overrides s Hs Hne) as Hslash.
  unfold castConfig. simpl. rewrite Hs, Hd, Hu, Hp.
  repeat split; assumption.
Qed.

(** X26. A configuration that [getConfig] returns is complete and usable:
    server, database, user name and password are non-empty, the server
    does not start with [http://] and does not end with a slash.  When
    [getConfig] returns a validation result instead, that result is invalid
    and lists at least one error. *)
Theorem getConfig_outcome (env : Env) (overrides : option PartialConfig) :
  (forall config,
      getConfig env overrides = inl config ->
      config.(Config.server) <> ""
      /\ JsString.startsWith config.(Config.server) "http://" = false
      /\ JsString.endsWith config.(Config.server) "/" = false
      /\ config.(Config.database) <> ""
      /\ config.(Config.username) <> ""
      /\ config.(Config.password) <> "")
  /\ (forall validation,
        getConfig env overrides = inr validation ->
        validation.(valid) = false /\ validation.(errors) <> []
        /\ isValidConfig (getConfig env overrides) = false).
Proof.
  split.
  - intros config H. apply getConfig_valid in H. tauto.
  - intros validation H. rewrite H. unfold getConfig in H.
    destruct (validateConfig (mergeConfig env overrides)).(valid) eqn:Hvalid;
      [discriminate|].
    injection H as <-. split; [exact Hvalid|]. split; [|reflexivity].
    intros Herrors. unfold validateConfig in Hvalid, Herrors.
    cbn [valid errors] in Hvalid, Herrors. rewrite Herrors in Hvalid. discriminate.
Qed.

Lemma getConfig_outcome_witness :
  (Config.server
     (Config.mkFileMakerConfig "https://fm.example.com" "Sales" "analyst" "secret"
        "vLatest" true 600)) <> ""
  /\ isValidConfig (getConfig Samples.httpEnv None) = false.
Proof.
  split.
  - apply (proj1 (getConfig_outcome Samples.env
                    (Some (mkPartialConfig None None None (Some "secret")
                                           None None None)))
                 (Config.mkFileMakerConfig "https://fm.example.com" "Sales" "analyst"
                    "secret" "vLatest" true 600)).
    reflexivity.
  - apply (proj2 (getConfig_outcome Samples.httpEnv None)
                 (validateConfig (loadConfigFromEnv Samples.httpEnv))).
    reflexivity.
Defined.

End ConfigLoaderLaws.

Module AuthToolsLaws.
Import Client Session SessionLogin AuthTools.

#[warnings="-notation-for-abbreviation"]
Local Notation overridesOf args :=
  (Some (ConfigLoader.mkPartialConfig
           args.(AuthTools.server) args.(AuthTools.database)
           args.(AuthTools.username) args.(AuthTools.password) None None None)).

(** X27. The login tool never contacts the server with a configuration
    that is not valid: it then returns the INTERNAL_CONFIG_ERROR error
    (5002, not retryable) and leaves the session manager, the remote system
    and the request trace as they were.  When it reports success, the
    manager holds the session it reports, for a server that does not start
    with [http://] and does not end with a slash and for a non-empty
    database, and an argument that was given decided the database. *)
Theorem handleLogin_configuration
    {W : Type} (remote : Remote W) (loginRequest : LoginRequest W)
    (env : ConfigLoader.Env) (args : LoginInput) (s : Sys W) :
  (ConfigLoader.isValidConfig (ConfigLoader.getConfig env (overridesOf args)) = false ->
   exists e,
     handleLogin remote loginRequest env args s = (inr e, s)
     /\ e.(Tools.error).(Tools.code) = ErrorMapper.ErrorCodes.INTERNAL_CONFIG_ERROR
     /\ e.(Tools.error).(Tools.message) = "Invalid configuration"
     /\ e.(Tools.error).(Tools.retryable) = false)
  /\ (forall out s',
        handleLogin remote loginRequest env args s = (inl out, s') ->
        out.(login_message) = "Login successful"
        /\ (exists st,
              (manager s').(state) = Some st /\ st.(info) = out.(sessionInfo))
        /\ JsString.startsWith out.(sessionInfo).(Session.server) "http://" = false
        /\ JsString.endsWith out.(sessionInfo).(Session.server) "/" = false
        /\ out.(sessionInfo).(Session.database) <> ""
        /\ (forall d, args.(AuthTools.database) = Some d ->
                      out.(sessionInfo).(Session.database) = d)).
Proof.
  split.
  - intros Hinvalid. unfold handleLogin.
    destruct (ConfigLoader.getConfig env (overridesOf args)) as [config|validation];
      [discriminate|].
    eexists. split; [reflexivity|]. now repeat split.
  - intros out s'. unfold handleLogin.
    destruct (ConfigLoader.getConfig env (overridesOf args)) as [config|validation]
      eqn:Hconfig; [|discriminate].
    apply ConfigLoaderLaws.getConfig_valid in Hconfig
      as (_ & Hhttp & Hslash & Hdatabase & _ & _ & _ & Hmerged & _).
    unfold bind. rewrite SessionLaws.login_run. cbv zeta.
    destruct (loginRequest _ _ _ _) as [[r|e] w']; [|discriminate].
    unfold ret. intros H. injection H as <- <-.
    cbn [login_message sessionInfo manager state Session.server Session.database info].
    split; [reflexivity|]. split; [eexists; split; reflexivity|].
    split; [exact Hhttp|]. split; [exact Hslash|]. split; [exact Hdatabase|].
    intros d Hd. unfold ConfigLoader.mergeConfig in Hmerged.
    cbn [ConfigLoader.database] in Hmerged. rewrite Hd in Hmerged.
    simpl in Hmerged. now injection Hmerged.
Qed.

Lemma handleLogin_configuration_witness :
  exists e,
    handleLogin Scenario.snapshotRemote Samples.loginRequest Samples.env
      (mkLoginInput None None None None)
      (Scenario.start Scenario.salesDb Scenario.activeManager)
    = (inr e, Scenario.start Scenario.salesDb Scenario.activeManager)
    /\ e.(Tools.error).(Tools.code) = 5002
    /\ e.(Tools.error).(Tools.message) = "Invalid configuration"
    /\ e.(Tools.error).(Tools.retryable) = false.
Proof.
  apply (proj1 (handleLogin_configuration Scenario.snapshotRemote Samples.loginRequest
                  Samples.env (mkLoginInput None None None None)
                  (Scenario.start Scenario.salesDb Scenario.activeManager))).
  reflexivity.
Defined.

End AuthToolsLaws.
